(** * hazeljs-csr-agent: a shallow embedding of the CSR agent service

    The development follows the TypeScript sources of the repository:
    - the agent and its tools, [csr.agent.ts] (module [CSRAgent]), with
      the types of [csr.types.ts] (module [CSRTypes]);
    - the service, [csr.service.ts] (module [CSRService]);
    - the REST controller, [csr.controller.ts] (module [CSRController]);
    - the WebSocket gateway, [csr.gateway.ts] (module [CSRGateway]);
    - the start of the process, [index.ts] (module [Bootstrap]).

    JavaScript effects are made explicit: a method of the service is a
    computation in the monad [M W], which threads the mutable world [W]
    and either returns a value or throws.  An [await] is a sequence
    point; what other callers and the timers do in between is a call or
    an event-loop step of its own.

    The packages the repository imports ([@hazeljs/agent],
    [@hazeljs/rag], [@hazeljs/websocket]) are not part of it.  The
    service is written against the interface [AgentRuntime]; the
    knowledge backend (module [Rag]), the approval gate (module
    [ApprovalGate]) and the agent loop (module [AgentLoop]) are modelled
    from the specification.  Module [Recorder] is a runtime that records
    the calls it receives, on which the service is run on concrete
    inputs. *)

From Stdlib Require Import ZArith Floats.
From stdpp Require Import gmap strings list pretty.

Set Warnings "-register-all".

(** ** JavaScript values *)

Module Js.

(** A JavaScript [number] is an IEEE 754 binary64. *)
Definition number : Type := float.

Inductive value : Type :=
| undefined
| null
| boolean (b : bool)
| num (n : number)
| str (s : string)
| array (items : list value)
| object (fields : list (string * value)).

(** [ToBoolean]: the values [if (v)], [!v] and [v || d] treat as true. *)
Definition truthy_number (n : number) : bool :=
  negb (PrimFloat.is_zero n || PrimFloat.is_nan n).

Definition truthy_string (s : string) : bool :=
  match s with
  | EmptyString => false
  | String _ _ => true
  end.

Definition truthy (v : value) : bool :=
  match v with
  | undefined | null => false
  | boolean b => b
  | num n => truthy_number n
  | str s => truthy_string s
  | array _ | object _ => true
  end.

Definition typeof (v : value) : string :=
  match v with
  | undefined => "undefined"
  | null | array _ | object _ => "object"
  | boolean _ => "boolean"
  | num _ => "number"
  | str _ => "string"
  end.

(** [s || d] and [o || d] for an optional string. *)
Definition or_string (s : option string) (d : string) : string :=
  match s with
  | Some s' => if truthy_string s' then s' else d
  | None => d
  end.

Definition or_number (n : option number) (d : number) : number :=
  match n with
  | Some n' => if truthy_number n' then n' else d
  | None => d
  end.

(** An object literal with a spread, [{ k: v, ...o }]: a key of [o]
    that is already present keeps its place and takes the new value. *)
Fixpoint set_field (k : string) (v : value) (o : list (string * value))
  : list (string * value) :=
  match o with
  | [] => [(k, v)]
  | (k', v') :: o' =>
      if decide (k' = k) then (k, v) :: o' else (k', v') :: set_field k v o'
  end.

Definition spread (o extra : list (string * value)) : list (string * value) :=
  fold_left (fun acc kv => set_field kv.1 kv.2 acc) extra o.

Fixpoint get_field (k : string) (o : list (string * value)) : value :=
  match o with
  | [] => undefined
  | (k', v') :: o' => if decide (k' = k) then v' else get_field k o'
  end.

(** What a [catch (error)] clause can receive.  The sources look at a
    caught value in three ways only: [error instanceof Error],
    [error.message] and [String(error)]; a value that is not an [Error]
    is kept as the text [String] gives for it. *)
Record Error : Type := mkError { name : string; message : string }.

Inductive thrown : Type :=
| thrown_Error (e : Error)
| thrown_other (shown : string).

Definition instanceof_Error (t : thrown) : bool :=
  match t with
  | thrown_Error _ => true
  | thrown_other _ => false
  end.

(** [Error.prototype.toString]. *)
Definition Error_toString (e : Error) : string :=
  if truthy_string (name e)
  then if truthy_string (message e)
       then name e +:+ ": " +:+ message e
       else name e
  else message e.

(** [String(error)]. *)
Definition String_ (t : thrown) : string :=
  match t with
  | thrown_Error e => Error_toString e
  | thrown_other shown => shown
  end.

(** [error instanceof Error ? error.message : 'Unknown error']. *)
Definition message_or_unknown (t : thrown) : string :=
  match t with
  | thrown_Error e => message e
  | thrown_other _ => "Unknown error"
  end.

End Js.

(** ** Computations that mutate the world and may throw *)

Inductive outcome (A : Type) : Type :=
| Returned (a : A)
| Threw (t : Js.thrown).
Arguments Returned {A} a.
Arguments Threw {A} t.

Record M (W A : Type) : Type := mkM { run : W → outcome A * W }.
Arguments mkM {W A} run.
Arguments run {W A} m w.

Section Monad.
Context {W : Type}.

Definition ret {A} (a : A) : M W A := mkM (fun w => (Returned a, w)).

Definition bind {A B} (m : M W A) (k : A → M W B) : M W B :=
  mkM (fun w =>
    match run m w with
    | (Returned a, w') => run (k a) w'
    | (Threw t, w') => (Threw t, w')
    end).

Definition throw {A} (t : Js.thrown) : M W A := mkM (fun w => (Threw t, w)).

(** [try { m } catch (e) { h e }]: what [m] did to the world before it
    threw stays done. *)
Definition try_catch {A} (m : M W A) (h : Js.thrown → M W A) : M W A :=
  mkM (fun w =>
    match run m w with
    | (Returned a, w') => (Returned a, w')
    | (Threw t, w') => run (h t) w'
    end).

Definition gets {A} (f : W → A) : M W A := mkM (fun w => (Returned (f w), w)).

Definition modify (f : W → W) : M W unit := mkM (fun w => (Returned tt, f w)).

(** A call that is total on the state: [f] gives the result and the
    state after it. *)
Definition lift {A} (f : W → outcome A * W) : M W A := mkM f.

(** [for (const x of xs) { body x }]. *)
Fixpoint for_of {A} (xs : list A) (body : A → M W unit) : M W unit :=
  match xs with
  | [] => ret tt
  | x :: xs' => bind (body x) (fun _ => for_of xs' body)
  end.

End Monad.

(** stdpp's monad notations, [x ← m; k] and [m;; k], are used for [M W]. *)
Global Instance M_ret {W} : MRet (M W) := @ret W.
Global Instance M_bind {W} : MBind (M W) := λ A B k m, bind m k.

(** The outcome and the world of a computation. *)
Definition result_of {W A} (m : M W A) (w : W) : outcome A := (run m w).1.
Definition world_after {W A} (m : M W A) (w : W) : W := (run m w).2.

(** ** Data exchanged between the service, the agent and the runtime *)

Definition Metadata : Type := list (string * Js.value).

(** A cited document: what [searchKnowledgeBase] returns for a search hit
    and what [chat] copies into [sources]. *)
Record Document : Type := mkDocument {
  doc_id : string;
  doc_content : string;
  doc_score : Js.number;
  doc_metadata : option Metadata;
}.

(** The return value of the [searchKnowledgeBase] tool:
    [{ success, query, documents, totalResults }] or
    [{ success, error, documents }]. *)
Record SearchToolResult : Type := mkSearchToolResult {
  success : bool;
  query : option string;
  error : option string;
  documents : list Document;
  totalResults : option nat;
}.

(** A step of an execution, as far as [chat] reads it:
    [step.action as { type?, toolName? }] and
    [step.result as { output?: { documents?: [...] } }]. *)
Record StepAction : Type := mkStepAction {
  act_type : option string;
  act_toolName : option string;
}.

Record ToolOutput : Type := mkToolOutput {
  out_documents : option (list Document);
  out_fields : Metadata;
}.

Record StepResult : Type := mkStepResult {
  res_output : option ToolOutput;
}.

Record AgentStep : Type := mkAgentStep {
  step_action : option StepAction;
  step_result : option StepResult;
}.

(** What [runtime.execute] resolves to. *)
Record ExecutionResult : Type := mkExecutionResult {
  exec_response : option string;
  exec_executionId : option string;
  exec_steps : list AgentStep;
  exec_duration : option Js.number;
}.

Record ExecuteOptions : Type := mkExecuteOptions {
  opt_sessionId : string;
  opt_userId : option string;
  opt_enableMemory : bool;
  opt_enableRAG : bool;
}.

(** [csr.types.ts]; [sources] is [None] when the field is [undefined]. *)
Module CSRTypes.

Record ChatResponseDto : Type := mkChatResponseDto {
  response : string;
  executionId : option string;
  sessionId : string;
  steps : nat;
  duration : Js.number;
  sources : option (list Document);
}.

End CSRTypes.
Import CSRTypes.

(** ** The knowledge backend *)

Module Rag.

Inductive store_kind : Type :=
| MemoryVectorStore
| PineconeVectorStore
| QdrantVectorStore.

Global Instance store_kind_eq_dec : EqDecision store_kind.
Proof. solve_decision. Defined.

Record SearchOptions : Type := mkSearchOptions {
  topK : Js.number;
  includeMetadata : bool;
  minScore : Js.number;
}.

Record SearchResult : Type := mkSearchResult {
  sr_id : string;
  sr_content : string;
  sr_score : Js.number;
  sr_metadata : option Metadata;
}.

Record Indexed : Type := mkIndexed {
  ix_id : string;
  ix_content : string;
  ix_metadata : Metadata;
}.

(** Modelled from the spec: the vector store and the embedding client of
    [@hazeljs/rag], which are not under src/.  The specification treats a
    knowledge backend as an opaque capability, [index(content) -> ids]
    and [search(query, options) -> ranked documents], whose [initialize]
    fails when the service is unreachable.  A backend is given by
    whether it can be reached and by how it ranks what was indexed. *)
Record Backend : Type := mkBackend {
  unreachable : option Js.thrown;
  rank : list Indexed → string → SearchOptions → list SearchResult;
}.

(** A [RAGService] object. *)
Record RAGService : Type := mkRAGService {
  vectorStore : store_kind;
  backend : Backend;
  defaultTopK : nat;
  initialized : bool;
  indexed : list Indexed;
}.

Definition set_initialized (s : RAGService) : RAGService :=
  mkRAGService (vectorStore s) (backend s) (defaultTopK s) true (indexed s).

Definition add_indexed (d : Indexed) (s : RAGService) : RAGService :=
  mkRAGService (vectorStore s) (backend s) (defaultTopK s) (initialized s)
    (indexed s ++ [d]).

(** Modelled from the spec: [RAGService.initialize]. *)
Definition initialize (s : RAGService) : outcome unit * RAGService :=
  match unreachable (backend s) with
  | Some e => (Threw e, s)
  | None => (Returned tt, set_initialized s)
  end.

(** Modelled from the spec: [RAGService.search]. *)
Definition search (q : string) (o : SearchOptions) (s : RAGService)
  : outcome (list SearchResult) :=
  match unreachable (backend s) with
  | Some e => Threw e
  | None => Returned (rank (backend s) (indexed s) q o)
  end.

(** Modelled from the spec: [RAGService.index]; the document is stored
    under a fresh id, which is returned. *)
Definition index (content : string) (metadata : Metadata) (s : RAGService)
  : outcome (list string) * RAGService :=
  match unreachable (backend s) with
  | Some e => (Threw e, s)
  | None =>
      let id := "doc-" +:+ pretty (length (indexed s)) in
      (Returned [id], add_indexed (mkIndexed id content metadata) s)
  end.

End Rag.

(** ** The world the service runs in *)

(** What the process finds around it: [process.env], how a store of each
    kind behaves once constructed, whether the constructor of a remote
    store throws (the package is not installed), and whether
    [memoryManager.initialize] throws. *)
Record Env : Type := mkEnv {
  process_env : gmap string string;
  backend_of : Rag.store_kind → Rag.Backend;
  constructor_throws : Rag.store_kind → bool;
  memoryManager_initialize : option Js.thrown;
}.

Inductive log_level : Type := log_info | log_warn | log_error.

Record LogEntry : Type := mkLogEntry {
  level : log_level;
  text : string;
}.

(** A call of [setTimeout] that has not fired yet.  The service has one
    callback only, the auto-approval of a request, so a timer is its due
    time and the request id its closure holds. *)
Record Timer : Type := mkTimer {
  due : Z;
  timer_requestId : string;
}.

(** An entry of [approvalHandlers]: [{ resolve, approvedBy? }].  The
    waiting caller behind [resolve] is named by a number. *)
Record ApprovalHandler : Type := mkApprovalHandler {
  waiter : nat;
  approvedBy : option string;
}.

(** Frames the WebSocket gateway sends. *)
Inductive WsPayload : Type :=
| ws_message (message : string)
| ws_connected (message clientId : string) (timestamp : Z)
| ws_response (response sessionId : string) (steps : nat)
    (duration : Js.number) (sources : option (list Document)).

Record WsFrame : Type := mkWsFrame {
  ws_event : string;
  ws_data : WsPayload;
}.

Record World (R : Type) : Type := mkWorld {
  (** [Date.now()], in milliseconds *)
  now : Z;
  env : Env;
  (** pending [setTimeout] callbacks, in the order they were scheduled *)
  timers : list Timer;
  (** what [logger] has written *)
  logs : list LogEntry;
  (** the [RAGService] objects, by address *)
  heap : gmap nat Rag.RAGService;
  (** [CSRService.runtime], and the [config.ragService] it was given *)
  runtime : R;
  runtime_config_ragService : nat;
  (** [CSRService.ragService] *)
  ragService : nat;
  (** the [ragService] the [CSRAgent] instance was constructed with *)
  agent_ragService : nat;
  (** [CSRService.approvalHandlers] *)
  approvalHandlers : gmap string ApprovalHandler;
  (** the calls [handler.resolve(approved)] made so far *)
  resolved_waiters : list (nat * bool);
  (** the clients connected to the gateway, with the frames sent to each *)
  clients : gmap string (list WsFrame);
}.
Arguments mkWorld {R}.
Arguments now {R}. Arguments env {R}. Arguments timers {R}.
Arguments logs {R}. Arguments heap {R}. Arguments runtime {R}.
Arguments runtime_config_ragService {R}. Arguments ragService {R}.
Arguments agent_ragService {R}. Arguments approvalHandlers {R}.
Arguments resolved_waiters {R}. Arguments clients {R}.

Section WorldUpdates.
Context {R : Type}.
Implicit Types w : World R.

Definition set_now (t : Z) w : World R :=
  mkWorld t (env w) (timers w) (logs w) (heap w) (runtime w)
    (runtime_config_ragService w) (ragService w) (agent_ragService w)
    (approvalHandlers w) (resolved_waiters w) (clients w).

Definition set_timers (ts : list Timer) w : World R :=
  mkWorld (now w) (env w) ts (logs w) (heap w) (runtime w)
    (runtime_config_ragService w) (ragService w) (agent_ragService w)
    (approvalHandlers w) (resolved_waiters w) (clients w).

Definition set_logs (ls : list LogEntry) w : World R :=
  mkWorld (now w) (env w) (timers w) ls (heap w) (runtime w)
    (runtime_config_ragService w) (ragService w) (agent_ragService w)
    (approvalHandlers w) (resolved_waiters w) (clients w).

Definition set_heap (h : gmap nat Rag.RAGService) w : World R :=
  mkWorld (now w) (env w) (timers w) (logs w) h (runtime w)
    (runtime_config_ragService w) (ragService w) (agent_ragService w)
    (approvalHandlers w) (resolved_waiters w) (clients w).

Definition set_runtime (r : R) w : World R :=
  mkWorld (now w) (env w) (timers w) (logs w) (heap w) r
    (runtime_config_ragService w) (ragService w) (agent_ragService w)
    (approvalHandlers w) (resolved_waiters w) (clients w).

Definition set_runtime_config_ragService (a : nat) w : World R :=
  mkWorld (now w) (env w) (timers w) (logs w) (heap w) (runtime w)
    a (ragService w) (agent_ragService w)
    (approvalHandlers w) (resolved_waiters w) (clients w).

Definition set_ragService (a : nat) w : World R :=
  mkWorld (now w) (env w) (timers w) (logs w) (heap w) (runtime w)
    (runtime_config_ragService w) a (agent_ragService w)
    (approvalHandlers w) (resolved_waiters w) (clients w).

Definition set_approvalHandlers (hs : gmap string ApprovalHandler) w : World R :=
  mkWorld (now w) (env w) (timers w) (logs w) (heap w) (runtime w)
    (runtime_config_ragService w) (ragService w) (agent_ragService w)
    hs (resolved_waiters w) (clients w).

Definition set_resolved_waiters (rs : list (nat * bool)) w : World R :=
  mkWorld (now w) (env w) (timers w) (logs w) (heap w) (runtime w)
    (runtime_config_ragService w) (ragService w) (agent_ragService w)
    (approvalHandlers w) rs (clients w).

Definition set_clients (cs : gmap string (list WsFrame)) w : World R :=
  mkWorld (now w) (env w) (timers w) (logs w) (heap w) (runtime w)
    (runtime_config_ragService w) (ragService w) (agent_ragService w)
    (approvalHandlers w) (resolved_waiters w) cs.

(** [logger.info], [logger.warn], [logger.error]. *)
Definition logger (l : log_level) (msg : string) : M (World R) unit :=
  modify (fun w => set_logs (logs w ++ [mkLogEntry l msg]) w).

(** [new RAGService(...)]: the object is allocated at a fresh address. *)
Definition new_RAGService (s : Rag.RAGService) : M (World R) nat :=
  lift (fun w =>
    let a := fresh (dom (heap w)) in
    (Returned a, set_heap (<[a := s]> (heap w)) w)).

(** A method call on the [RAGService] object at address [a]. *)
Definition no_such_object : Js.thrown :=
  Js.thrown_Error (Js.mkError "TypeError" "Cannot read properties of undefined").

Definition RAGService_initialize (a : nat) : M (World R) unit :=
  lift (fun w =>
    match heap w !! a with
    | Some s =>
        let '(o, s') := Rag.initialize s in
        (o, set_heap (<[a := s']> (heap w)) w)
    | None => (Threw no_such_object, w)
    end).

Definition RAGService_search (a : nat) (q : string) (o : Rag.SearchOptions)
  : M (World R) (list Rag.SearchResult) :=
  lift (fun w =>
    match heap w !! a with
    | Some s => (Rag.search q o s, w)
    | None => (Threw no_such_object, w)
    end).

Definition RAGService_index (a : nat) (content : string) (metadata : Metadata)
  : M (World R) (list string) :=
  lift (fun w =>
    match heap w !! a with
    | Some s =>
        let '(o, s') := Rag.index content metadata s in
        (o, set_heap (<[a := s']> (heap w)) w)
    | None => (Threw no_such_object, w)
    end).

End WorldUpdates.

(** ** The interface of [AgentRuntime]

    [@hazeljs/agent] is not under src/: the service is written against
    the methods of [AgentRuntime] it calls.  [execute] is awaited and may
    reject; [approveToolExecution] and [rejectToolExecution] return
    [void]; [healthCheck] is called as [healthCheck?.()], so it may be
    absent, and it may look at the [RAGService] the configuration of the
    runtime holds. *)
Class AgentRuntime (R : Type) : Type := {
  execute : string → string → ExecuteOptions → R → outcome ExecutionResult * R;
  approveToolExecution : string → string → R → R;
  rejectToolExecution : string → R → R;
  healthCheck : option (R → option Rag.RAGService → outcome Metadata);
}.

(** ** [csr.agent.ts] *)

Module CSRAgent.

(** The [@Agent] decorator. *)
Definition name : string := "csr-agent".
Definition enableMemory : bool := true.
Definition enableRAG : bool := true.
Definition ragTopK : nat := 5.
Definition maxSteps : nat := 15.

(** The [@Tool] decorators, as far as the approval workflow reads them. *)
Record ToolDescriptor : Type := mkTool {
  tool_name : string;
  requiresApproval : bool;
  timeout : option Z;
}.

Definition tools : list ToolDescriptor :=
  [ mkTool "lookupOrder" false None;
    mkTool "checkInventory" false None;
    mkTool "processRefund" true (Some 60000%Z);
    mkTool "updateShippingAddress" true None;
    mkTool "createTicket" false None;
    mkTool "searchKnowledgeBase" false None ].

Definition to_document (r : Rag.SearchResult) : Document :=
  mkDocument (Rag.sr_id r) (Rag.sr_content r) (Rag.sr_score r)
    (Some (default [] (Rag.sr_metadata r))).

Section Tools.
Context {R : Type}.

(** [async searchKnowledgeBase(input: { query, topK? })]. *)
Definition searchKnowledgeBase (input_query : string)
    (input_topK : option Js.number) : M (World R) SearchToolResult :=
  let topK := Js.or_number input_topK 5%float in
  try_catch
    (a ← gets agent_ragService;
     results ← RAGService_search a input_query
                 (Rag.mkSearchOptions topK true 0.5%float);
     mret (mkSearchToolResult true (Some input_query) None
             (to_document <$> results) (Some (length results))))
    (fun error =>
       mret (mkSearchToolResult false None
               (Some (Js.message_or_unknown error)) [] None)).

End Tools.

End CSRAgent.

(** ** [csr.service.ts]

    In src/ the service is the third part of [csr.controller.ts]. *)

Module CSRService.

(** The configuration [new AgentRuntime({...})] is given. *)
Definition defaultMaxSteps : nat := 15.
Definition rateLimitPerMinute : nat := 60.

(** [String.prototype.trim].  A string is kept as its UTF-8 bytes, and
    [trim] removes from both ends the code points ECMAScript calls
    WhiteSpace or LineTerminator: TAB, LF, VT, FF, CR, SPACE, NBSP, the
    other space separators of Unicode, LS, PS and the byte order
    mark. *)
Definition white_space : list N :=
  [ 0x9; 0xA; 0xB; 0xC; 0xD; 0x20; 0xA0; 0x1680;
    0x2000; 0x2001; 0x2002; 0x2003; 0x2004; 0x2005; 0x2006; 0x2007;
    0x2008; 0x2009; 0x200A; 0x2028; 0x2029; 0x202F; 0x205F; 0x3000;
    0xFEFF ]%N.

(** The UTF-8 bytes of a code point below U+10000. *)
Definition utf8 (c : N) : list Ascii.ascii :=
  (if c <? 0x80 then [Ascii.ascii_of_N c]
   else if c <? 0x800
   then [Ascii.ascii_of_N (0xC0 + c / 64); Ascii.ascii_of_N (0x80 + c mod 64)]
   else [Ascii.ascii_of_N (0xE0 + c / 4096);
         Ascii.ascii_of_N (0x80 + (c / 64) mod 64);
         Ascii.ascii_of_N (0x80 + c mod 64)])%N.

Fixpoint strip_prefix (p l : list Ascii.ascii) : option (list Ascii.ascii) :=
  match p, l with
  | [], _ => Some l
  | a :: p', b :: l' => if decide (a = b) then strip_prefix p' l' else None
  | _ :: _, [] => None
  end.

(** What is left of [l] without the first text of [table] it starts
    with. *)
Fixpoint strip_one (table : list (list Ascii.ascii)) (l : list Ascii.ascii)
  : option (list Ascii.ascii) :=
  match table with
  | [] => None
  | p :: table' =>
      match strip_prefix p l with
      | Some rest => Some rest
      | None => strip_one table' l
      end
  end.

Fixpoint strip_all (table : list (list Ascii.ascii)) (fuel : nat)
    (l : list Ascii.ascii) : list Ascii.ascii :=
  match fuel with
  | 0 => l
  | S fuel' =>
      match strip_one table l with
      | Some rest => strip_all table fuel' rest
      | None => l
      end
  end.

Definition trimStart (l : list Ascii.ascii) : list Ascii.ascii :=
  strip_all (utf8 <$> white_space) (length l) l.

Definition trimEnd (l : list Ascii.ascii) : list Ascii.ascii :=
  rev (strip_all (@rev Ascii.ascii <$> (utf8 <$> white_space)) (length l) (rev l)).

Definition trim (s : string) : string :=
  String.string_of_list_ascii (trimEnd (trimStart (String.list_ascii_of_string s))).

Definition truthy_opt (s : option string) : bool :=
  match s with
  | Some s' => Js.truthy_string s'
  | None => false
  end.

(** [createVectorStore]: Pinecone if [PINECONE_API_KEY] is set, else
    Qdrant if [QDRANT_URL] is, else the in-memory store; a constructor
    that throws is skipped. *)
Definition createVectorStore (e : Env) : Rag.store_kind :=
  let pineconeKey : option string := trim <$> process_env e !! "PINECONE_API_KEY" in
  let qdrantUrl : option string := trim <$> process_env e !! "QDRANT_URL" in
  if truthy_opt pineconeKey && negb (constructor_throws e Rag.PineconeVectorStore)
  then Rag.PineconeVectorStore
  else if truthy_opt qdrantUrl && negb (constructor_throws e Rag.QdrantVectorStore)
  then Rag.QdrantVectorStore
  else Rag.MemoryVectorStore.

(** [new RAGService({ vectorStore, embeddingProvider, textSplitter, topK: 5 })]. *)
Definition RAGService_over (e : Env) (k : Rag.store_kind) : Rag.RAGService :=
  Rag.mkRAGService k (backend_of e k) 5 false [].

Definition newline : string := String (Ascii.ascii_of_nat 10) EmptyString.

Section WithRuntime.
Context {R : Type} `{!AgentRuntime R}.
Local Abbreviation W := (World R).

(** The constructor: the one [RAGService] it creates is given to the
    service, to the runtime's configuration and to the agent
    instance; no approval handler is registered and no timer runs.
    [r] is the runtime [new AgentRuntime] returns, [t] the clock. *)
Definition constructor (e : Env) (t : Z) (r : R) : W :=
  let a := fresh (∅ : gset nat) in
  mkWorld t e [] [] {[ a := RAGService_over e (createVectorStore e) ]}
    r a a a ∅ [] ∅.

Definition has_handler (requestId : string) (w : W) : bool :=
  bool_decide (is_Some (approvalHandlers w !! requestId)).

(** [setTimeout(callback, delay)], for the callback that closes over
    [requestId]. *)
Definition setTimeout (requestId : string) (delay : Z) : M W unit :=
  modify (fun w => set_timers (timers w ++ [mkTimer (now w + delay) requestId]) w).

(** The callback [setTimeout] is given. *)
Definition auto_approve (requestId : string) : M W unit :=
  has ← gets (has_handler requestId);
  if has : bool then mret tt
  else modify (fun w =>
         set_runtime (approveToolExecution requestId "auto-timeout" (runtime w)) w).

(** The handler of [AgentEventType.TOOL_APPROVAL_REQUESTED];
    [requestId] is [event.data?.requestId]. *)
Definition on_TOOL_APPROVAL_REQUESTED (requestId : option string) : M W unit :=
  has ← gets (fun w =>
           truthy_opt requestId && has_handler (default "" requestId) w);
  if has : bool then mret tt
  else if truthy_opt requestId
       then setTimeout (default "" requestId) 30000
       else mret tt.

Definition initialize : M W unit :=
  try_catch
    (a ← gets ragService; RAGService_initialize a)
    (fun _ =>
       e ← gets env;
       a ← new_RAGService (RAGService_over e Rag.MemoryVectorStore);
       modify (set_ragService a);;
       a' ← gets ragService;
       RAGService_initialize a';;
       a'' ← gets ragService;
       modify (set_runtime_config_ragService a''));;
  e ← gets env;
  match memoryManager_initialize e with
  | Some t => throw t
  | None => mret tt
  end.

(** The two loops of [chat] that collect the sources; [push] appends. *)
Definition push_documents (sources : list Document) (docs : list Document)
  : list Document :=
  fold_left
    (fun acc doc =>
       acc ++ [mkDocument (doc_id doc) (doc_content doc) (doc_score doc)
                 (doc_metadata doc)])
    docs sources.

Definition is_search_step (step : AgentStep) : bool :=
  match step_action step with
  | Some action =>
      bool_decide (act_type action = Some "use_tool")
      && bool_decide (act_toolName action = Some "searchKnowledgeBase")
  | None => false
  end.

(** [(step.result as {...})?.output] and then [output?.documents]. *)
Definition output_documents (step : AgentStep) : option (list Document) :=
  match step_result step with
  | Some result =>
      match res_output result with
      | Some output => out_documents output
      | None => None
      end
  | None => None
  end.

Definition extract_sources (steps : list AgentStep) : list Document :=
  fold_left
    (fun sources step =>
       if is_search_step step
       then match output_documents step with
            | Some docs => push_documents sources docs
            | None => sources
            end
       else sources)
    steps [].

Definition runtime_execute (agentName input : string) (o : ExecuteOptions)
  : M W ExecutionResult :=
  lift (fun w =>
    let '(out, r) := execute agentName input o (runtime w) in
    (out, set_runtime r w)).

Definition chat (message : string) (sessionId userId : option string)
  : M W ChatResponseDto :=
  t ← gets now;
  let sid := Js.or_string sessionId ("session-" +:+ pretty t) in
  result ← runtime_execute "csr-agent" message
             (mkExecuteOptions sid userId true true);
  let sources := extract_sources (exec_steps result) in
  mret (mkChatResponseDto
          (Js.or_string (exec_response result) "I could not generate a response.")
          (exec_executionId result)
          sid
          (length (exec_steps result))
          (default 0%float (exec_duration result))
          (if bool_decide (0 < length sources) then Some sources else None)).

Definition approveTool (requestId : string) (approved : bool)
    (approvedBy : string) : M W unit :=
  modify (fun w =>
    set_runtime
      (if approved
       then approveToolExecution requestId approvedBy (runtime w)
       else rejectToolExecution requestId (runtime w)) w);;
  handler ← gets (fun w => approvalHandlers w !! requestId);
  match handler with
  | Some h =>
      modify (fun w =>
        set_resolved_waiters (resolved_waiters w ++ [(waiter h, approved)]) w);;
      modify (fun w =>
        set_approvalHandlers
          (<[requestId := mkApprovalHandler (waiter h) (Some approvedBy)]>
             (approvalHandlers w)) w);;
      modify (fun w =>
        set_approvalHandlers (delete requestId (approvalHandlers w)) w)
  | None => mret tt
  end.

Definition getRuntime : M W R := gets runtime.

Definition getRAGService : M W nat := gets ragService.

Definition ingestDocument (title content : string) (metadata : option Metadata)
  : M W (list string) :=
  a ← gets ragService;
  RAGService_index a (title +:+ newline +:+ newline +:+ content)
    (Js.spread [("title", Js.str title)] (default [] metadata)).

(** *** The event loop

    Time passes between the calls, and the timers that are due fire
    in the order they were scheduled. *)
Definition advance (d : Z) (w : W) : W := set_now (now w + d)%Z w.

Definition is_due (t : Z) (x : Timer) : bool := bool_decide (due x ≤ t)%Z.

Definition run_due_timers : M W unit :=
  t ← gets now;
  ts ← gets timers;
  modify (set_timers (filter (fun x => is_due t x = false) ts));;
  for_of (filter (fun x => is_due t x = true) ts)
    (fun x => auto_approve (timer_requestId x)).

End WithRuntime.

End CSRService.

(** ** [csr.controller.ts] *)

Module CSRController.

(** The request bodies, after [ValidationPipe] has accepted them. *)
Record ChatRequest : Type := mkChatRequest {
  message : string;
  sessionId : option string;
  userId : option string;
}.

Record IngestRequest : Type := mkIngestRequest {
  title : string;
  content : string;
  metadata : option Metadata;
}.

Record ApprovalRequest : Type := mkApprovalRequest {
  requestId : string;
  approved : bool;
  approvedBy : string;
}.

Record ApproveResponse : Type := mkApproveResponse {
  success : bool;
}.

(** The response object of [chatStream].  A chunk [res.write] is given
    is [data: ${JSON.stringify(payload)}] and two newlines; the payload
    is kept as it is before [JSON.stringify]. *)
Inductive SsePayload : Type :=
| sse_response (data : ChatResponseDto)
| sse_error (error : string).

Record Res : Type := mkRes {
  headers : list (string * string);
  written : list SsePayload;
  ended : bool;
}.

Definition setHeader (n v : string) (res : Res) : Res :=
  mkRes (headers res ++ [(n, v)]) (written res) (ended res).

Definition write (p : SsePayload) (res : Res) : Res :=
  mkRes (headers res) (written res ++ [p]) (ended res).

Definition end_ (res : Res) : Res :=
  mkRes (headers res) (written res) true.

Section WithRuntime.
Context {R : Type} `{!AgentRuntime R}.
Local Abbreviation W := (World R).

Definition chat (dto : ChatRequest) : M W ChatResponseDto :=
  CSRService.chat (message dto) (sessionId dto) (userId dto).

(** [chatStream] returns nothing and mutates [res]; here the [res] it
    leaves is returned.  Neither the [try] block after [chat] nor the
    [catch] clause throws, so the [finally] clause, [res.end()], runs
    after either. *)
Definition chatStream (dto : ChatRequest) (res : Res) : M W Res :=
  let res := setHeader "Content-Type" "text/event-stream" res in
  let res := setHeader "Cache-Control" "no-cache" res in
  let res := setHeader "Connection" "keep-alive" res in
  res' ← try_catch
           (result ← CSRService.chat (message dto) (sessionId dto) (userId dto);
            mret (write (sse_response result) res))
           (fun error => mret (write (sse_error (Js.String_ error)) res));
  mret (end_ res').

Definition ingest (dto : IngestRequest) : M W (list string) :=
  CSRService.ingestDocument (title dto) (content dto) (metadata dto).

Definition approve (dto : ApprovalRequest) : M W ApproveResponse :=
  CSRService.approveTool (requestId dto) (approved dto) (approvedBy dto);;
  mret (mkApproveResponse true).

Definition health : M W Metadata :=
  runtime ← CSRService.getRuntime;
  configured ← gets (fun w => heap w !! runtime_config_ragService w);
  match healthCheck with
  | Some check =>
      match check runtime configured with
      | Returned result => mret (Js.spread [("status", Js.str "ok")] result)
      | Threw _ => mret [("status", Js.str "degraded")]
      end
  | None => mret [("status", Js.str "ok")]
  end.

End WithRuntime.

End CSRController.

(** ** [csr.gateway.ts] *)

Module CSRGateway.

(** [interface ChatMessage].  The gateway tests [text] at run time, so
    it is any value; [sessionId] and [userId] are as declared. *)
Record ChatMessage : Type := mkChatMessage {
  text : Js.value;
  sessionId : option string;
  userId : option string;
}.

(** [WebSocketMessage]; [data] is [None] when [message.data] is falsy. *)
Record WebSocketMessage : Type := mkWebSocketMessage {
  event : string;
  data : option ChatMessage;
}.

(** The cast of a value that was tested to be a string. *)
Definition as_string (v : Js.value) : string :=
  match v with
  | Js.str s => s
  | _ => ""
  end.

Section WithRuntime.
Context {R : Type} `{!AgentRuntime R}.
Local Abbreviation W := (World R).

(** The base class [WebSocketGateway] of [@hazeljs/websocket] keeps
    the connected clients: [getClient] looks one up, [client.send]
    and [sendToClient] send a frame to a client that is connected,
    [super.handleConnection] registers the client, and
    [super.handleMessage] dispatches to subscribed handlers, of which
    this gateway has none.  The debug lines the base class writes for a
    connection and for a message are its own and are not kept in the
    log of the world. *)
Definition getClient (clientId : string) : M W (option (list WsFrame)) :=
  gets (fun w => clients w !! clientId).

Definition sendToClient (clientId event : string) (data : WsPayload) : M W unit :=
  modify (fun w =>
    set_clients (alter (fun sent => sent ++ [mkWsFrame event data]) clientId (clients w)) w).

Definition super_handleConnection (clientId : string) : M W unit :=
  modify (fun w => set_clients (<[clientId := []]> (clients w)) w).

Definition super_handleMessage (clientId : string) (message : WebSocketMessage)
  : M W unit := mret tt.

Definition handleConnection (clientId : string) : M W unit :=
  super_handleConnection clientId;;
  t ← gets now;
  sendToClient clientId "connected"
    (ws_connected
       (* the double quotes inside the source's text are written as
          single quotes *)
       "Connected to CSR agent. Send { event: 'message', data: { text: '...' } }"
       clientId t).

Definition handleChatMessage (clientId text : string)
    (sessionId userId : option string) : M W unit :=
  client ← getClient clientId;
  match client with
  | None => mret tt
  | Some _ =>
      try_catch
        (sendToClient clientId "thinking" (ws_message "Processing your request...");;
         result ← CSRService.chat text sessionId userId;
         sendToClient clientId "response"
           (ws_response (response result) (CSRTypes.sessionId result)
              (steps result) (duration result) (sources result)))
        (fun error =>
           sendToClient clientId "error" (ws_message (Js.message_or_unknown error)))
  end.

Definition handleMessage (clientId : string) (message : WebSocketMessage)
  : M W unit :=
  super_handleMessage clientId message;;
  if bool_decide (event message = "message") then
    let data := default (mkChatMessage Js.undefined None None) (data message) in
    if negb (Js.truthy (text data))
       || negb (bool_decide (Js.typeof (text data) = "string"))
    then sendToClient clientId "error"
           (ws_message "Invalid message: text is required")
    else handleChatMessage clientId (as_string (text data))
           (sessionId data) (userId data)
  else mret tt.

End WithRuntime.

End CSRGateway.

(** ** [index.ts]

    In src/ this is [unnamed/part_001]. *)

Module Bootstrap.

Section WithRuntime.
Context {R : Type} `{!AgentRuntime R}.

(** The part of [bootstrap] that initializes the service. *)
Definition initialize_service : M (World R) unit :=
  try_catch
    (CSRService.initialize;;
     logger log_info "CSR service initialized")
    (fun err => logger log_warn ("CSR service init: " +:+ Js.String_ err)).

End WithRuntime.

End Bootstrap.

(** ** The approval gate and the agent loop of [@hazeljs/agent]

    Neither is under src/.  They are modelled from sections 3, 4.1 and
    4.2 of the specification, and give an instance of [AgentRuntime]. *)

Module ApprovalGate.

(** Modelled from the spec: the [resolution] of an ApprovalRequest
    (section 3), which is not under src/: [pending], then [approved],
    [rejected] or [timed_out]. *)
Inductive Resolution : Type := pending | approved | rejected | timed_out.

Global Instance Resolution_eq_dec : EqDecision Resolution.
Proof. solve_decision. Defined.

(** Modelled from the spec: the ApprovalRequest of section 3. *)
Record ApprovalRequest : Type := mkApprovalRequest {
  toolName : string;
  args : Js.value;
  createdAt : Z;
  deadline : Z;
  resolution : Resolution;
  resolvedBy : option string;
}.

(** Modelled from the spec: the one transition of an ApprovalRequest,
    which is not under src/.  "Exactly one resolution transition is
    permitted; all others are no-ops": a request that is pending takes
    the resolution, any other request and an unknown id leave the gate
    as it is. *)
Definition settle (requestId : string) (r : Resolution) (by_ : option string)
    (g : gmap string ApprovalRequest) : gmap string ApprovalRequest :=
  match g !! requestId with
  | Some q =>
      match resolution q with
      | pending =>
          <[requestId := mkApprovalRequest (toolName q) (args q) (createdAt q)
                           (deadline q) r by_]> g
      | _ => g
      end
  | None => g
  end.

(** Modelled from the spec: [resolve(requestId, approved, approvedBy) -> void]. *)
Definition resolve (requestId : string) (approved_ : bool)
    (approvedBy : option string) (g : gmap string ApprovalRequest)
  : gmap string ApprovalRequest :=
  settle requestId (if approved_ then approved else rejected) approvedBy g.

(** Modelled from the spec: the deadline of a request fires; "a pending
    request not resolved before [deadline] auto-resolves to
    [timed_out]". *)
Definition expire (requestId : string) (g : gmap string ApprovalRequest)
  : gmap string ApprovalRequest :=
  settle requestId timed_out None g.

(** Modelled from the spec: [request(toolName, args, timeout) -> requestId]. *)
Definition request (tool : string) (a : Js.value) (t timeout : Z)
    (g : gmap string ApprovalRequest) : string * gmap string ApprovalRequest :=
  let requestId := fresh (dom g) in
  (requestId,
   <[requestId := mkApprovalRequest tool a t (t + timeout) pending None]> g).

Definition resolution_of (requestId : string) (g : gmap string ApprovalRequest)
  : option Resolution :=
  resolution <$> g !! requestId.

End ApprovalGate.

Module AgentLoop.

(** Modelled from the spec: the [status] of an Execution (section 3),
    which is not under src/. *)
Inductive Status : Type := completed | step_limit_exceeded | failed.

(** What the language model answers, in the shape the adapter of
    [csr.service.ts] returns it: a text and at most one tool call. *)
Record LlmReply : Type := mkLlmReply {
  content : string;
  tool_call : option (string * Js.value);
}.

(** Modelled from the spec: the Execution of section 3, the record of
    one agent turn, which is not under src/. *)
Record Execution : Type := mkExecution {
  id : string;
  agentName : string;
  sessionId : string;
  steps : list AgentStep;
  response : string;
  duration : Js.number;
  status : Status;
}.

(** Modelled from the spec: the state of the runtime of
    [@hazeljs/agent], which is not under src/: its gate, its
    configuration and the capabilities it was given.  [llm] is the language-model capability behind its
    protective layer (a failure is one that retries did not cure),
    [handler] runs the executable handler of a tool, and [decision]
    says how the approvers or the deadline resolve a request. *)
Record Runtime : Type := mkRuntime {
  gate : gmap string ApprovalGate.ApprovalRequest;
  maxSteps : nat;
  registry : list CSRAgent.ToolDescriptor;
  llm : string → list AgentStep → outcome LlmReply;
  handler : string → Js.value → outcome ToolOutput;
  decision : string → ApprovalGate.Resolution;
  executed : nat;
}.

Definition set_gate (g : gmap string ApprovalGate.ApprovalRequest) (r : Runtime)
  : Runtime :=
  mkRuntime g (maxSteps r) (registry r) (llm r) (handler r) (decision r)
    (executed r).

Definition count_execution (r : Runtime) : Runtime :=
  mkRuntime (gate r) (maxSteps r) (registry r) (llm r) (handler r) (decision r)
    (S (executed r)).

Definition lookup_tool (n : string) (r : Runtime) : option CSRAgent.ToolDescriptor :=
  find (fun d => bool_decide (CSRAgent.tool_name d = n)) (registry r).

Definition use_tool (n : string) (o : ToolOutput) : AgentStep :=
  mkAgentStep (Some (mkStepAction (Some "use_tool") (Some n)))
    (Some (mkStepResult (Some o))).

Definition failure (summary : string) : ToolOutput :=
  mkToolOutput None
    [("success", Js.boolean false); ("error", Js.str summary)].

(** Modelled from the spec: a tool that fails gives "a step result
    encoding success=false plus an error summary". *)
Definition run_handler (n : string) (a : Js.value) (r : Runtime) : AgentStep :=
  match handler r n a with
  | Returned o => use_tool n o
  | Threw e => use_tool n (failure (Js.message_or_unknown e))
  end.

(** Modelled from the spec: the states [tool_dispatch] and
    [awaiting_approval] of section 4.1.  A tool that needs no approval
    runs at once.  For one that does, a request is registered with the
    gate and resolved as [decision] says; the tool runs when the
    resolution is [approved], and a step records the denial
    otherwise. *)
Definition tool_dispatch (n : string) (a : Js.value) (r : Runtime)
  : AgentStep * Runtime :=
  match lookup_tool n r with
  | None => (use_tool n (failure "Tool not found"), r)
  | Some d =>
      if CSRAgent.requiresApproval d then
        let '(requestId, g) :=
          ApprovalGate.request n a 0 (default 0%Z (CSRAgent.timeout d)) (gate r) in
        let g' :=
          match decision r requestId with
          | ApprovalGate.approved => ApprovalGate.resolve requestId true None g
          | ApprovalGate.rejected => ApprovalGate.resolve requestId false None g
          | _ => ApprovalGate.expire requestId g
          end in
        let r' := set_gate g' r in
        match ApprovalGate.resolution_of requestId g' with
        | Some ApprovalGate.approved => (run_handler n a r', r')
        | Some ApprovalGate.rejected => (use_tool n (failure "rejected"), r')
        | _ => (use_tool n (failure "timed_out"), r')
        end
      else (run_handler n a r, r)
  end.

Definition generic_failure : string :=
  "The agent could not complete the request.".

(** Modelled from the spec: the AgentStep of a reasoning utterance
    (section 3: the action [reason], with the text as its result).  Of
    a step the service reads the action and the documents of a tool
    output only, so the text itself is kept by the loop and not in
    the step. *)
Definition reason : AgentStep :=
  mkAgentStep (Some (mkStepAction (Some "reason") None)) (Some (mkStepResult None)).

(** Modelled from the spec: the loop of section 4.1, which is not under
    src/.  Every reply of the model gives one AgentStep (section 3 and
    the glossary: a step is a reasoning utterance or a tool invocation
    and its result).  [budget] is [maxSteps - index].  With no budget
    left the loop is done with [step_limit_exceeded] and answers with
    the last text of the model; otherwise the model is asked: a failure
    ends the execution as [failed] with a generic message, a text
    without a tool call is the final answer and is recorded as a
    [reason] step, and a tool call is dispatched, its step appended,
    and the loop goes on. *)
Fixpoint loop (budget : nat) (input last : string) (done : list AgentStep)
    (r : Runtime) : (Status * string * list AgentStep) * Runtime :=
  match budget with
  | 0 => ((step_limit_exceeded, last, done), r)
  | S budget' =>
      match llm r input done with
      | Threw _ => ((failed, generic_failure, done), r)
      | Returned reply =>
          match tool_call reply with
          | None => ((completed, content reply, done ++ [reason]), r)
          | Some (n, a) =>
              let '(step, r') := tool_dispatch n a r in
              loop budget' input (content reply) (done ++ [step]) r'
          end
      end
  end.

(** Modelled from the spec: [run(agentName, userMessage, sessionId,
    userId, options) -> Execution]. *)
Definition run_loop (agent input : string) (o : ExecuteOptions) (r : Runtime)
  : Execution * Runtime :=
  let '((st, answer, done), r') := loop (maxSteps r) input "" [] r in
  (mkExecution ("exec-" +:+ pretty (executed r)) agent (opt_sessionId o)
     done answer 0%float st,
   count_execution r').

Definition to_result (x : Execution) : ExecutionResult :=
  mkExecutionResult (Some (response x)) (Some (id x)) (steps x)
    (Some (duration x)).

(** The runtime as the service sees it.  [approveToolExecution] and
    [rejectToolExecution] forward to the gate; [rejectToolExecution]
    is given no identity. *)
Global Instance loop_runtime : AgentRuntime Runtime := {|
  execute agent input o r :=
    let '(x, r') := run_loop agent input o r in (Returned (to_result x), r');
  approveToolExecution requestId approvedBy r :=
    set_gate (ApprovalGate.resolve requestId true (Some approvedBy) (gate r)) r;
  rejectToolExecution requestId r :=
    set_gate (ApprovalGate.resolve requestId false None (gate r)) r;
  healthCheck := None;
|}.

(** [new AgentRuntime({ ..., defaultMaxSteps: 15, ... })] with the
    agent of [csr.agent.ts] registered; the agent brings its own
    [maxSteps], which is the default's value. *)
Definition new_AgentRuntime
    (llm_ : string → list AgentStep → outcome LlmReply)
    (handler_ : string → Js.value → outcome ToolOutput)
    (decision_ : string → ApprovalGate.Resolution) : Runtime :=
  mkRuntime ∅ CSRAgent.maxSteps CSRAgent.tools llm_ handler_ decision_ 0.

End AgentLoop.

(** ** A runtime that records the calls it is given

    The statements about the service hold for every [AgentRuntime].  To
    run the service on concrete inputs, this instance answers [execute]
    from a list of prepared outcomes and keeps the calls it received. *)

Module Recorder.

Inductive Call : Type :=
| call_execute (agent input : string) (o : ExecuteOptions)
| call_approveToolExecution (requestId approvedBy : string)
| call_rejectToolExecution (requestId : string).

Record Runtime : Type := mkRuntime {
  calls : list Call;
  replies : list (outcome ExecutionResult);
  health_reply : outcome Metadata;
}.

Definition record (c : Call) (r : Runtime) : Runtime :=
  mkRuntime (calls r ++ [c]) (replies r) (health_reply r).

Definition out_of_replies : Js.thrown :=
  Js.thrown_Error (Js.mkError "Error" "no reply prepared").

Global Instance recording_runtime : AgentRuntime Runtime := {|
  execute agent input o r :=
    let r' := record (call_execute agent input o) r in
    match replies r with
    | [] => (Threw out_of_replies, r')
    | x :: xs => (x, mkRuntime (calls r') xs (health_reply r'))
    end;
  approveToolExecution requestId approvedBy :=
    record (call_approveToolExecution requestId approvedBy);
  rejectToolExecution requestId :=
    record (call_rejectToolExecution requestId);
  healthCheck := Some (fun r _ => health_reply r);
|}.

End Recorder.

(** ** Concrete deployments *)

Module Fixture.

Definition refused : Js.thrown :=
  Js.thrown_Error (Js.mkError "Error" "connect ECONNREFUSED 10.0.0.12:6333").

(** A store that cannot be reached, and one that answers with all it
    has indexed. *)
Definition down : Rag.Backend := Rag.mkBackend (Some refused) (fun _ _ _ => []).

Definition up : Rag.Backend :=
  Rag.mkBackend None
    (fun ds _ _ =>
       (fun d => Rag.mkSearchResult (Rag.ix_id d) (Rag.ix_content d) 0.875%float
                   (Some (Rag.ix_metadata d))) <$> ds).

(** Pinecone is configured and unreachable; the in-memory store works. *)
Definition pinecone_down : Env :=
  mkEnv {[ "PINECONE_API_KEY" := "pc-key" ]}
    (fun k => match k with Rag.MemoryVectorStore => up | _ => down end)
    (fun _ => false) None.

(** Nothing is configured: the in-memory store is selected. *)
Definition local : Env :=
  mkEnv ∅ (fun _ => up) (fun _ => false) None.

Definition policy : Document :=
  mkDocument "doc-0" "Full refunds within 30 days" 0.875%float (Some []).

Definition faq : Document :=
  mkDocument "doc-1" "Orders ship in 2 days" 0.75%float None.

Definition search_step (docs : option (list Document)) : AgentStep :=
  mkAgentStep (Some (mkStepAction (Some "use_tool") (Some "searchKnowledgeBase")))
    (Some (mkStepResult (Some (mkToolOutput docs [])))).

Definition lookup_step : AgentStep :=
  mkAgentStep (Some (mkStepAction (Some "use_tool") (Some "lookupOrder")))
    (Some (mkStepResult (Some (mkToolOutput (Some [faq]) [("found", Js.boolean true)])))).

Definition answered (steps : list AgentStep) : outcome ExecutionResult :=
  Returned (mkExecutionResult (Some "Here is what I found.") (Some "exec-1") steps
              (Some 12%float)).

(** A service over a recording runtime with the given replies. *)
Definition service (e : Env) (t : Z) (replies : list (outcome ExecutionResult))
  : World Recorder.Runtime :=
  CSRService.constructor e t (Recorder.mkRuntime [] replies (Returned [])).

End Fixture.

(** ** The business services

    [order.service.ts], [inventory.service.ts], [refund.service.ts] and
    the ticket service ([unnamed/part_002] in src/).  Their maps, the
    optional queue of the agent and the clock make the state the tools
    of the agent work on.  A [Date] is kept as its time value in
    milliseconds. *)

Set Warnings "-inexact-float".

Module Services.

Record OrderItem : Type := mkOrderItem {
  item_name : string;
  item_quantity : Js.number;
  item_price : Js.number;
}.

Record Order : Type := mkOrder {
  order_id : string;
  order_status : string;
  order_items : list OrderItem;
  order_total : Js.number;
  shippingAddress : string;
  trackingNumber : option string;
  estimatedDelivery : option Z;
  order_createdAt : Z;
}.

Record Stock : Type := mkStock {
  quantity : Js.number;
  nextRestock : Z;
}.

Record RefundResult : Type := mkRefundResult {
  refund_id : string;
  refund_orderId : string;
  refund_amount : Js.number;
  refund_reason : string;
  refund_status : string;
}.

Record Ticket : Type := mkTicket {
  ticket_id : string;
  ticket_subject : string;
  ticket_description : string;
  ticket_priority : string;
  ticket_status : string;
  ticket_createdAt : Z;
}.

(** A job given to [queueService.add(queue, name, data)]; the data the
    agent sends is [{ ticketId, subject }]. *)
Record Job : Type := mkJob {
  job_queue : string;
  job_name : string;
  job_ticketId : string;
  job_subject : string;
}.

(** The [QueueService] of [@hazeljs/queue], as far as the agent uses it:
    [add] throws when the queue cannot be reached, and records the job
    otherwise. *)
Record Queue : Type := mkQueue {
  add_throws : option Js.thrown;
  jobs : list Job;
}.

Record State : Type := mkState {
  (** [Date.now()] *)
  clock : Z;
  (** [OrderService.orders] *)
  orders : gmap string Order;
  (** [InventoryService.inventory] *)
  inventory : gmap string Stock;
  (** [TicketService.tickets] *)
  tickets : gmap string Ticket;
  (** the [queueService] the agent was constructed with, if any *)
  queueService : option Queue;
}.

Definition set_clock (t : Z) (s : State) : State :=
  mkState t (orders s) (inventory s) (tickets s) (queueService s).

Definition set_orders (os : gmap string Order) (s : State) : State :=
  mkState (clock s) os (inventory s) (tickets s) (queueService s).

Definition set_tickets (ts : gmap string Ticket) (s : State) : State :=
  mkState (clock s) (orders s) (inventory s) ts (queueService s).

Definition set_queueService (q : option Queue) (s : State) : State :=
  mkState (clock s) (orders s) (inventory s) (tickets s) q.

Definition day : Z := 24 * 60 * 60 * 1000.

(** The constructors seed the maps. *)
Definition OrderService_new (t : Z) : gmap string Order :=
  {[ "ORD-12345" :=
       mkOrder "ORD-12345" "shipped"
         [mkOrderItem "Product A" 2%float 49.99%float] 99.99%float
         "123 Main St, City, State 12345" (Some "TRACK123")
         (Some (t + 2 * day)%Z) t ]}.

Definition InventoryService_new (t : Z) : gmap string Stock :=
  <["PROD-002" := mkStock 0%float (t + 3 * day)%Z]>
    (<["PROD-001" := mkStock 10%float (t + 7 * day)%Z]> ∅).

(** The services as the process creates them at time [t]. *)
Definition new (t : Z) (q : option Queue) : State :=
  mkState t (OrderService_new t) (InventoryService_new t) ∅ q.

(** The [TypeError] of a conversion to a primitive value that fails. *)
Definition cannot_convert : Js.thrown :=
  Js.thrown_Error (Js.mkError "TypeError" "Cannot convert object to primitive value").

Section Methods.

(** [Number::toString], the decimal text of a binary64, is taken as
    given. *)
Context (Number_toString : Js.number → string).

(** [String(v)].  An array is joined with commas, [null] and
    [undefined] giving the empty text inside an array.  An object is
    converted by its [toString]: that of [Object.prototype] gives
    ['[object Object]'], and an own [toString] field, which holds data
    and cannot be called, leaves [valueOf], which returns the object
    itself or cannot be called either, so the conversion throws a
    [TypeError]. *)
Fixpoint String_ (v : Js.value) : outcome string :=
  match v with
  | Js.undefined => Returned "undefined"
  | Js.null => Returned "null"
  | Js.boolean true => Returned "true"
  | Js.boolean false => Returned "false"
  | Js.num n => Returned (Number_toString n)
  | Js.str s => Returned s
  | Js.array items =>
      match
        (fix texts (items : list Js.value) : outcome (list string) :=
           match items with
           | [] => Returned []
           | item :: rest =>
               match
                 match item with
                 | Js.undefined | Js.null => Returned ""
                 | _ => String_ item
                 end
               with
               | Threw e => Threw e
               | Returned t =>
                   match texts rest with
                   | Threw e => Threw e
                   | Returned ts => Returned (t :: ts)
                   end
               end
           end) items
      with
      | Threw e => Threw e
      | Returned ts => Returned (String.concat "," ts)
      end
  | Js.object fields =>
      if bool_decide ("toString" ∈ fields.*1) then Threw cannot_convert
      else Returned "[object Object]"
  end.

(** [newAddress?.address]. *)
Definition address_of (newAddress : Js.value) : Js.value :=
  match newAddress with
  | Js.object fields => Js.get_field "address" fields
  | _ => Js.undefined
  end.

(** [a || b]. *)
Definition or_value (a b : Js.value) : Js.value :=
  if Js.truthy a then a else b.

(** [OrderService.findById]. *)
Definition findById (orderId : string) : M State (option Order) :=
  gets (fun s => orders s !! orderId).

(** [OrderService.updateAddress]: the order in the map is the one that
    is changed and returned; when [String] throws, nothing has been
    assigned yet. *)
Definition updateAddress (orderId : string) (newAddress : Js.value)
  : M State (option Order) :=
  order ← gets (fun s => orders s !! orderId);
  match order with
  | None => mret None
  | Some o =>
      match String_ (or_value (address_of newAddress) newAddress) with
      | Threw e => throw e
      | Returned address =>
          let o' :=
            mkOrder (order_id o) (order_status o) (order_items o) (order_total o)
              address (trackingNumber o) (estimatedDelivery o) (order_createdAt o) in
          modify (fun s => set_orders (<[orderId := o']> (orders s)) s);;
          mret (Some o')
      end
  end.

End Methods.

(** [InventoryService.check]. *)
Definition check (productId : string) : M State (option Stock) :=
  gets (fun s => inventory s !! productId).

(** [RefundService.process]. *)
Definition process (orderId : string) (amount : Js.number) (reason : string)
  : M State RefundResult :=
  t ← gets clock;
  mret (mkRefundResult ("REF-" +:+ pretty t) orderId amount reason "pending").

(** [TicketService.create]. *)
Definition create (subject description : string) (priority : option string)
  : M State Ticket :=
  t ← gets clock;
  let id := "TKT-" +:+ pretty t in
  let ticket :=
    mkTicket id subject description (Js.or_string priority "medium") "open" t in
  modify (fun s => set_tickets (<[id := ticket]> (tickets s)) s);;
  mret ticket.

(** [TicketService.getById]. *)
Definition getById (id : string) : M State (option Ticket) :=
  gets (fun s => tickets s !! id).

(** [queueService.add(queue, name, { ticketId, subject })], for the queue
    [q] the agent holds. *)
Definition queue_add (q : Queue) (j : Job) : M State unit :=
  match add_throws q with
  | Some e => throw e
  | None =>
      modify (fun s =>
        set_queueService
          (match queueService s with
           | Some q' => Some (mkQueue (add_throws q') (jobs q' ++ [j]))
           | None => None
           end) s)
  end.

(** Time passes. *)
Definition advance (d : Z) (s : State) : State := set_clock (clock s + d)%Z s.

End Services.

(** ** The tools of [csr.agent.ts] over the business services *)

Module Tools.

(** [{ found: false, message }] or [{ found: true, orderId, ... }]. *)
Inductive LookupOrderResult : Type :=
| order_missing (message : string)
| order_found (orderId status : string) (items : list Services.OrderItem)
    (total : Js.number) (shippingAddress : string)
    (trackingNumber : option string) (estimatedDelivery : option Z).

(** [{ productId, inStock, message }] or
    [{ productId, inStock, quantity, availableDate }]. *)
Record InventoryResult : Type := mkInventoryResult {
  inv_productId : string;
  inStock : bool;
  inv_message : option string;
  inv_quantity : option Js.number;
  availableDate : option Z;
}.

Record RefundToolResult : Type := mkRefundToolResult {
  refund_success : bool;
  refundId : string;
  refund_amount : Js.number;
  refund_status : string;
  estimatedProcessingDays : nat;
}.

(** [{ success: false, message }] or [{ success: true, orderId, newAddress }]. *)
Inductive UpdateAddressResult : Type :=
| address_not_updated (message : string)
| address_updated (orderId newAddress : string).

Record TicketToolResult : Type := mkTicketToolResult {
  ticket_success : bool;
  ticketId : string;
  ticket_status : string;
  ticket_message : string;
}.

Definition lookupOrder (orderId : string) : M Services.State LookupOrderResult :=
  order ← Services.findById orderId;
  match order with
  | None => mret (order_missing ("Order " +:+ orderId +:+ " not found"))
  | Some o =>
      mret (order_found (Services.order_id o) (Services.order_status o)
              (Services.order_items o) (Services.order_total o)
              (Services.shippingAddress o) (Services.trackingNumber o)
              (Services.estimatedDelivery o))
  end.

Definition checkInventory (productId : string) : M Services.State InventoryResult :=
  stock ← Services.check productId;
  match stock with
  | None =>
      mret (mkInventoryResult productId false (Some "Product not found") None None)
  | Some i =>
      mret (mkInventoryResult productId (PrimFloat.ltb 0%float (Services.quantity i))
              None (Some (Services.quantity i)) (Some (Services.nextRestock i)))
  end.

Definition processRefund (orderId : string) (amount : Js.number) (reason : string)
  : M Services.State RefundToolResult :=
  refund ← Services.process orderId amount reason;
  mret (mkRefundToolResult true (Services.refund_id refund)
          (Services.refund_amount refund) (Services.refund_status refund) 5).

Definition updateShippingAddress (Number_toString : Js.number → string)
    (orderId : string) (newAddress : Js.value)
  : M Services.State UpdateAddressResult :=
  updated ← Services.updateAddress Number_toString orderId newAddress;
  match updated with
  | None => mret (address_not_updated ("Order " +:+ orderId +:+ " not found"))
  | Some o => mret (address_updated orderId (Services.shippingAddress o))
  end.

Definition createTicket (subject description : string) (priority : option string)
  : M Services.State TicketToolResult :=
  ticket ← Services.create subject description priority;
  q ← gets Services.queueService;
  match q with
  | Some q' =>
      try_catch
        (Services.queue_add q'
           (Services.mkJob "tickets" "created" (Services.ticket_id ticket)
              (Services.ticket_subject ticket)))
        (fun _ => mret tt)
  | None => mret tt
  end;;
  mret (mkTicketToolResult true (Services.ticket_id ticket)
          (Services.ticket_status ticket)
          ("Ticket " +:+ Services.ticket_id ticket
           +:+ " created. Our team will follow up within 24 hours.")).

End Tools.

(** ** The adapter of the language model

    The [llmProvider] object the constructor of [CSRService] builds
    around [openaiProvider.complete], which belongs to [@hazeljs/ai] and
    is a parameter here. *)

Module LlmProvider.

Record Message : Type := mkMessage {
  role : string;
  content : string;
  name : option string;
}.

(** [{ type?, properties?, required? }]. *)
Record Parameters : Type := mkParameters {
  param_type : option string;
  properties : option Metadata;
  required : option (list string);
}.

(** [{ name, description, parameters }], as it stands under [function]
    or in the tool itself. *)
Record Described : Type := mkDescribed {
  d_name : option string;
  d_description : option string;
  d_parameters : option Parameters;
}.

(** A tool: its [function] field, if it has one, and its own [name],
    [description] and [parameters]. *)
Record Tool : Type := mkTool {
  function : option Described;
  own : Described;
}.

Record ChatOptions : Type := mkChatOptions {
  messages : list Message;
  tools : option (list Tool);
  temperature : option Js.number;
  maxTokens : option Js.number;
}.

Record FunctionSchema : Type := mkFunctionSchema {
  fs_name : option string;
  fs_description : option string;
  fs_type : string;
  fs_properties : Metadata;
  fs_required : option (list string);
}.

Record CompleteRequest : Type := mkCompleteRequest {
  req_messages : list (string * string);
  req_temperature : Js.number;
  req_maxTokens : Js.number;
  req_functions : option (list FunctionSchema);
}.

Record FunctionCall : Type := mkFunctionCall {
  fc_name : string;
  fc_arguments : string;
}.

Record ToolCall : Type := mkToolCall {
  tc_id : string;
  tc_function : FunctionCall;
}.

Record CompleteResponse : Type := mkCompleteResponse {
  resp_id : string;
  resp_content : string;
  functionCall : option FunctionCall;
  toolCalls : option (list ToolCall);
}.

(** [{ id, type: 'function', function: { name, arguments } }]. *)
Record ReplyToolCall : Type := mkReplyToolCall {
  rtc_id : string;
  rtc_type : string;
  rtc_function : FunctionCall;
}.

Record ChatReply : Type := mkChatReply {
  reply_content : string;
  tool_calls : list ReplyToolCall;
}.

(** The body of [options.tools?.map((tool) => ...)]. *)
Definition to_function (tool : Tool) : FunctionSchema :=
  let t := default (own tool) (function tool) in
  let params := d_parameters t in
  mkFunctionSchema (d_name t) (d_description t) "object"
    (default [] (params ≫= properties))
    (params ≫= required).

(** The argument of [openaiProvider.complete]. *)
Definition request (options : ChatOptions) : CompleteRequest :=
  let functions := map to_function <$> tools options in
  mkCompleteRequest
    (map (fun m => (role m, content m)) (messages options))
    (default 0.7%float (temperature options))
    (default 2000%float (maxTokens options))
    (match functions with
     | Some fs => if bool_decide (0 < length fs) then Some fs else None
     | None => None
     end).

Definition to_tool_call (tc : ToolCall) : ReplyToolCall :=
  mkReplyToolCall (tc_id tc) "function"
    (mkFunctionCall (fc_name (tc_function tc)) (fc_arguments (tc_function tc))).

(** What [chat] returns for a response. *)
Definition reply (response : CompleteResponse) : ChatReply :=
  mkChatReply (resp_content response)
    (match functionCall response with
     | Some fc =>
         [mkReplyToolCall (resp_id response) "function"
            (mkFunctionCall (fc_name fc) (fc_arguments fc))]
     | None => default [] (map to_tool_call <$> toolCalls response)
     end).

(** [llmProvider.chat]. *)
Definition chat (complete : CompleteRequest → outcome CompleteResponse)
    (options : ChatOptions) : outcome ChatReply :=
  match complete (request options) with
  | Returned response => Returned (reply response)
  | Threw e => Threw e
  end.

End LlmProvider.

(** ** What every step of a computation keeps

    [keeps rel m]: the world [m] leaves is related to the one it
    started in, whether [m] returns or throws. *)

Definition keeps {W A} (rel : W → W → Prop) (m : M W A) : Prop :=
  ∀ w, rel w (world_after m w).

(** ** The calls the service receives

    What reaches the service from outside: the endpoints of the
    controller, the start of the process, the events of the runtime, the
    event loop, the gateway, and the agent's search tool. *)

Inductive call : Type :=
| call_chat (dto : CSRController.ChatRequest)
| call_chatStream (dto : CSRController.ChatRequest) (res : CSRController.Res)
| call_ingest (dto : CSRController.IngestRequest)
| call_approve (dto : CSRController.ApprovalRequest)
| call_health
| call_initialize
| call_event (requestId : option string)
| call_timers
| call_advance (d : Z)
| call_connect (clientId : string)
| call_message (clientId : string) (message : CSRGateway.WebSocketMessage)
| call_search (query : string) (topK : option Js.number).

Section Calls.
Context {R : Type} `{!AgentRuntime R}.

Definition call_run (c : call) (w : World R) : World R :=
  match c with
  | call_chat dto => world_after (CSRController.chat dto) w
  | call_chatStream dto res => world_after (CSRController.chatStream dto res) w
  | call_ingest dto => world_after (CSRController.ingest dto) w
  | call_approve dto => world_after (CSRController.approve dto) w
  | call_health => world_after CSRController.health w
  | call_initialize => world_after Bootstrap.initialize_service w
  | call_event requestId =>
      world_after (CSRService.on_TOOL_APPROVAL_REQUESTED requestId) w
  | call_timers => world_after CSRService.run_due_timers w
  | call_advance d => CSRService.advance d w
  | call_connect clientId => world_after (CSRGateway.handleConnection clientId) w
  | call_message clientId message =>
      world_after (CSRGateway.handleMessage clientId message) w
  | call_search query topK =>
      world_after (CSRAgent.searchKnowledgeBase query topK) w
  end.

Definition calls_run (cs : list call) (w : World R) : World R :=
  fold_left (fun w c => call_run c w) cs w.

(** The handlers only go, and the agent's store stays. *)
Definition no_new_handler (w w' : World R) : Prop :=
  approvalHandlers w' ⊆ approvalHandlers w
  ∧ agent_ragService w' = agent_ragService w.

(** Nothing is written to the log. *)
Definition same_logs (w w' : World R) : Prop := logs w' = logs w.

(** A relation that only looks at the handlers, the agent's store and
    the log is kept by every step that leaves the three alone. *)
Definition leaves_alone (rel : World R → World R → Prop) : Prop :=
  ∀ w w', approvalHandlers w' = approvalHandlers w →
          agent_ragService w' = agent_ragService w →
          logs w' = logs w → rel w w'.

End Calls.

(** ** The vocabulary of the statements *)

Definition search_options (topK : option Js.number) : Rag.SearchOptions :=
  Rag.mkSearchOptions (Js.or_number topK 5%float) true 0.5%float.

(** The [text] the gateway destructures from [message.data || {}]. *)
Definition text_of (message : CSRGateway.WebSocketMessage) : Js.value :=
  CSRGateway.text
    (default (CSRGateway.mkChatMessage Js.undefined None None)
       (CSRGateway.data message)).

Definition text_required : WsFrame :=
  mkWsFrame "error" (ws_message "Invalid message: text is required").

Definition sse_headers (res : CSRController.Res) : CSRController.Res :=
  CSRController.setHeader "Connection" "keep-alive"
    (CSRController.setHeader "Cache-Control" "no-cache"
       (CSRController.setHeader "Content-Type" "text/event-stream" res)).

Definition thinking : WsFrame :=
  mkWsFrame "thinking" (ws_message "Processing your request...").

(** The documents the specification describes as the sources: those of the
    steps that use the tool [searchKnowledgeBase], flattened in step
    order. *)
Definition cited (steps : list AgentStep) : list Document :=
  flat_map
    (fun step =>
       if CSRService.is_search_step step
       then default [] (CSRService.output_documents step)
       else [])
    steps.

(** A text made of white space only, as the UTF-8 bytes of its code
    points. *)
Inductive white_text : list Ascii.ascii → Prop :=
| white_nil : white_text []
| white_cons c l :
    c ∈ CSRService.white_space → white_text l →
    white_text (CSRService.utf8 c ++ l).

Definition blank (s : string) : Prop := white_text (String.list_ascii_of_string s).

(** A text that is a sequence of texts of the table [T]. *)
Inductive made_of (T : list (list Ascii.ascii)) : list Ascii.ascii → Prop :=
| made_nil : made_of T []
| made_app p l : p ∈ T → made_of T l → made_of T (p ++ l).

(** The store [initialize] falls back to, once it is initialized. *)
Definition fallback (e : Env) : Rag.RAGService :=
  Rag.set_initialized (CSRService.RAGService_over e Rag.MemoryVectorStore).

Section Vocabulary.
Context {R : Type} `{!AgentRuntime R}.
Implicit Types w : World R.

(** The session id [chat] works with. *)
Definition session_id_of (sessionId : option string) w : string :=
  Js.or_string sessionId ("session-" +:+ pretty (now w)).

Definition response_of (sid : string) (result : ExecutionResult) : ChatResponseDto :=
  let sources := CSRService.extract_sources (exec_steps result) in
  mkChatResponseDto
    (Js.or_string (exec_response result) "I could not generate a response.")
    (exec_executionId result) sid (length (exec_steps result))
    (default 0%float (exec_duration result))
    (if bool_decide (0 < length sources) then Some sources else None).

(** What [approveTool] tells the runtime. *)
Definition forwarded (requestId : string) (approved : bool) (approvedBy : string)
    (r : R) : R :=
  if approved then approveToolExecution requestId approvedBy r
  else rejectToolExecution requestId r.

(** What the callback of a timer does to the runtime, the handlers being
    those of [w]. *)
Definition fire w (r : R) (x : Timer) : R :=
  if CSRService.has_handler (timer_requestId x) w then r
  else approveToolExecution (timer_requestId x) "auto-timeout" r.

(** The world [initialize] leaves when the selected backend fails and
    the fallback works. *)
Definition fallen_back w : World R :=
  let a := fresh (dom (heap w)) in
  set_runtime_config_ragService a
    (set_heap (<[a := fallback (env w)]> (heap w)) (set_ragService a w)).

End Vocabulary.

(** *** Attempts to resolve an approval request *)

Section Attempts.
Import ApprovalGate.
Local Abbreviation W := (World AgentLoop.Runtime).
Implicit Types w : W.

(** A request that has its resolution. *)
Definition resolved (q : ApprovalRequest) : Prop := resolution q ≠ pending.

(** What can try to resolve a request: a call of [approveTool], the
    callback of the service's 30-second timer, and the deadline the
    gate keeps for the request. *)
Inductive attempt : Type :=
| manual (requestId : string) (approved_ : bool) (approvedBy : string)
| timer_fires (requestId : string)
| deadline_fires (requestId : string).

Definition attempt_run (a : attempt) : M W unit :=
  match a with
  | manual requestId approved_ approvedBy =>
      CSRService.approveTool requestId approved_ approvedBy
  | timer_fires requestId => CSRService.auto_approve requestId
  | deadline_fires requestId =>
      modify (fun w =>
        set_runtime
          (AgentLoop.set_gate (expire requestId (AgentLoop.gate (runtime w)))
             (runtime w)) w)
  end.

Definition after (a : attempt) w : W := world_after (attempt_run a) w.

Definition request_of (requestId : string) w : option ApprovalRequest :=
  AgentLoop.gate (runtime w) !! requestId.

Definition resolution_in (requestId : string) w : option Resolution :=
  resolution_of requestId (AgentLoop.gate (runtime w)).

(** The number of times the resolution of a request changes while the
    attempts run one after the other. *)
Fixpoint transitions (requestId : string) w (attempts : list attempt) : nat :=
  match attempts with
  | [] => 0
  | a :: rest =>
      (if decide (resolution_in requestId (after a w) = resolution_in requestId w)
       then 0 else 1)
      + transitions requestId (after a w) rest
  end.

(** An attempt that reaches the gate for this request. *)
Definition reaches (requestId : string) w (a : attempt) : Prop :=
  match a with
  | manual requestId' _ _ => requestId' = requestId
  | timer_fires requestId' =>
      requestId' = requestId ∧ approvalHandlers w !! requestId = None
  | deadline_fires requestId' => requestId' = requestId
  end.

(** The resolution an attempt asks for. *)
Definition asks (a : attempt) : Resolution * option string :=
  match a with
  | manual _ true approvedBy => (approved, Some approvedBy)
  | manual _ false _ => (rejected, None)
  | timer_fires _ => (approved, Some "auto-timeout")
  | deadline_fires _ => (timed_out, None)
  end.

End Attempts.

Module FailureFixture.

Definition secret : Js.thrown :=
  Js.thrown_Error
    (Js.mkError "Error" "401 Incorrect API key provided: sk-live-1234").

Definition request : CSRController.ChatRequest :=
  CSRController.mkChatRequest "Where is my order?" (Some "customer-1") None.

(** The runtime fails the next execution, and one client is connected. *)
Definition failing : World Recorder.Runtime :=
  world_after (CSRGateway.handleConnection "client-7")
    (Fixture.service Fixture.local 1700000000000 [Threw secret]).

End FailureFixture.

Module FallbackFixture.

(** Pinecone is selected and cannot be reached. *)
Definition start : World Recorder.Runtime :=
  Fixture.service Fixture.pinecone_down 1700000000000 [].

Definition selected : Rag.RAGService :=
  CSRService.RAGService_over Fixture.pinecone_down Rag.PineconeVectorStore.


End FallbackFixture.

Module GateFixture.

Definition refund : ApprovalGate.ApprovalRequest :=
  ApprovalGate.mkApprovalRequest "processRefund"
    (Js.object [("orderId", Js.str "ORD-12345"); ("reason", Js.str "damaged")])
    1700000000000 1700000060000 ApprovalGate.pending None.

Definition idle : AgentLoop.Runtime :=
  AgentLoop.new_AgentRuntime
    (fun _ _ => Returned (AgentLoop.mkLlmReply "How can I help?" None))
    (fun _ _ => Returned (mkToolOutput None []))
    (fun _ => ApprovalGate.timed_out).

(** The refund waits for approval and the service has scheduled its
    timer for the request. *)
Definition waiting : World AgentLoop.Runtime :=
  world_after (CSRService.on_TOOL_APPROVAL_REQUESTED (Some "req-1"))
    (CSRService.constructor Fixture.local 1700000000000
       (AgentLoop.set_gate {[ "req-1" := refund ]} idle)).

End GateFixture.

(** * Properties *)

(** ** Running a computation *)

Section RunLemmas.
Context {W : Type}.

Lemma run_bind {A B} (m : M W A) (k : A → M W B) w :
  run (m ≫= k) w =
  match run m w with
  | (Returned a, w') => run (k a) w'
  | (Threw t, w') => (Threw t, w')
  end.
Proof. reflexivity. Qed.

Lemma run_bind_returned {A B} (m : M W A) (k : A → M W B) w a w' :
  run m w = (Returned a, w') → run (m ≫= k) w = run (k a) w'.
Proof. intros E. rewrite run_bind, E. reflexivity. Qed.

Lemma run_bind_threw {A B} (m : M W A) (k : A → M W B) w t w' :
  run m w = (Threw t, w') → run (m ≫= k) w = (Threw t, w').
Proof. intros E. rewrite run_bind, E. reflexivity. Qed.

Lemma run_gets_bind {A B} (f : W → A) (k : A → M W B) w :
  run (gets f ≫= k) w = run (k (f w)) w.
Proof. reflexivity. Qed.

Lemma run_modify_bind {B} (f : W → W) (k : unit → M W B) w :
  run (modify f ≫= k) w = run (k tt) (f w).
Proof. reflexivity. Qed.

Lemma run_try_catch_returned {A} (m : M W A) h w a w' :
  run m w = (Returned a, w') → run (try_catch m h) w = (Returned a, w').
Proof. intros E. unfold try_catch. simpl. rewrite E. reflexivity. Qed.

Lemma run_try_catch_threw {A} (m : M W A) h w t w' :
  run m w = (Threw t, w') → run (try_catch m h) w = run (h t) w'.
Proof. intros E. unfold try_catch. simpl. rewrite E. reflexivity. Qed.

End RunLemmas.

(** ** [searchKnowledgeBase] keeps a failing search to itself *)

Section SearchKnowledgeBase.
Context {R : Type}.
Implicit Types w : World R.

Lemma RAGService_search_world a q o w :
  world_after (RAGService_search a q o) w = w.
Proof.
  unfold world_after, RAGService_search, lift. simpl.
  destruct (heap w !! a); reflexivity.
Qed.

Lemma searchKnowledgeBase_run q topK w :
  run (CSRAgent.searchKnowledgeBase q topK) w =
  match result_of (RAGService_search (agent_ragService w) q (search_options topK)) w with
  | Returned results =>
      (Returned (mkSearchToolResult true (Some q) None
                   (CSRAgent.to_document <$> results) (Some (length results))), w)
  | Threw e =>
      (Returned (mkSearchToolResult false None
                   (Some (Js.message_or_unknown e)) [] None), w)
  end.
Proof.
  pose proof (RAGService_search_world (agent_ragService w) q (search_options topK) w) as Hw.
  unfold world_after, result_of in *.
  destruct (run (RAGService_search _ _ _) w) as [[results|e] w'] eqn:E;
    cbn [fst snd] in *; subst w'; unfold CSRAgent.searchKnowledgeBase;
    fold (search_options topK).
  - apply run_try_catch_returned.
    rewrite run_gets_bind. erewrite run_bind_returned by exact E. reflexivity.
  - erewrite run_try_catch_threw; [reflexivity|].
    rewrite run_gets_bind. erewrite run_bind_threw by exact E. reflexivity.
Qed.

(** C8.  When the search of the knowledge base throws, the tool
    [searchKnowledgeBase] returns normally, with [success] false, an
    error summary and no documents, and leaves the world as it was; and
    whatever the search does, the tool never throws. *)
Theorem searchKnowledgeBase_contains_failure q topK w e :
  result_of (RAGService_search (agent_ragService w) q (search_options topK)) w
    = Threw e →
  (∃ r, run (CSRAgent.searchKnowledgeBase q topK) w = (Returned r, w)
        ∧ success r = false
        ∧ error r = Some (Js.message_or_unknown e)
        ∧ documents r = [])
  ∧ (∀ q' topK' w', ∃ r', result_of (CSRAgent.searchKnowledgeBase q' topK') w'
                           = Returned r').
Proof.
  intros E. split.
  - rewrite searchKnowledgeBase_run, E. eexists. repeat split.
  - intros q' topK' w'. unfold result_of at 1. rewrite searchKnowledgeBase_run.
    destruct (result_of _ w'); eexists; reflexivity.
Qed.

End SearchKnowledgeBase.

(** The search fails on a store that cannot be reached. *)
Lemma searchKnowledgeBase_contains_failure_witness :
  let w := Fixture.service Fixture.pinecone_down 1700000000000 [] in
  result_of (RAGService_search (agent_ragService w) "refund policy" (search_options None)) w
    = Threw Fixture.refused
  ∧ ((∃ r, run (CSRAgent.searchKnowledgeBase "refund policy" None) w = (Returned r, w)
          ∧ success r = false
          ∧ error r = Some (Js.message_or_unknown Fixture.refused)
          ∧ documents r = [])
     ∧ (∀ q' topK' (w' : World Recorder.Runtime),
          ∃ r', result_of (CSRAgent.searchKnowledgeBase q' topK') w' = Returned r')).
Proof.
  intros w.
  assert (H : result_of (RAGService_search (agent_ragService w) "refund policy"
                           (search_options None)) w = Threw Fixture.refused)
    by (vm_compute; reflexivity).
  split; [exact H|].
  exact (searchKnowledgeBase_contains_failure "refund policy" None w Fixture.refused H).
Defined.

(** ** The sources of a chat response *)

Section ChatResponse.
Context {R : Type} `{!AgentRuntime R}.
Implicit Types w : World R.

Lemma chat_run message sessionId userId w :
  run (CSRService.chat message sessionId userId) w =
  let sid := session_id_of sessionId w in
  match execute "csr-agent" message (mkExecuteOptions sid userId true true) (runtime w) with
  | (Returned result, r) => (Returned (response_of sid result), set_runtime r w)
  | (Threw t, r) => (Threw t, set_runtime r w)
  end.
Proof.
  unfold CSRService.chat. rewrite run_gets_bind.
  rewrite run_bind. unfold CSRService.runtime_execute, lift, session_id_of. simpl.
  destruct (execute _ _ _ _) as [[result|t] r]; reflexivity.
Qed.

Lemma push_documents_app sources docs :
  CSRService.push_documents sources docs = sources ++ docs.
Proof.
  unfold CSRService.push_documents. revert sources.
  induction docs as [|d docs IH]; intros sources; simpl.
  - by rewrite app_nil_r.
  - rewrite IH. destruct d. simpl. by rewrite <- app_assoc.
Qed.

Lemma extract_sources_from acc steps :
  fold_left
    (fun sources step =>
       if CSRService.is_search_step step
       then match CSRService.output_documents step with
            | Some docs => CSRService.push_documents sources docs
            | None => sources
            end
       else sources) steps acc
  = acc ++ cited steps.
Proof.
  revert acc. induction steps as [|step steps IH]; intros acc; simpl.
  - by rewrite app_nil_r.
  - rewrite IH. destruct (CSRService.is_search_step step); [|done].
    destruct (CSRService.output_documents step) as [docs|]; simpl.
    + by rewrite push_documents_app, <- app_assoc.
    + done.
Qed.

Lemma extract_sources_cited steps : CSRService.extract_sources steps = cited steps.
Proof. unfold CSRService.extract_sources. by rewrite extract_sources_from. Qed.

(** C5.  When [chat] returns, the [sources] of its payload are the
    documents of the steps that use [searchKnowledgeBase], flattened in
    step order, taken from the execution the runtime returned for this
    call; with no such document the field is absent, and it is never an
    empty list. *)
Theorem chat_sources message sessionId userId w resp w' :
  run (CSRService.chat message sessionId userId) w = (Returned resp, w') →
  ∃ result,
    run (CSRService.runtime_execute "csr-agent" message
           (mkExecuteOptions (CSRTypes.sessionId resp) userId true true)) w
      = (Returned result, w')
    ∧ sources resp =
        match cited (exec_steps result) with
        | [] => None
        | d :: ds => Some (d :: ds)
        end
    ∧ sources resp ≠ Some [].
Proof.
  rewrite chat_run. cbv zeta. unfold CSRService.runtime_execute, lift. simpl.
  destruct (execute _ _ _ _) as [[result|t] r] eqn:E; [|discriminate].
  intros [= <- <-]. exists result. simpl. rewrite E.
  split; [reflexivity|].
  rewrite extract_sources_cited.
  destruct (cited (exec_steps result)) as [|d ds]; simpl.
  - split; [reflexivity | discriminate].
  - split; [reflexivity | discriminate].
Qed.

End ChatResponse.

(** Two searches and an order lookup: the documents of the searches are
    cited, in step order, and those of the lookup are not. *)
Lemma chat_sources_witness :
  let w := Fixture.service Fixture.local 1700000000000
             [Fixture.answered [Fixture.search_step (Some [Fixture.policy]);
                                Fixture.lookup_step;
                                Fixture.search_step None;
                                Fixture.search_step (Some [Fixture.faq; Fixture.policy])]] in
  ∃ resp w',
    run (CSRService.chat "Can I get a refund?" (Some "customer-1") None) w = (Returned resp, w')
    ∧ sources resp = Some [Fixture.policy; Fixture.faq; Fixture.policy]
    ∧ ∃ result,
        run (CSRService.runtime_execute "csr-agent" "Can I get a refund?"
               (mkExecuteOptions (CSRTypes.sessionId resp) None true true)) w
          = (Returned result, w')
        ∧ sources resp =
            match cited (exec_steps result) with
            | [] => None
            | d :: ds => Some (d :: ds)
            end
        ∧ sources resp ≠ Some [].
Proof.
  intros w.
  destruct (run (CSRService.chat "Can I get a refund?" (Some "customer-1") None) w)
    as [[resp|t] w'] eqn:E; [|vm_compute in E; discriminate].
  exists resp, w'. split; [reflexivity|]. split.
  - vm_compute in E. injection E as <- _. reflexivity.
  - exact (chat_sources "Can I get a refund?" (Some "customer-1") None w resp w' E).
Defined.

(** ** The gateway refuses a message without a text *)

Section GatewayValidation.
Context {R : Type} `{!AgentRuntime R}.
Implicit Types w : World R.

Lemma not_a_string_refused v :
  (∀ s, v ≠ Js.str s) →
  negb (Js.truthy v) || negb (bool_decide (Js.typeof v = "string")) = true.
Proof.
  intros Hv. destruct v; simpl; try reflexivity; try (by rewrite orb_true_r).
  by destruct (Hv s).
Qed.

(** C9.  A ['message'] event whose [text] is missing or is not a string
    makes the gateway send one ['error'] frame to that client and stop:
    the client stays connected, the frame is added to what it was sent,
    and nothing else in the world changes, so no chat is started and
    the runtime is not called. *)
Theorem handleMessage_text_required clientId message w :
  CSRGateway.event message = "message" →
  (∀ s, text_of message ≠ Js.str s) →
  let w' := world_after (CSRGateway.handleMessage clientId message) w in
  result_of (CSRGateway.handleMessage clientId message) w = Returned tt
  ∧ w' = set_clients (alter (fun sent => sent ++ [text_required]) clientId (clients w)) w
  ∧ (∀ sent, clients w !! clientId = Some sent →
             clients w' !! clientId = Some (sent ++ [text_required]))
  ∧ dom (clients w') = dom (clients w)
  ∧ runtime w' = runtime w.
Proof.
  intros Hev Htext w'.
  assert (Hrun : run (CSRGateway.handleMessage clientId message) w =
                 (Returned tt,
                  set_clients (alter (fun sent => sent ++ [text_required]) clientId
                                 (clients w)) w)).
  { unfold CSRGateway.handleMessage, CSRGateway.super_handleMessage.
    rewrite Hev. rewrite bool_decide_eq_true_2 by reflexivity.
    fold (text_of message). rewrite (not_a_string_refused _ Htext).
    reflexivity. }
  subst w'. unfold result_of, world_after. rewrite Hrun. simpl.
  split; [reflexivity|]. split; [reflexivity|]. split; [|split].
  - intros sent Hsent. rewrite lookup_alter_eq, Hsent. reflexivity.
  - apply dom_alter_L.
  - reflexivity.
Qed.

End GatewayValidation.

(** A connected client sends a number as [text]. *)
Lemma handleMessage_text_required_witness :
  let w := world_after (CSRGateway.handleConnection "client-7")
             (Fixture.service Fixture.local 1700000000000 []) in
  let message :=
    CSRGateway.mkWebSocketMessage "message"
      (Some (CSRGateway.mkChatMessage (Js.num 42%float) (Some "customer-1") None)) in
  let w' := world_after (CSRGateway.handleMessage "client-7" message) w in
  CSRGateway.event message = "message"
  ∧ (result_of (CSRGateway.handleMessage "client-7" message) w = Returned tt
     ∧ w' = set_clients (alter (fun sent => sent ++ [text_required]) "client-7" (clients w)) w
     ∧ (∀ sent, clients w !! "client-7" = Some sent →
                clients w' !! "client-7" = Some (sent ++ [text_required]))
     ∧ dom (clients w') = dom (clients w)
     ∧ runtime w' = runtime w)
  ∧ Recorder.calls (runtime w') = [].
Proof.
  cbv zeta. split; [reflexivity|]. split.
  - apply (handleMessage_text_required "client-7"
             (CSRGateway.mkWebSocketMessage "message"
                (Some (CSRGateway.mkChatMessage (Js.num 42%float) (Some "customer-1") None)))).
    + reflexivity.
    + intros s. discriminate.
  - vm_compute. reflexivity.
Defined.

(** ** Approvals: the REST endpoint and the timer *)

Section Approvals.
Context {R : Type} `{!AgentRuntime R}.
Implicit Types w : World R.

Lemma approveTool_run requestId approved approvedBy w :
  run (CSRService.approveTool requestId approved approvedBy) w =
  (Returned tt,
   let w1 := set_runtime (forwarded requestId approved approvedBy (runtime w)) w in
   match approvalHandlers w !! requestId with
   | Some h =>
       set_approvalHandlers (delete requestId (approvalHandlers w))
         (set_resolved_waiters (resolved_waiters w ++ [(waiter h, approved)]) w1)
   | None => w1
   end).
Proof.
  unfold CSRService.approveTool, forwarded.
  rewrite run_modify_bind, run_gets_bind.
  change (approvalHandlers (set_runtime _ w)) with (approvalHandlers w).
  destruct (approvalHandlers w !! requestId) as [h|]; [|reflexivity].
  rewrite !run_modify_bind. unfold modify, set_approvalHandlers. simpl.
  by rewrite delete_insert_eq.
Qed.

Lemma approveTool_runtime requestId approved approvedBy w :
  runtime (world_after (CSRService.approveTool requestId approved approvedBy) w)
  = forwarded requestId approved approvedBy (runtime w).
Proof.
  unfold world_after. rewrite approveTool_run. simpl.
  by destruct (approvalHandlers w !! requestId).
Qed.

(** C10.  The approve endpoint answers [{ success: true }] for every
    validated body, whatever the request id: [approveTool] forwards the
    decision to the runtime and returns nothing, so an id that no
    pending request carries is answered like any other. *)
Theorem approve_success_unconditional dto w :
  result_of (CSRController.approve dto) w
    = Returned (CSRController.mkApproveResponse true)
  ∧ runtime (world_after (CSRController.approve dto) w)
    = forwarded (CSRController.requestId dto) (CSRController.approved dto)
        (CSRController.approvedBy dto) (runtime w).
Proof.
  unfold result_of, world_after, CSRController.approve.
  rewrite run_bind, approveTool_run. simpl. split; [reflexivity|].
  by destruct (approvalHandlers w !! _).
Qed.

Lemma auto_approve_run requestId w :
  approvalHandlers w !! requestId = None →
  run (CSRService.auto_approve requestId) w =
  (Returned tt,
   set_runtime (approveToolExecution requestId "auto-timeout" (runtime w)) w).
Proof.
  intros Hnone. unfold CSRService.auto_approve. rewrite run_gets_bind.
  unfold CSRService.has_handler. rewrite Hnone.
  rewrite bool_decide_eq_false_2 by (intros [? ?]; discriminate).
  reflexivity.
Qed.

Lemma auto_approve_handled requestId w :
  is_Some (approvalHandlers w !! requestId) →
  run (CSRService.auto_approve requestId) w = (Returned tt, w).
Proof.
  intros Hsome. unfold CSRService.auto_approve. rewrite run_gets_bind.
  unfold CSRService.has_handler. rewrite bool_decide_eq_true_2 by done.
  reflexivity.
Qed.

Lemma truthy_string_nonempty s : s ≠ "" → Js.truthy_string s = true.
Proof. by destruct s. Qed.

Lemma on_TOOL_APPROVAL_REQUESTED_run requestId w :
  requestId ≠ "" →
  approvalHandlers w !! requestId = None →
  run (CSRService.on_TOOL_APPROVAL_REQUESTED (Some requestId)) w =
  (Returned tt,
   set_timers (timers w ++ [mkTimer (now w + 30000) requestId]) w).
Proof.
  intros Hid Hnone. unfold CSRService.on_TOOL_APPROVAL_REQUESTED.
  rewrite run_gets_bind. simpl. rewrite (truthy_string_nonempty _ Hid). simpl.
  unfold CSRService.has_handler. rewrite Hnone.
  rewrite bool_decide_eq_false_2 by (intros [? ?]; discriminate).
  reflexivity.
Qed.

Lemma fire_ext w w' : approvalHandlers w = approvalHandlers w' → fire w = fire w'.
Proof. intros Heq. unfold fire, CSRService.has_handler. by rewrite Heq. Qed.

Lemma set_runtime_id w : set_runtime (runtime w) w = w.
Proof. by destruct w. Qed.

Lemma callbacks_run xs : ∀ w,
  run (for_of xs (fun x => CSRService.auto_approve (timer_requestId x))) w
  = (Returned tt, set_runtime (fold_left (fire w) xs (runtime w)) w).
Proof.
  induction xs as [|x xs IH]; intros w; cbn [for_of fold_left].
  - by rewrite set_runtime_id.
  - unfold bind. cbn [run]. unfold fire at 2. unfold CSRService.has_handler.
    destruct (approvalHandlers w !! timer_requestId x) as [h|] eqn:E.
    + rewrite auto_approve_handled by (rewrite E; by eexists).
      rewrite bool_decide_eq_true_2 by by eexists. apply IH.
    + rewrite auto_approve_run by exact E.
      rewrite bool_decide_eq_false_2 by (intros [? ?]; discriminate).
      rewrite IH. reflexivity.
  Qed.

Lemma run_due_timers_run w :
  run CSRService.run_due_timers w
  = (Returned tt,
     set_runtime
       (fold_left (fire w)
          (filter (fun x => CSRService.is_due (now w) x = true) (timers w)) (runtime w))
       (set_timers
          (filter (fun x => CSRService.is_due (now w) x = false) (timers w)) w)).
Proof.
  unfold CSRService.run_due_timers.
  rewrite !run_gets_bind, run_modify_bind. by rewrite callbacks_run.
Qed.

(** C2.  When [TOOL_APPROVAL_REQUESTED] fires with a request id for
    which no handler is registered, a timer is scheduled 30 seconds
    ahead and nothing else happens; when the timer fires with still no
    handler registered the runtime is told to approve the request in
    the name of ['auto-timeout'].  Seen from the event loop, [d]
    milliseconds after the event: before 30 seconds have passed the
    runtime is where it would be without the event and the timer is
    still pending; from then on the timer has fired, and the runtime
    has received that approval after the callbacks of the timers that
    were scheduled before. *)
Theorem auto_approve_after_30_seconds requestId w :
  requestId ≠ "" →
  approvalHandlers w !! requestId = None →
  let w1 := world_after (CSRService.on_TOOL_APPROVAL_REQUESTED (Some requestId)) w in
  let timer := mkTimer (now w + 30000) requestId in
  w1 = set_timers (timers w ++ [timer]) w
  ∧ (∀ w2, approvalHandlers w2 !! requestId = None →
       world_after (CSRService.auto_approve requestId) w2
       = set_runtime (approveToolExecution requestId "auto-timeout" (runtime w2)) w2)
  ∧ (∀ d : Z,
       let without := world_after CSRService.run_due_timers (CSRService.advance d w) in
       let w2 := world_after CSRService.run_due_timers (CSRService.advance d w1) in
       ((d < 30000)%Z →
          runtime w2 = runtime without ∧ timers w2 = timers without ++ [timer])
       ∧ ((30000 ≤ d)%Z →
            runtime w2
            = approveToolExecution requestId "auto-timeout" (runtime without)
            ∧ timers w2 = timers without)).
Proof.
  intros Hid Hnone w1 timer.
  assert (Hw1 : w1 = set_timers (timers w ++ [timer]) w).
  { subst w1. unfold world_after.
    by rewrite on_TOOL_APPROVAL_REQUESTED_run. }
  split; [exact Hw1|]. split.
  - intros w2 Hw2. unfold world_after. by rewrite auto_approve_run.
  - intros d without w2. subst without w2. rewrite Hw1.
    unfold world_after. rewrite !run_due_timers_run. cbn.
    rewrite (fire_ext _ w) by reflexivity.
    rewrite (fire_ext (CSRService.advance d w) w) by reflexivity.
    rewrite !filter_app.
    assert (Hdue : CSRService.is_due (now w + d) timer
                   = bool_decide (30000 ≤ d)%Z).
    { unfold CSRService.is_due, timer. cbn. apply bool_decide_ext. lia. }
    split; intros Hd.
    + rewrite bool_decide_eq_false_2 in Hdue by lia.
      rewrite filter_cons_False by (rewrite Hdue; done).
      rewrite filter_cons_True by exact Hdue.
      rewrite !filter_nil, app_nil_r. done.
    + rewrite bool_decide_eq_true_2 in Hdue by lia.
      rewrite filter_cons_True by exact Hdue.
      rewrite filter_cons_False by (rewrite Hdue; done).
      rewrite !filter_nil, app_nil_r. rewrite fold_left_app. cbn.
      unfold fire at 1. cbn. unfold CSRService.has_handler. rewrite Hnone.
      rewrite bool_decide_eq_false_2 by (intros [? ?]; discriminate).
      done.
Qed.

End Approvals.

(** A request nobody resolves: the timer is scheduled, and 30 seconds
    later the one call the runtime has received is the approval. *)
Lemma auto_approve_after_30_seconds_witness :
  let w := Fixture.service Fixture.local 1700000000000 [] in
  let w1 := world_after (CSRService.on_TOOL_APPROVAL_REQUESTED (Some "req-1")) w in
  let w2 := world_after CSRService.run_due_timers (CSRService.advance 30000 w1) in
  "req-1" ≠ ""
  ∧ approvalHandlers w !! "req-1" = None
  ∧ timers w1 = [mkTimer 1700000030000 "req-1"]
  ∧ Recorder.calls (runtime w2)
    = [Recorder.call_approveToolExecution "req-1" "auto-timeout"]
  ∧ timers w2 = [].
Proof.
  cbv zeta.
  assert (H1 : "req-1" ≠ "") by discriminate.
  assert (H2 : approvalHandlers (Fixture.service Fixture.local 1700000000000 [])
                 !! "req-1" = None) by reflexivity.
  destruct (auto_approve_after_30_seconds "req-1"
              (Fixture.service Fixture.local 1700000000000 []) H1 H2)
    as (Hw1 & _ & Hloop).
  destruct (Hloop 30000%Z) as [_ Hfire].
  destruct (Hfire ltac:(lia)) as [Hrt Hts].
  split; [exact H1|]. split; [exact H2|]. split; [|split].
  - rewrite Hw1. reflexivity.
  - rewrite Hrt. reflexivity.
  - rewrite Hts. reflexivity.
Defined.

(** ** Session ids *)

Section SessionIds.
Context {R : Type} `{!AgentRuntime R}.
Implicit Types w : World R.

Lemma chat_sessionId message sessionId userId w resp w' :
  run (CSRService.chat message sessionId userId) w = (Returned resp, w') →
  CSRTypes.sessionId resp = session_id_of sessionId w.
Proof.
  rewrite chat_run. cbv zeta.
  destruct (execute _ _ _ _) as [[result|t] r]; [|discriminate].
  by intros [= <- _].
Qed.

Lemma generated_ids_differ (t1 t2 : Z) :
  t1 ≠ t2 → "session-" +:+ pretty t1 ≠ "session-" +:+ pretty t2.
Proof.
  intros Hne Heq. apply Hne.
  apply (inj (String.app "session-")) in Heq.
  by apply (inj pretty) in Heq.
Qed.

Lemma session_id_of_truthy sessionId w :
  Js.truthy_string (session_id_of sessionId w) = true.
Proof.
  unfold session_id_of, Js.or_string.
  destruct sessionId as [s|]; [|reflexivity].
  destruct (Js.truthy_string s) eqn:E; [exact E|reflexivity].
Qed.

(** C6, as amended.  A chat call that supplies a session id that is not
    the empty string gets that id back.  A call that supplies none, or
    the empty string, gets ["session-"] followed by the clock reading
    of the service, whatever the client sent; two such calls made at
    different clock readings get different ids.  The id a response
    carries is echoed by every later call that supplies it. *)
Theorem chat_session_id message sessionId userId w resp w' :
  run (CSRService.chat message sessionId userId) w = (Returned resp, w') →
  (∀ s, sessionId = Some s → s ≠ "" → CSRTypes.sessionId resp = s)
  ∧ (sessionId = None ∨ sessionId = Some "" →
     CSRTypes.sessionId resp = "session-" +:+ pretty (now w)
     ∧ ∀ message2 sessionId2 userId2 w2 resp2 w2',
         sessionId2 = None ∨ sessionId2 = Some "" →
         run (CSRService.chat message2 sessionId2 userId2) w2 = (Returned resp2, w2') →
         now w ≠ now w2 →
         CSRTypes.sessionId resp ≠ CSRTypes.sessionId resp2)
  ∧ (∀ message2 userId2 w2 resp2 w2',
       run (CSRService.chat message2 (Some (CSRTypes.sessionId resp)) userId2) w2
         = (Returned resp2, w2') →
       CSRTypes.sessionId resp2 = CSRTypes.sessionId resp).
Proof.
  intros Hrun. apply chat_sessionId in Hrun. rewrite Hrun. split; [|split].
  - intros s -> Hs. unfold session_id_of. simpl.
    by rewrite truthy_string_nonempty.
  - intros Hgen.
    assert (Hsid : session_id_of sessionId w = "session-" +:+ pretty (now w))
      by (destruct Hgen as [-> | ->]; reflexivity).
    split; [exact Hsid|].
    intros message2 sessionId2 userId2 w2 resp2 w2' Hgen2 Hrun2 Hne.
    apply chat_sessionId in Hrun2. rewrite Hrun2, Hsid.
    assert (Hsid2 : session_id_of sessionId2 w2 = "session-" +:+ pretty (now w2))
      by (destruct Hgen2 as [-> | ->]; reflexivity).
    rewrite Hsid2. by apply generated_ids_differ.
  - intros message2 userId2 w2 resp2 w2' Hrun2.
    apply chat_sessionId in Hrun2. rewrite Hrun2.
    unfold session_id_of at 1. simpl.
    by rewrite session_id_of_truthy.
Qed.

End SessionIds.

Lemma chat_session_id_witness :
  let w := Fixture.service Fixture.local 1700000000000
             [Fixture.answered []; Fixture.answered []] in
  ∃ resp w' resp2 w2',
    run (CSRService.chat "Where is my order?" (Some "customer-1") None) w
      = (Returned resp, w')
    ∧ CSRTypes.sessionId resp = "customer-1"
    ∧ run (CSRService.chat "Where is my order?" None None) w = (Returned resp2, w2')
    ∧ CSRTypes.sessionId resp2 = "session-1700000000000".
Proof.
  cbv zeta.
  destruct (run (CSRService.chat "Where is my order?" (Some "customer-1") None)
              (Fixture.service Fixture.local 1700000000000
                 [Fixture.answered []; Fixture.answered []]))
    as [[resp|t] w'] eqn:E; [|vm_compute in E; discriminate].
  destruct (run (CSRService.chat "Where is my order?" None None)
              (Fixture.service Fixture.local 1700000000000
                 [Fixture.answered []; Fixture.answered []]))
    as [[resp2|t] w2'] eqn:E2; [|vm_compute in E2; discriminate].
  exists resp, w', resp2, w2'.
  split; [reflexivity|]. split.
  - exact (proj1 (chat_session_id _ _ _ _ _ _ E) "customer-1" eq_refl ltac:(discriminate)).
  - split; [reflexivity|].
    exact (proj1 (proj1 (proj2 (chat_session_id _ _ _ _ _ _ E2)) (or_introl eq_refl))).
Defined.

(** [chat] reads the clock before it awaits the runtime, so a call that
    arrives within the same millisecond reads the same value: two chat
    calls without a session id are given the same id, and the runtime
    runs both users' turns under that one session.  A call that supplies
    the empty string as its session id is given a generated one. *)
Lemma chat_session_ids_collide :
  let w := Fixture.service Fixture.local 1700000000000
             [Fixture.answered []; Fixture.answered []; Fixture.answered []] in
  ∃ resp1 w1 resp2 w2 resp3 w3,
    run (CSRService.chat "Where is my order?" None (Some "alice")) w
      = (Returned resp1, w1)
    ∧ run (CSRService.chat "Cancel my subscription" None (Some "bob")) w1
      = (Returned resp2, w2)
    ∧ run (CSRService.chat "Hello" (Some "") None) w2 = (Returned resp3, w3)
    ∧ now w1 = now w
    ∧ CSRTypes.sessionId resp1 = "session-1700000000000"
    ∧ CSRTypes.sessionId resp2 = CSRTypes.sessionId resp1
    ∧ Recorder.calls (runtime w2)
      = [Recorder.call_execute "csr-agent" "Where is my order?"
           (mkExecuteOptions "session-1700000000000" (Some "alice") true true);
         Recorder.call_execute "csr-agent" "Cancel my subscription"
           (mkExecuteOptions "session-1700000000000" (Some "bob") true true)]
    ∧ CSRTypes.sessionId resp3 = "session-1700000000000".
Proof.
  cbv zeta. do 6 eexists. vm_compute. repeat split.
Qed.

(** ** What a failure of a chat turn sends to the client *)

Section FailureText.
Context {R : Type} `{!AgentRuntime R}.
Implicit Types w : World R.

Lemma sendToClient_run clientId event data w :
  run (CSRGateway.sendToClient clientId event data) w =
  (Returned tt,
   set_clients (alter (fun sent => sent ++ [mkWsFrame event data]) clientId (clients w)) w).
Proof. reflexivity. Qed.

Lemma chat_threw message sessionId userId w e r :
  execute "csr-agent" message
    (mkExecuteOptions (session_id_of sessionId w) userId true true) (runtime w)
    = (Threw e, r) →
  run (CSRService.chat message sessionId userId) w = (Threw e, set_runtime r w).
Proof. intros E. rewrite chat_run. cbv zeta. by rewrite E. Qed.

(** C4, as amended.  When the runtime fails a chat turn with the thrown
    value [e], the REST endpoint lets [e] through to the framework; the
    stream endpoint writes one frame whose [error] is [String(e)] and
    ends the response; the gateway sends ['thinking'] and then an
    ['error'] frame whose message is the message of [e] when [e] is an
    [Error], and ['Unknown error'] otherwise.  None of them writes to
    the log. *)
Theorem chat_failure_reaches_client message sessionId userId w e r :
  execute "csr-agent" message
    (mkExecuteOptions (session_id_of sessionId w) userId true true) (runtime w)
    = (Threw e, r) →
  let dto := CSRController.mkChatRequest message sessionId userId in
  (run (CSRController.chat dto) w = (Threw e, set_runtime r w))
  ∧ (∀ res,
       run (CSRController.chatStream dto res) w
       = (Returned
            (CSRController.end_
               (CSRController.write (CSRController.sse_error (Js.String_ e))
                  (sse_headers res))),
          set_runtime r w))
  ∧ (∀ clientId sent,
       clients w !! clientId = Some sent →
       let w' :=
         world_after (CSRGateway.handleChatMessage clientId message sessionId userId) w in
       clients w' !! clientId
       = Some (sent ++ [thinking; mkWsFrame "error" (ws_message (Js.message_or_unknown e))])
       ∧ logs w' = logs w)
  ∧ logs (set_runtime r w) = logs w.
Proof.
  intros E dto. split; [|split; [|split]].
  - unfold CSRController.chat. simpl. by apply chat_threw.
  - intros res. unfold CSRController.chatStream. cbv zeta. fold (sse_headers res).
    rewrite run_bind. simpl CSRController.message.
    simpl CSRController.sessionId. simpl CSRController.userId.
    erewrite run_try_catch_threw.
    2:{ erewrite run_bind_threw; [reflexivity|]. by apply chat_threw. }
    reflexivity.
  - intros clientId sent Hsent w'. subst w'.
    unfold world_after, CSRGateway.handleChatMessage, CSRGateway.getClient.
    rewrite run_gets_bind. rewrite Hsent.
    erewrite run_try_catch_threw.
    2:{ erewrite run_bind_returned by apply sendToClient_run.
        erewrite run_bind_threw; [reflexivity|].
        apply chat_threw. simpl. exact E. }
    simpl. split; [|reflexivity].
    rewrite lookup_alter_eq, lookup_alter_eq, Hsent. simpl.
    by rewrite <- app_assoc.
  - reflexivity.
Qed.

End FailureText.

Lemma chat_failure_reaches_client_witness :
  ∃ r,
    execute "csr-agent" "Where is my order?"
      (mkExecuteOptions (session_id_of (Some "customer-1") FailureFixture.failing)
         None true true) (runtime FailureFixture.failing)
      = (Threw FailureFixture.secret, r)
    ∧ run (CSRController.chat FailureFixture.request) FailureFixture.failing
      = (Threw FailureFixture.secret, set_runtime r FailureFixture.failing).
Proof.
  eexists. split.
  - vm_compute. reflexivity.
  - refine (proj1 (chat_failure_reaches_client "Where is my order?" (Some "customer-1")
                     None FailureFixture.failing FailureFixture.secret _ _)).
    vm_compute. reflexivity.
Defined.

(** The text of an internal exception reaches the client of the stream
    endpoint and the client of the gateway, and nothing is logged. *)
Lemma chat_failure_text_is_sent :
  ∃ res w' sent,
    run (CSRController.chatStream FailureFixture.request
           (CSRController.mkRes [] [] false)) FailureFixture.failing
      = (Returned res, w')
    ∧ CSRController.written res
      = [CSRController.sse_error "Error: 401 Incorrect API key provided: sk-live-1234"]
    ∧ logs w' = []
    ∧ clients (world_after
                 (CSRGateway.handleMessage "client-7"
                    (CSRGateway.mkWebSocketMessage "message"
                       (Some (CSRGateway.mkChatMessage (Js.str "Where is my order?")
                                (Some "customer-1") None))))
                 FailureFixture.failing) !! "client-7"
      = Some (sent ++ [mkWsFrame "error"
                         (ws_message "401 Incorrect API key provided: sk-live-1234")]).
Proof.
  eexists _, _, [_; _]. vm_compute. repeat split.
Qed.

(** ** Falling back to the in-memory store *)

Section Fallback.
Context {R : Type} `{!AgentRuntime R}.
Implicit Types w : World R.

Lemma set_heap_id w : set_heap (heap w) w = w.
Proof. by destruct w. Qed.

Lemma RAGService_initialize_threw a s e w :
  heap w !! a = Some s →
  Rag.unreachable (Rag.backend s) = Some e →
  run (RAGService_initialize a) w = (Threw e, w).
Proof.
  intros Hs He. unfold RAGService_initialize, lift, Rag.initialize. simpl.
  rewrite Hs, He. by rewrite insert_id, set_heap_id.
Qed.

Lemma RAGService_initialize_returned a s w :
  heap w !! a = Some s →
  Rag.unreachable (Rag.backend s) = None →
  run (RAGService_initialize a) w
  = (Returned tt, set_heap (<[a := Rag.set_initialized s]> (heap w)) w).
Proof.
  intros Hs He. unfold RAGService_initialize, lift, Rag.initialize. simpl.
  by rewrite Hs, He.
Qed.

Lemma initialize_run_fallback w s e :
  heap w !! ragService w = Some s →
  Rag.unreachable (Rag.backend s) = Some e →
  Rag.unreachable (backend_of (env w) Rag.MemoryVectorStore) = None →
  memoryManager_initialize (env w) = None →
  run CSRService.initialize w = (Returned tt, fallen_back w).
Proof.
  intros Hs He Hmem Hmm. unfold CSRService.initialize.
  erewrite run_bind_returned; cycle 1.
  { erewrite run_try_catch_threw; cycle 1.
    { rewrite run_gets_bind. by eapply RAGService_initialize_threw. }
    rewrite run_gets_bind.
    unfold new_RAGService, lift. rewrite run_bind. cbn [run].
    rewrite run_modify_bind, run_gets_bind. cbn [ragService set_ragService].
    erewrite run_bind_returned; cycle 1.
    { eapply RAGService_initialize_returned.
      - cbn [heap set_ragService set_heap]. apply lookup_insert_eq.
      - exact Hmem. }
    rewrite run_gets_bind. reflexivity. }
  rewrite run_gets_bind. cbn [env set_heap set_ragService set_runtime_config_ragService modify run].
  rewrite Hmm. unfold fallen_back, fallback. cbn.
  by rewrite insert_insert_eq.
Qed.

Lemma health_run w :
  run CSRController.health w =
  (match healthCheck with
   | Some check =>
       match check (runtime w) (heap w !! runtime_config_ragService w) with
       | Returned result => Returned (Js.spread [("status", Js.str "ok")] result)
       | Threw _ => Returned [("status", Js.str "degraded")]
       end
   | None => Returned [("status", Js.str "ok")]
   end, w).
Proof.
  unfold CSRController.health, CSRService.getRuntime.
  rewrite !run_gets_bind.
  destruct healthCheck as [check|]; [|reflexivity].
  by destruct (check _ _).
Qed.


End Fallback.



(** ** A request is resolved once *)

Section GateOnce.
Import ApprovalGate.
Implicit Types g : gmap string ApprovalRequest.

Lemma settle_other requestId' requestId r by_ g :
  requestId' ≠ requestId → settle requestId' r by_ g !! requestId = g !! requestId.
Proof.
  intros Hne. unfold settle.
  destruct (g !! requestId') as [q|]; [|done].
  destruct (resolution q); [|done..]. by rewrite lookup_insert_ne.
Qed.

Lemma settle_resolved requestId' requestId r by_ g q :
  g !! requestId = Some q → resolved q →
  settle requestId' r by_ g !! requestId = Some q.
Proof.
  intros Hq Hres. destruct (decide (requestId' = requestId)) as [->|Hne].
  - unfold settle. rewrite Hq.
    destruct (resolution q) eqn:E; [by destruct Hres|done..].
  - by rewrite settle_other.
Qed.

Lemma settle_pending requestId r by_ g q :
  g !! requestId = Some q → resolution q = pending →
  settle requestId r by_ g !! requestId
  = Some (mkApprovalRequest (toolName q) (args q) (createdAt q) (deadline q) r by_).
Proof.
  intros Hq Hpen. unfold settle. rewrite Hq, Hpen. apply lookup_insert_eq.
Qed.

End GateOnce.

Section ExactlyOnce.
Import ApprovalGate.
Local Abbreviation W := (World AgentLoop.Runtime).
Implicit Types w : W.

Lemma attempt_returns a w : result_of (attempt_run a) w = Returned tt.
Proof.
  unfold result_of. destruct a as [requestId ok approvedBy|requestId|requestId];
    cbn [attempt_run asks reaches fst snd].
  - by rewrite approveTool_run.
  - destruct (approvalHandlers w !! requestId) as [h|] eqn:E.
    + by rewrite auto_approve_handled.
    + by rewrite auto_approve_run.
  - reflexivity.
Qed.

(** The gate after an attempt: untouched, or settled once. *)
Lemma attempt_gate a w :
  AgentLoop.gate (runtime (after a w)) = AgentLoop.gate (runtime w)
  ∨ ∃ requestId',
      AgentLoop.gate (runtime (after a w))
      = settle requestId' (asks a).1 (asks a).2 (AgentLoop.gate (runtime w)).
Proof.
  unfold after. destruct a as [requestId ok approvedBy|requestId|requestId];
    cbn [attempt_run asks reaches fst snd].
  - right. exists requestId. rewrite approveTool_runtime.
    by destruct ok.
  - destruct (approvalHandlers w !! requestId) as [h|] eqn:E.
    + left. unfold world_after. by rewrite auto_approve_handled.
    + right. exists requestId. unfold world_after. by rewrite auto_approve_run.
  - right. by exists requestId.
Qed.

Lemma attempt_reaches requestId a w :
  reaches requestId w a →
  AgentLoop.gate (runtime (after a w))
  = settle requestId (asks a).1 (asks a).2 (AgentLoop.gate (runtime w)).
Proof.
  unfold after. destruct a as [requestId' ok approvedBy|requestId'|requestId'];
    cbn [attempt_run asks reaches fst snd].
  - intros ->. rewrite approveTool_runtime. by destruct ok.
  - intros [-> Hnone]. unfold world_after. by rewrite auto_approve_run.
  - by intros ->.
Qed.

Lemma asks_resolved a : (asks a).1 ≠ pending.
Proof. by destruct a as [? [] ?| |]. Qed.

Lemma attempt_after_resolved requestId a w q :
  request_of requestId w = Some q → resolved q →
  request_of requestId (after a w) = Some q.
Proof.
  unfold request_of. intros Hq Hres.
  destruct (attempt_gate a w) as [-> | [requestId' ->]]; [done|].
  by apply settle_resolved.
Qed.

Lemma transitions_resolved requestId attempts w q :
  request_of requestId w = Some q → resolved q →
  transitions requestId w attempts = 0.
Proof.
  revert w. induction attempts as [|a rest IH]; intros w Hq Hres; [done|].
  simpl. pose proof (attempt_after_resolved requestId a w q Hq Hres) as Hq'.
  rewrite (IH _ Hq' Hres).
  unfold resolution_in, resolution_of. unfold request_of in Hq, Hq'.
  rewrite Hq, Hq'. by rewrite decide_True.
Qed.

(** After one attempt a pending request is as it was, or resolved. *)
Lemma attempt_on_pending requestId a w q :
  request_of requestId w = Some q → resolution q = pending →
  request_of requestId (after a w) = Some q
  ∨ ∃ q', request_of requestId (after a w) = Some q' ∧ resolved q'.
Proof.
  unfold request_of. intros Hq Hpen.
  destruct (attempt_gate a w) as [-> | [requestId' ->]]; [by left|].
  destruct (decide (requestId' = requestId)) as [->|Hne].
  - right. eexists. split; [by apply settle_pending|]. apply asks_resolved.
  - left. by rewrite settle_other.
Qed.

Lemma transitions_at_most_once requestId attempts w q :
  request_of requestId w = Some q →
  transitions requestId w attempts ≤ 1.
Proof.
  revert w q. induction attempts as [|a rest IH]; intros w q Hq; [simpl; lia|].
  destruct (decide (resolution q = pending)) as [Hpen|Hres].
  - simpl. destruct (attempt_on_pending requestId a w q Hq Hpen)
      as [Hsame | (q' & Hq' & Hres')].
    + specialize (IH _ _ Hsame).
      unfold resolution_in, resolution_of. unfold request_of in Hq, Hsame.
      rewrite Hq, Hsame, decide_True by done. lia.
    + rewrite (transitions_resolved _ _ _ _ Hq' Hres').
      destruct (decide _); lia.
  - rewrite (transitions_resolved _ _ _ q Hq Hres). lia.
Qed.

(** C1.  For a request that is pending in the gate: every attempt to
    resolve it returns normally; the first attempt that reaches the
    gate decides the resolution, whether it is a manual resolve, the
    service's timer or the deadline; once the request is resolved no
    attempt changes it, so along any sequence of attempts its
    resolution changes at most once, and exactly once when the first
    attempt reaches the gate.  In particular the timer that fires
    after [approveTool] has resolved the request leaves it as
    [approveTool] resolved it. *)
Theorem resolution_exactly_once requestId w q :
  request_of requestId w = Some q →
  resolution q = pending →
  (∀ a w0, result_of (attempt_run a) w0 = Returned tt)
  ∧ (∀ a, reaches requestId w a →
       request_of requestId (after a w)
       = Some (mkApprovalRequest (toolName q) (args q) (createdAt q) (deadline q)
                 (asks a).1 (asks a).2))
  ∧ (∀ a w0 q0, request_of requestId w0 = Some q0 → resolved q0 →
       request_of requestId (after a w0) = Some q0)
  ∧ (∀ attempts, transitions requestId w attempts ≤ 1)
  ∧ (∀ a attempts, reaches requestId w a →
       transitions requestId w (a :: attempts) = 1)
  ∧ (∀ ok approvedBy,
       request_of requestId
         (after (timer_fires requestId) (after (manual requestId ok approvedBy) w))
       = request_of requestId (after (manual requestId ok approvedBy) w)).
Proof.
  intros Hq Hpen.
  assert (Hwins : ∀ a, reaches requestId w a →
            request_of requestId (after a w)
            = Some (mkApprovalRequest (toolName q) (args q) (createdAt q) (deadline q)
                      (asks a).1 (asks a).2)).
  { intros a Ha. unfold request_of. rewrite (attempt_reaches _ _ _ Ha).
    by apply settle_pending. }
  split; [apply attempt_returns|]. split; [exact Hwins|].
  split; [apply attempt_after_resolved|].
  split; [intros attempts; by eapply transitions_at_most_once|]. split.
  - intros a attempts Ha. simpl.
    pose proof (Hwins a Ha) as Hq'.
    rewrite (transitions_resolved _ _ _ _ Hq') by apply asks_resolved.
    unfold resolution_in, resolution_of. unfold request_of in Hq, Hq'.
    rewrite Hq, Hq'. simpl. rewrite Hpen.
    rewrite decide_False; [done|].
    intros [= Heq]. by apply (asks_resolved a).
  - intros ok approvedBy.
    pose proof (Hwins (manual requestId ok approvedBy) eq_refl) as Hq'.
    rewrite Hq'. eapply attempt_after_resolved; [exact Hq'|].
    apply (asks_resolved (manual requestId ok approvedBy)).
Qed.

End ExactlyOnce.

(** The refund is rejected by hand; the timer, the deadline and a late
    approval follow, and the request stays rejected. *)
Lemma resolution_exactly_once_witness :
  request_of "req-1" GateFixture.waiting = Some GateFixture.refund
  ∧ ApprovalGate.resolution GateFixture.refund = ApprovalGate.pending
  ∧ timers GateFixture.waiting = [mkTimer 1700000030000 "req-1"]
  ∧ transitions "req-1" GateFixture.waiting
      [manual "req-1" false "bob"; timer_fires "req-1"; deadline_fires "req-1";
       manual "req-1" true "eve"] = 1
  ∧ resolution_in "req-1"
      (after (timer_fires "req-1") (after (manual "req-1" false "bob") GateFixture.waiting))
    = Some ApprovalGate.rejected.
Proof.
  assert (H1 : request_of "req-1" GateFixture.waiting = Some GateFixture.refund)
    by reflexivity.
  assert (H2 : ApprovalGate.resolution GateFixture.refund = ApprovalGate.pending)
    by reflexivity.
  destruct (resolution_exactly_once "req-1" GateFixture.waiting GateFixture.refund H1 H2)
    as (_ & Hwins & _ & _ & Hone & Hlate).
  split; [exact H1|]. split; [exact H2|]. split; [reflexivity|]. split.
  - apply (Hone (manual "req-1" false "bob")). reflexivity.
  - unfold resolution_in, ApprovalGate.resolution_of.
    fold (request_of "req-1"
            (after (timer_fires "req-1")
               (after (manual "req-1" false "bob") GateFixture.waiting))).
    rewrite Hlate, (Hwins (manual "req-1" false "bob") eq_refl). reflexivity.
Defined.

(** ** Further properties of the service *)

Section Further.
Context {R : Type} `{!AgentRuntime R}.
Implicit Types w : World R.

(** X1.  [approveTool] does not cancel the timer of the request: it stays
    scheduled, and when it fires the service calls
    [approveToolExecution(requestId, 'auto-timeout')] after the decision
    it had forwarded. *)
Theorem approveTool_leaves_timer requestId approved approvedBy w :
  requestId ≠ "" →
  approvalHandlers w !! requestId = None →
  timers w = [] →
  let w1 := world_after (CSRService.on_TOOL_APPROVAL_REQUESTED (Some requestId)) w in
  let w2 := world_after (CSRService.approveTool requestId approved approvedBy) w1 in
  let w3 := world_after CSRService.run_due_timers (CSRService.advance 30000 w2) in
  timers w2 = [mkTimer (now w + 30000) requestId]
  ∧ runtime w2 = forwarded requestId approved approvedBy (runtime w)
  ∧ runtime w3
    = approveToolExecution requestId "auto-timeout"
        (forwarded requestId approved approvedBy (runtime w))
  ∧ timers w3 = [].
Proof.
  intros Hid Hnone Hts w1 w2 w3.
  assert (Hw1 : w1 = set_timers [mkTimer (now w + 30000) requestId] w).
  { subst w1. unfold world_after.
    rewrite on_TOOL_APPROVAL_REQUESTED_run by done. by rewrite Hts. }
  assert (Hw2 : w2 = set_runtime (forwarded requestId approved approvedBy (runtime w)) w1).
  { subst w2. unfold world_after. rewrite approveTool_run. cbn [snd].
    rewrite Hw1. cbn. by rewrite Hnone. }
  split; [by rewrite Hw2, Hw1|]. split; [by rewrite Hw2, Hw1|].
  assert (Htm : timers (CSRService.advance 30000 w2)
                = [mkTimer (now w + 30000) requestId]) by by rewrite Hw2, Hw1.
  assert (Hnow : now (CSRService.advance 30000 w2) = (now w + 30000)%Z)
    by by rewrite Hw2, Hw1.
  assert (Hrt : runtime (CSRService.advance 30000 w2)
                = forwarded requestId approved approvedBy (runtime w))
    by by rewrite Hw2, Hw1.
  assert (Hhs : approvalHandlers (CSRService.advance 30000 w2)
                !! requestId = None) by by rewrite Hw2, Hw1.
  subst w3. unfold world_after. rewrite run_due_timers_run. rewrite Htm, Hnow, Hrt.
  assert (Hdue : CSRService.is_due (now w + 30000)
                   (mkTimer (now w + 30000) requestId) = true)
    by (apply bool_decide_eq_true_2; cbn; lia).
  rewrite filter_cons_True by exact Hdue.
  rewrite filter_cons_False by (rewrite Hdue; done).
  rewrite !filter_nil. cbn [snd fold_left runtime set_runtime timers set_timers].
  unfold fire, CSRService.has_handler. cbn [timer_requestId]. rewrite Hhs.
  by rewrite bool_decide_eq_false_2 by (intros [? ?]; discriminate).
Qed.

(** X3.  [approveTool] calls the waiter registered for the request once,
    with the decision, and forgets the handler: a second call for the
    same id reaches the runtime only. *)
Theorem approveTool_resolves_waiter_once requestId approved approvedBy h w :
  approvalHandlers w !! requestId = Some h →
  let w1 := world_after (CSRService.approveTool requestId approved approvedBy) w in
  resolved_waiters w1 = resolved_waiters w ++ [(waiter h, approved)]
  ∧ approvalHandlers w1 = delete requestId (approvalHandlers w)
  ∧ ∀ approved' approvedBy',
      let w2 := world_after (CSRService.approveTool requestId approved' approvedBy') w1 in
      resolved_waiters w2 = resolved_waiters w1
      ∧ runtime w2 = forwarded requestId approved' approvedBy' (runtime w1).
Proof.
  intros Hh w1.
  assert (Hw1 : w1 = set_approvalHandlers (delete requestId (approvalHandlers w))
                       (set_resolved_waiters
                          (resolved_waiters w ++ [(waiter h, approved)])
                          (set_runtime
                             (forwarded requestId approved approvedBy (runtime w)) w))).
  { subst w1. unfold world_after. rewrite approveTool_run. cbn [snd]. by rewrite Hh. }
  split; [by rewrite Hw1|]. split; [by rewrite Hw1|].
  intros approved' approvedBy' w2. subst w2.
  unfold world_after. rewrite approveTool_run. cbn [snd].
  assert (Hgone : approvalHandlers w1 !! requestId = None)
    by (rewrite Hw1; apply lookup_delete_eq).
  by rewrite Hgone.
Qed.

(** X4.  The agent instance keeps the [RAGService] it was constructed
    with: after [initialize] has fallen back to the in-memory store, the
    tool [searchKnowledgeBase] still searches the store that failed and
    reports the failure. *)
Theorem agent_keeps_selected_store w s e :
  heap w !! ragService w = Some s →
  agent_ragService w = ragService w →
  Rag.unreachable (Rag.backend s) = Some e →
  Rag.unreachable (backend_of (env w) Rag.MemoryVectorStore) = None →
  memoryManager_initialize (env w) = None →
  let w' := world_after CSRService.initialize w in
  agent_ragService w' = agent_ragService w
  ∧ agent_ragService w' ≠ ragService w'
  ∧ ∀ q topK,
      run (CSRAgent.searchKnowledgeBase q topK) w'
      = (Returned (mkSearchToolResult false None
                     (Some (Js.message_or_unknown e)) [] None), w').
Proof.
  intros Hs Hagent He Hmem Hmm w'.
  assert (Hw' : w' = fallen_back w).
  { subst w'. unfold world_after. by erewrite initialize_run_fallback. }
  assert (Hrag : ragService w' = fresh (dom (heap w))) by by rewrite Hw'.
  assert (Hfresh : fresh (dom (heap w)) ≠ ragService w).
  { intros Heq. apply (is_fresh (dom (heap w))).
    rewrite Heq. apply elem_of_dom. by eexists. }
  assert (Hkeeps : agent_ragService w' = agent_ragService w) by by rewrite Hw'.
  split; [exact Hkeeps|]. split.
  { rewrite Hkeeps, Hagent, Hrag. congruence. }
  intros q topK. rewrite searchKnowledgeBase_run.
  assert (Hsearch : result_of (RAGService_search (agent_ragService w') q
                                 (search_options topK)) w' = Threw e).
  { unfold result_of, RAGService_search, lift. cbn [run fst].
    rewrite Hkeeps, Hagent, Hw'. cbn [heap fallen_back set_heap
      set_runtime_config_ragService set_ragService].
    rewrite lookup_insert_ne by done. rewrite Hs.
    unfold Rag.search. by rewrite He. }
  by rewrite Hsearch.
Qed.

End Further.

Lemma approveTool_leaves_timer_witness :
  let w := Fixture.service Fixture.local 1700000000000 [] in
  let w1 := world_after (CSRService.on_TOOL_APPROVAL_REQUESTED (Some "req-1")) w in
  let w2 := world_after (CSRService.approveTool "req-1" false "bob") w1 in
  let w3 := world_after CSRService.run_due_timers (CSRService.advance 30000 w2) in
  "req-1" ≠ ""
  ∧ approvalHandlers w !! "req-1" = None
  ∧ timers w = []
  ∧ Recorder.calls (runtime w3)
    = [Recorder.call_rejectToolExecution "req-1";
       Recorder.call_approveToolExecution "req-1" "auto-timeout"].
Proof.
  cbv zeta.
  assert (H1 : "req-1" ≠ "") by discriminate.
  destruct (approveTool_leaves_timer "req-1" false "bob"
              (Fixture.service Fixture.local 1700000000000 []) H1 eq_refl eq_refl)
    as (_ & _ & Hrt & _).
  split; [exact H1|]. split; [reflexivity|]. split; [reflexivity|].
  rewrite Hrt. reflexivity.
Defined.

Lemma approveTool_resolves_waiter_once_witness :
  let w := set_approvalHandlers {[ "req-1" := mkApprovalHandler 3 None ]}
             (Fixture.service Fixture.local 1700000000000 []) in
  let w1 := world_after (CSRService.approveTool "req-1" true "alice") w in
  approvalHandlers w !! "req-1" = Some (mkApprovalHandler 3 None)
  ∧ resolved_waiters w1 = [(3, true)]
  ∧ resolved_waiters (world_after (CSRService.approveTool "req-1" false "bob") w1)
    = [(3, true)].
Proof.
  cbv zeta.
  assert (H1 : approvalHandlers
                 (set_approvalHandlers {[ "req-1" := mkApprovalHandler 3 None ]}
                    (Fixture.service Fixture.local 1700000000000 []))
               !! "req-1" = Some (mkApprovalHandler 3 None))
    by (vm_compute; reflexivity).
  destruct (approveTool_resolves_waiter_once "req-1" true "alice" (mkApprovalHandler 3 None)
              (set_approvalHandlers {[ "req-1" := mkApprovalHandler 3 None ]}
                 (Fixture.service Fixture.local 1700000000000 [])) H1)
    as (Hw1 & _ & Hagain).
  split; [exact H1|]. split; [rewrite Hw1; reflexivity|].
  destruct (Hagain false "bob") as [-> _]. rewrite Hw1. reflexivity.
Defined.

Lemma agent_keeps_selected_store_witness :
  heap FallbackFixture.start !! ragService FallbackFixture.start
    = Some FallbackFixture.selected
  ∧ agent_ragService FallbackFixture.start = ragService FallbackFixture.start
  ∧ Rag.unreachable (Rag.backend FallbackFixture.selected) = Some Fixture.refused
  ∧ Rag.unreachable (backend_of (env FallbackFixture.start) Rag.MemoryVectorStore) = None
  ∧ memoryManager_initialize (env FallbackFixture.start) = None
  ∧ result_of (CSRAgent.searchKnowledgeBase "refund policy" None)
      (world_after CSRService.initialize FallbackFixture.start)
    = Returned (mkSearchToolResult false None
                  (Some "connect ECONNREFUSED 10.0.0.12:6333") [] None).
Proof.
  destruct (agent_keeps_selected_store FallbackFixture.start FallbackFixture.selected
              Fixture.refused eq_refl eq_refl eq_refl eq_refl eq_refl)
    as (_ & _ & Hsearch).
  repeat (split; [reflexivity|]).
  unfold result_of. rewrite Hsearch. reflexivity.
Defined.

(** ** What the calls of the service keep *)

Section Keeps.
Context {W : Type} (rel : W → W → Prop) `{!PreOrder rel}.

Lemma keeps_ret {A} (a : A) : keeps rel (mret a : M W A).
Proof. intros w. reflexivity. Qed.

Lemma keeps_gets {A} (f : W → A) : keeps rel (gets f).
Proof. intros w. reflexivity. Qed.

Lemma keeps_throw {A} t : keeps rel (throw t : M W A).
Proof. intros w. reflexivity. Qed.

Lemma keeps_modify (f : W → W) : (∀ w, rel w (f w)) → keeps rel (modify f).
Proof. intros Hf w. apply Hf. Qed.

Lemma keeps_lift {A} (f : W → outcome A * W) :
  (∀ w, rel w (f w).2) → keeps rel (lift f).
Proof. intros Hf w. apply Hf. Qed.

Lemma keeps_bind {A B} (m : M W A) (k : A → M W B) :
  keeps rel m → (∀ a, keeps rel (k a)) → keeps rel (m ≫= k).
Proof.
  intros Hm Hk w. unfold world_after. rewrite run_bind.
  specialize (Hm w). unfold world_after in Hm.
  destruct (run m w) as [[a|t] w']; simpl in *.
  - etrans; [exact Hm|]. apply Hk.
  - exact Hm.
Qed.

Lemma keeps_try_catch {A} (m : M W A) h :
  keeps rel m → (∀ t, keeps rel (h t)) → keeps rel (try_catch m h).
Proof.
  intros Hm Hh w. unfold world_after, try_catch. simpl.
  specialize (Hm w). unfold world_after in Hm.
  destruct (run m w) as [[a|t] w']; simpl in *.
  - exact Hm.
  - etrans; [exact Hm|]. apply Hh.
Qed.

Lemma keeps_for_of {A} (xs : list A) (body : A → M W unit) :
  (∀ x, keeps rel (body x)) → keeps rel (for_of xs body).
Proof.
  intros Hbody. induction xs as [|x xs IH]; simpl.
  - apply (keeps_ret tt).
  - apply (keeps_bind (body x) (fun _ => for_of xs body)); [apply Hbody|].
    intros _. exact IH.
Qed.

End Keeps.

Section ServiceInvariants.
Context {R : Type} `{!AgentRuntime R}.
Implicit Types w : World R.

Global Instance no_new_handler_preorder : PreOrder (@no_new_handler R).
Proof.
  split.
  - intros w. split; reflexivity.
  - intros w1 w2 w3 [H1 E1] [H2 E2]. split.
    + etrans; eassumption.
    + congruence.
Qed.

Global Instance same_logs_preorder : PreOrder (@same_logs R).
Proof.
  split.
  - intros w. reflexivity.
  - intros w1 w2 w3 E1 E2. unfold same_logs in *. congruence.
Qed.

Lemma no_new_handler_leaves_alone : leaves_alone (@no_new_handler R).
Proof. intros w w' Hh Ha _. split; [by rewrite Hh|exact Ha]. Qed.

Lemma same_logs_leaves_alone : leaves_alone (@same_logs R).
Proof. intros w w' _ _ Hl. exact Hl. Qed.

Section Frames.
Context (rel : World R → World R → Prop) `{!PreOrder rel}.
Context (Hrel : leaves_alone rel).

Ltac alone := apply Hrel; reflexivity.
Ltac k_bind := apply keeps_bind; [exact _ | | ].
Ltac k_gets := apply keeps_bind; [exact _ | apply keeps_gets; exact _ | ].
Ltac k_ret := apply keeps_ret; exact _.
Ltac k_modify := apply keeps_modify; intros ?; alone.
Ltac k_try := apply keeps_try_catch; [exact _ | | ].

Lemma keeps_RAGService_initialize a : keeps rel (RAGService_initialize a).
Proof.
  apply keeps_lift. intros w. destruct (heap w !! a) as [s|]; [|reflexivity].
  destruct (Rag.initialize s). alone.
Qed.

Lemma keeps_RAGService_search a q o : keeps rel (RAGService_search a q o).
Proof.
  apply keeps_lift. intros w. destruct (heap w !! a) as [s|]; reflexivity.
Qed.

Lemma keeps_RAGService_index a c m : keeps rel (RAGService_index a c m).
Proof.
  apply keeps_lift. intros w. destruct (heap w !! a) as [s|]; [|reflexivity].
  destruct (Rag.index c m s). alone.
Qed.

Lemma keeps_initialize : keeps rel CSRService.initialize.
Proof.
  unfold CSRService.initialize. k_bind.
  - k_try.
    + k_gets. intros a. apply keeps_RAGService_initialize.
    + intros _. k_gets. intros e. k_bind.
      { apply keeps_lift. intros w. alone. }
      intros a. k_bind; [k_modify|].
      intros _. k_gets. intros a'.
      k_bind; [apply keeps_RAGService_initialize|].
      intros _. k_gets. intros a''. k_modify.
  - intros _. k_gets. intros e.
    destruct (memoryManager_initialize e); [apply keeps_throw; exact _|k_ret].
Qed.

Lemma keeps_chat message sessionId userId :
  keeps rel (CSRService.chat message sessionId userId).
Proof.
  intros w. unfold world_after. rewrite chat_run. cbv zeta.
  destruct (execute _ _ _ _) as [[result|t] r]; alone.
Qed.

Lemma keeps_ingestDocument title content metadata :
  keeps rel (CSRService.ingestDocument title content metadata).
Proof.
  unfold CSRService.ingestDocument. k_gets.
  intros a. apply keeps_RAGService_index.
Qed.

Lemma keeps_auto_approve requestId : keeps rel (CSRService.auto_approve requestId).
Proof.
  unfold CSRService.auto_approve. k_gets.
  intros [|]; [k_ret|k_modify].
Qed.

Lemma keeps_event requestId :
  keeps rel (CSRService.on_TOOL_APPROVAL_REQUESTED requestId).
Proof.
  unfold CSRService.on_TOOL_APPROVAL_REQUESTED. k_gets.
  intros [|]; [k_ret|].
  destruct (CSRService.truthy_opt requestId); [|k_ret].
  unfold CSRService.setTimeout. k_modify.
Qed.

Lemma keeps_run_due_timers : keeps rel CSRService.run_due_timers.
Proof.
  unfold CSRService.run_due_timers. k_gets. intros t. k_gets. intros ts.
  k_bind; [k_modify|].
  intros _. apply keeps_for_of; [exact _|].
  intros x. apply keeps_auto_approve.
Qed.

Lemma keeps_sendToClient clientId event data :
  keeps rel (CSRGateway.sendToClient clientId event data).
Proof. unfold CSRGateway.sendToClient. k_modify. Qed.

Lemma keeps_handleChatMessage clientId text sessionId userId :
  keeps rel (CSRGateway.handleChatMessage clientId text sessionId userId).
Proof.
  unfold CSRGateway.handleChatMessage, CSRGateway.getClient. k_gets.
  intros [sent|]; [|k_ret]. k_try.
  - k_bind; [apply keeps_sendToClient|]. intros _.
    k_bind; [apply keeps_chat|]. intros result.
    apply keeps_sendToClient.
  - intros e. apply keeps_sendToClient.
Qed.

Lemma keeps_handleMessage clientId message :
  keeps rel (CSRGateway.handleMessage clientId message).
Proof.
  unfold CSRGateway.handleMessage, CSRGateway.super_handleMessage.
  k_bind; [k_ret|]. intros _.
  destruct (bool_decide _); [|k_ret].
  cbv zeta. destruct (_ || _).
  - apply keeps_sendToClient.
  - apply keeps_handleChatMessage.
Qed.

Lemma keeps_handleConnection clientId :
  keeps rel (CSRGateway.handleConnection clientId).
Proof.
  unfold CSRGateway.handleConnection, CSRGateway.super_handleConnection.
  k_bind; [k_modify|].
  intros _. k_gets. intros t. apply keeps_sendToClient.
Qed.

Lemma keeps_chatStream dto res : keeps rel (CSRController.chatStream dto res).
Proof.
  unfold CSRController.chatStream. cbv zeta. k_bind.
  - k_try.
    + k_bind; [apply keeps_chat|]. intros result. k_ret.
    + intros e. k_ret.
  - intros res'. k_ret.
Qed.

Lemma keeps_health : keeps rel CSRController.health.
Proof. intros w. unfold world_after. rewrite health_run. reflexivity. Qed.

Lemma keeps_searchKnowledgeBase q topK :
  keeps rel (CSRAgent.searchKnowledgeBase q topK).
Proof.
  intros w. unfold world_after. rewrite searchKnowledgeBase_run.
  destruct (result_of _ w); reflexivity.
Qed.

End Frames.

Lemma approveTool_no_new_handler requestId approved approvedBy :
  keeps no_new_handler (CSRService.approveTool requestId approved approvedBy).
Proof.
  intros w. unfold world_after. rewrite approveTool_run. cbn [snd].
  destruct (approvalHandlers w !! requestId) as [h|]; split; try reflexivity.
  cbn. apply delete_subseteq.
Qed.

Lemma logger_no_new_handler l msg : keeps no_new_handler (logger l msg : M (World R) unit).
Proof. apply keeps_modify. intros w. split; reflexivity. Qed.

Lemma call_no_new_handler c w : no_new_handler w (call_run c w).
Proof.
  destruct c; cbn [call_run].
  - apply (keeps_chat _ no_new_handler_leaves_alone).
  - apply (keeps_chatStream _ no_new_handler_leaves_alone).
  - apply (keeps_ingestDocument _ no_new_handler_leaves_alone).
  - unfold CSRController.approve.
    apply (keeps_bind no_new_handler); [apply approveTool_no_new_handler|].
    intros _. apply (keeps_ret no_new_handler).
  - apply (keeps_health no_new_handler).
  - unfold Bootstrap.initialize_service.
    apply (keeps_try_catch no_new_handler).
    + apply (keeps_bind no_new_handler); [|intros _; apply logger_no_new_handler].
      apply (keeps_initialize _ no_new_handler_leaves_alone).
    + intros e. apply logger_no_new_handler.
  - apply (keeps_event _ no_new_handler_leaves_alone).
  - apply (keeps_run_due_timers _ no_new_handler_leaves_alone).
  - split; reflexivity.
  - apply (keeps_handleConnection _ no_new_handler_leaves_alone).
  - apply (keeps_handleMessage _ no_new_handler_leaves_alone).
  - apply (keeps_searchKnowledgeBase no_new_handler).
Qed.

Lemma calls_no_new_handler cs : ∀ w, no_new_handler w (calls_run cs w).
Proof.
  induction cs as [|c cs IH]; intros w; cbn [calls_run fold_left].
  - reflexivity.
  - etrans; [apply (call_no_new_handler c)|apply IH].
Qed.

(** X5.  No endpoint, event, timer or tool of the service registers an
    approval handler or gives the agent another store: whatever calls
    the service has received, its handlers are among those it had and
    the agent holds the [RAGService] it held.  From the constructor on
    there is no handler at all, so every approval event with an id
    schedules the timer of the automatic approval. *)
Theorem no_call_registers_a_handler cs w :
  approvalHandlers (calls_run cs w) ⊆ approvalHandlers w
  ∧ agent_ragService (calls_run cs w) = agent_ragService w
  ∧ ∀ e t r requestId,
      let w' := calls_run cs (CSRService.constructor e t r) in
      approvalHandlers w' = ∅
      ∧ (requestId ≠ "" →
         call_run (call_event (Some requestId)) w'
         = set_timers (timers w' ++ [mkTimer (now w' + 30000) requestId]) w').
Proof.
  destruct (calls_no_new_handler cs w) as [Hh Ha].
  split; [exact Hh|]. split; [exact Ha|].
  intros e t r requestId w'.
  assert (Hempty : approvalHandlers w' = ∅).
  { destruct (calls_no_new_handler cs (CSRService.constructor e t r)) as [Hsub _].
    fold w' in Hsub. cbn in Hsub. apply map_eq. intros k.
    rewrite lookup_empty. apply eq_None_not_Some. intros [h Hk].
    eapply lookup_weaken in Hk; [|exact Hsub]. by rewrite lookup_empty in Hk. }
  split; [exact Hempty|]. intros Hid. cbn [call_run]. unfold world_after.
  rewrite on_TOOL_APPROVAL_REQUESTED_run; [reflexivity|exact Hid|].
  by rewrite Hempty, lookup_empty.
Qed.

(** X6.  The start of the process survives whatever [initialize] does:
    it returns normally and writes one line to the log, the success at
    level [info] when [initialize] returns and the error at level
    [warn] when it throws; [initialize] itself writes nothing. *)
Theorem initialize_service_logs_once w :
  result_of Bootstrap.initialize_service w = Returned tt
  ∧ logs (world_after CSRService.initialize w) = logs w
  ∧ logs (world_after Bootstrap.initialize_service w)
    = logs w ++
      [match result_of CSRService.initialize w with
       | Returned _ => mkLogEntry log_info "CSR service initialized"
       | Threw e => mkLogEntry log_warn ("CSR service init: " +:+ Js.String_ e)
       end].
Proof.
  pose proof (keeps_initialize same_logs same_logs_leaves_alone w) as Hlogs.
  unfold same_logs, world_after, result_of in *.
  unfold Bootstrap.initialize_service, try_catch. cbn [run].
  rewrite run_bind.
  destruct (run CSRService.initialize w) as [[[]|e] w1]; cbn in *;
    rewrite Hlogs; done.
Qed.

End ServiceInvariants.

(** ** The timers of the service *)

Section Timers.
Context {R : Type} `{!AgentRuntime R}.
Implicit Types w : World R.

(** X7.  An approval event schedules nothing when it carries no data,
    an empty request id, or the id of a request for which a handler is
    registered: the world stays as it is.  And a timer that fires while
    a handler is registered for its request approves nothing. *)
Theorem approval_event_without_effect requestId w :
  requestId = None ∨ requestId = Some ""
  ∨ (∃ id, requestId = Some id ∧ is_Some (approvalHandlers w !! id)) →
  run (CSRService.on_TOOL_APPROVAL_REQUESTED requestId) w = (Returned tt, w)
  ∧ ∀ id w2, is_Some (approvalHandlers w2 !! id) →
      run (CSRService.auto_approve id) w2 = (Returned tt, w2).
Proof.
  intros Hcase. split; [|intros id w2; apply auto_approve_handled].
  unfold CSRService.on_TOOL_APPROVAL_REQUESTED. rewrite run_gets_bind.
  destruct Hcase as [-> | [-> | (id & -> & Hsome)]]; [reflexivity..|].
  cbn [CSRService.truthy_opt default]. unfold CSRService.has_handler.
  rewrite (bool_decide_eq_true_2 _ Hsome).
  destruct (Js.truthy_string id); reflexivity.
Qed.

End Timers.

Lemma approval_event_without_effect_witness :
  let w := set_approvalHandlers {[ "req-1" := mkApprovalHandler 3 None ]}
             (Fixture.service Fixture.local 1700000000000 []) in
  (∃ id, Some "req-1" = Some id ∧ is_Some (approvalHandlers w !! id))
  ∧ timers (world_after (CSRService.on_TOOL_APPROVAL_REQUESTED (Some "req-1")) w) = []
  ∧ Recorder.calls (runtime (world_after (CSRService.auto_approve "req-1") w)) = [].
Proof.
  cbv zeta.
  assert (H : ∃ id, Some "req-1" = Some id
                    ∧ is_Some (approvalHandlers
                                 (set_approvalHandlers
                                    {[ "req-1" := mkApprovalHandler 3 None ]}
                                    (Fixture.service Fixture.local 1700000000000 []))
                               !! id)).
  { exists "req-1". split; [reflexivity|]. vm_compute. by eexists. }
  destruct (approval_event_without_effect (Some "req-1") _ (or_intror (or_intror H)))
    as [Hevent Htimer].
  split; [exact H|]. split.
  - unfold world_after. rewrite Hevent. reflexivity.
  - unfold world_after. rewrite Htimer; [reflexivity|].
    vm_compute. by eexists.
Defined.

(** ** Object literals with a spread *)

Lemma get_field_set_field k k' v o :
  Js.get_field k (Js.set_field k' v o)
  = if decide (k' = k) then v else Js.get_field k o.
Proof.
  induction o as [|[k0 v0] o IH]; cbn [Js.set_field Js.get_field].
  - destruct (decide (k' = k)); reflexivity.
  - destruct (decide (k0 = k')) as [->|Hne]; cbn [Js.get_field].
    + destruct (decide (k' = k)); reflexivity.
    + destruct (decide (k0 = k)) as [->|Hne'].
      * destruct (decide (k' = k)); [congruence|reflexivity].
      * exact IH.
Qed.

Lemma get_field_absent k (o : list (string * Js.value)) :
  k ∉ o.*1 → Js.get_field k o = Js.undefined.
Proof.
  induction o as [|[k0 v0] o IH]; [reflexivity|].
  cbn [fmap list_fmap fst Js.get_field]. intros Hk.
  apply not_elem_of_cons in Hk as [Hne Hk].
  destruct (decide (k0 = k)); [congruence|auto].
Qed.

Lemma get_field_spread k extra : ∀ o,
  NoDup extra.*1 →
  Js.get_field k (Js.spread o extra)
  = if decide (k ∈ extra.*1) then Js.get_field k extra else Js.get_field k o.
Proof.
  unfold Js.spread.
  induction extra as [|[k1 v1] extra IH]; intros o Hnd.
  - cbn. destruct (decide _) as [H|]; [by apply elem_of_nil in H|reflexivity].
  - cbn [fmap list_fmap fst] in Hnd. apply NoDup_cons in Hnd as [Hk1 Hnd].
    cbn [fold_left fst snd]. rewrite (IH _ Hnd), get_field_set_field.
    cbn [fmap list_fmap fst Js.get_field].
    destruct (decide (k1 = k)) as [->|Hne].
    + rewrite (decide_False _ _ Hk1).
      rewrite decide_True by (apply elem_of_cons; by left). reflexivity.
    + destruct (decide (k ∈ extra.*1)) as [Hin|Hnin].
      * rewrite decide_True by (apply elem_of_cons; by right). reflexivity.
      * rewrite decide_False; [reflexivity|].
        intros [?|?]%elem_of_cons; congruence.
Qed.

(** ** The endpoints of the controller *)

Section Endpoints.
Context {R : Type} `{!AgentRuntime R}.
Implicit Types w : World R.

(** X9.  A chat turn the runtime completes always has something to
    say: the response carries the text of the execution, or ['I could
    not generate a response.'] when the execution has none or an empty
    one, so its text is never empty, and neither is its session id; it
    counts the steps of the execution and passes its id on.  What the
    runtime throws, [chat] throws. *)
Theorem chat_response_never_empty message sessionId userId w :
  match fst (execute "csr-agent" message
               (mkExecuteOptions (session_id_of sessionId w) userId true true)
               (runtime w)) with
  | Threw e => result_of (CSRService.chat message sessionId userId) w = Threw e
  | Returned result =>
      ∃ resp,
        result_of (CSRService.chat message sessionId userId) w = Returned resp
        ∧ response resp ≠ ""
        ∧ (∀ text, exec_response result = Some text → text ≠ "" →
             response resp = text)
        ∧ (exec_response result = None ∨ exec_response result = Some "" →
             response resp = "I could not generate a response.")
        ∧ CSRTypes.sessionId resp ≠ ""
        ∧ steps resp = length (exec_steps result)
        ∧ executionId resp = exec_executionId result
  end.
Proof.
  unfold result_of. rewrite chat_run. cbv zeta.
  assert (Hor : ∀ s d, d ≠ "" → Js.or_string s d ≠ "").
  { intros [[|c s]|] d Hd; cbn; congruence. }
  destruct (execute _ _ _ _) as [[result|t] r]; cbn [fst]; [|reflexivity].
  eexists. split; [reflexivity|].
  unfold response_of, session_id_of.
  cbn [response CSRTypes.sessionId steps executionId].
  split; [apply Hor; discriminate|]. split.
  { intros text -> Hne. destruct text; [done|reflexivity]. }
  split. { intros [-> | ->]; reflexivity. }
  split; [apply Hor; discriminate|]. split; reflexivity.
Qed.

(** X10.  The stream endpoint always answers: whatever the chat turn
    does, [chatStream] returns normally, having set the three headers
    of an event stream, written exactly one frame and ended the
    response.  The frame carries the response of the turn, or the text
    of what it threw. *)
Theorem chatStream_always_ends dto res w :
  let chat :=
    CSRService.chat (CSRController.message dto) (CSRController.sessionId dto)
      (CSRController.userId dto) in
  ∃ frame,
    run (CSRController.chatStream dto res) w
    = (Returned (CSRController.end_ (CSRController.write frame (sse_headers res))),
       world_after chat w)
    ∧ frame = match result_of chat w with
              | Returned result => CSRController.sse_response result
              | Threw e => CSRController.sse_error (Js.String_ e)
              end
    ∧ ∀ res', result_of (CSRController.chatStream dto res) w = Returned res' →
        CSRController.ended res' = true
        ∧ CSRController.written res' = CSRController.written res ++ [frame]
        ∧ CSRController.headers res'
          = CSRController.headers res
            ++ [("Content-Type", "text/event-stream"); ("Cache-Control", "no-cache");
                ("Connection", "keep-alive")].
Proof.
  intros chat. subst chat.
  assert (Hrun : ∀ frame w1,
            run (try_catch
                   (result ← CSRService.chat (CSRController.message dto)
                               (CSRController.sessionId dto) (CSRController.userId dto);
                    mret (CSRController.write (CSRController.sse_response result)
                            (sse_headers res)))
                   (fun error =>
                      mret (CSRController.write
                              (CSRController.sse_error (Js.String_ error))
                              (sse_headers res)))) w
            = (Returned (CSRController.write frame (sse_headers res)), w1) →
            run (CSRController.chatStream dto res) w
            = (Returned (CSRController.end_ (CSRController.write frame (sse_headers res))),
               w1)).
  { intros frame w1 Htry. unfold CSRController.chatStream. cbv zeta.
    fold (sse_headers res). by erewrite run_bind_returned by exact Htry. }
  assert (Hshape : ∀ frame res',
            Returned (CSRController.end_ (CSRController.write frame (sse_headers res)))
            = Returned res' →
            CSRController.ended res' = true
            ∧ CSRController.written res' = CSRController.written res ++ [frame]
            ∧ CSRController.headers res'
              = CSRController.headers res
                ++ [("Content-Type", "text/event-stream"); ("Cache-Control", "no-cache");
                    ("Connection", "keep-alive")]).
  { intros frame res' [= <-]. cbn. by rewrite <- !app_assoc. }
  unfold result_of, world_after.
  destruct (run (CSRService.chat _ _ _) w) as [[result|e] w1] eqn:E; cbn [fst snd].
  - exists (CSRController.sse_response result).
    rewrite (Hrun (CSRController.sse_response result) w1).
    + split; [reflexivity|]. split; [reflexivity|]. apply Hshape.
    + apply run_try_catch_returned. by erewrite run_bind_returned by exact E.
  - exists (CSRController.sse_error (Js.String_ e)).
    rewrite (Hrun (CSRController.sse_error (Js.String_ e)) w1).
    + split; [reflexivity|]. split; [reflexivity|]. apply Hshape.
    + erewrite run_try_catch_threw; [reflexivity|].
      by erewrite run_bind_threw by exact E.
Qed.

(** X11.  The health endpoint never fails and changes nothing.  With
    no [healthCheck] in the runtime it reports the status ['ok'], and
    ['degraded'] when the check throws.  When the check returns, every
    field of its result is reported as it is, a [status] field of the
    result replacing ['ok']; only a result without one leaves the
    status ['ok']. *)
Theorem health_reports_the_check w :
  ∃ fields,
    run CSRController.health w = (Returned fields, w)
    ∧ match healthCheck with
      | None => fields = [("status", Js.str "ok")]
      | Some check =>
          match check (runtime w) (heap w !! runtime_config_ragService w) with
          | Threw _ => fields = [("status", Js.str "degraded")]
          | Returned result =>
              NoDup result.*1 →
              (∀ k, k ∈ result.*1 → Js.get_field k fields = Js.get_field k result)
              ∧ ("status" ∉ result.*1 → Js.get_field "status" fields = Js.str "ok")
              ∧ (∀ k, k ∉ result.*1 → k ≠ "status" →
                      Js.get_field k fields = Js.undefined)
          end
      end.
Proof.
  rewrite health_run.
  destruct healthCheck as [check|]; [|by eexists].
  destruct (check _ _) as [result|e]; [|by eexists].
  eexists. split; [reflexivity|].
  intros Hnd. split; [|split].
  - intros k Hk. rewrite (get_field_spread _ _ _ Hnd). by rewrite decide_True.
  - intros Hk. rewrite (get_field_spread _ _ _ Hnd). by rewrite decide_False.
  - intros k Hk Hne. rewrite (get_field_spread _ _ _ Hnd).
    rewrite decide_False by exact Hk. cbn.
    destruct (decide ("status" = k)); [congruence|reflexivity].
Qed.

(** X12.  The ingest endpoint indexes one document in the knowledge
    base of the service: its content is the title, an empty line and
    the content, and its metadata are those of the request with the
    title added.  A [title] among the metadata of the request replaces
    the title of the request there. *)
Theorem ingest_document_and_metadata dto w :
  NoDup (default [] (CSRController.metadata dto)).*1 →
  ∃ md,
    run (CSRController.ingest dto) w
    = run (RAGService_index (ragService w)
             (CSRController.title dto +:+ CSRService.newline +:+ CSRService.newline
              +:+ CSRController.content dto) md) w
    ∧ (∀ k, k ∈ (default [] (CSRController.metadata dto)).*1 →
         Js.get_field k md = Js.get_field k (default [] (CSRController.metadata dto)))
    ∧ ("title" ∉ (default [] (CSRController.metadata dto)).*1 →
         Js.get_field "title" md = Js.str (CSRController.title dto))
    ∧ (∀ k, k ∉ (default [] (CSRController.metadata dto)).*1 → k ≠ "title" →
         Js.get_field k md = Js.undefined).
Proof.
  intros Hnd. eexists. split.
  { unfold CSRController.ingest, CSRService.ingestDocument.
    rewrite run_gets_bind. reflexivity. }
  split; [|split].
  - intros k Hk. rewrite (get_field_spread _ _ _ Hnd). by rewrite decide_True.
  - intros Hk. rewrite (get_field_spread _ _ _ Hnd). by rewrite decide_False.
  - intros k Hk Hne. rewrite (get_field_spread _ _ _ Hnd).
    rewrite decide_False by exact Hk. cbn.
    destruct (decide ("title" = k)); [congruence|reflexivity].
Qed.

End Endpoints.

(** A request whose metadata carry a title of their own. *)
Lemma ingest_document_and_metadata_witness :
  let dto :=
    CSRController.mkIngestRequest "Returns" "Within 30 days."
      (Some [("category", Js.str "policy"); ("title", Js.str "Refund policy")]) in
  let w := Fixture.service Fixture.local 1700000000000 [] in
  NoDup (default [] (CSRController.metadata dto)).*1
  ∧ ∃ md,
      run (CSRController.ingest dto) w
      = run (RAGService_index (ragService w)
               ("Returns" +:+ CSRService.newline +:+ CSRService.newline
                +:+ "Within 30 days.") md) w
      ∧ Js.get_field "title" md = Js.str "Refund policy"
      ∧ Js.get_field "category" md = Js.str "policy".
Proof.
  cbv zeta.
  assert (Hnd : NoDup (default [] (CSRController.metadata
                   (CSRController.mkIngestRequest "Returns" "Within 30 days."
                      (Some [("category", Js.str "policy");
                             ("title", Js.str "Refund policy")])))).*1).
  { apply (proj1 (bool_decide_eq_true _)). vm_compute. reflexivity. }
  split; [exact Hnd|].
  destruct (ingest_document_and_metadata
              (CSRController.mkIngestRequest "Returns" "Within 30 days."
                 (Some [("category", Js.str "policy"); ("title", Js.str "Refund policy")]))
              (Fixture.service Fixture.local 1700000000000 []) Hnd)
    as (md & Hrun & Hkeys & _).
  exists md. split; [exact Hrun|]. split.
  - rewrite Hkeys; [reflexivity|]. cbn. apply elem_of_cons. right.
    apply elem_of_cons. by left.
  - rewrite Hkeys; [reflexivity|]. cbn. apply elem_of_cons. by left.
Defined.

(** ** The frames of the gateway *)

Section GatewayFrames.
Context {R : Type} `{!AgentRuntime R}.
Implicit Types w : World R.

Lemma handleChatMessage_run clientId text sessionId userId w :
  run (CSRGateway.handleChatMessage clientId text sessionId userId) w =
  match clients w !! clientId with
  | None => (Returned tt, w)
  | Some _ =>
      let w1 := set_clients (alter (fun sent => sent ++ [thinking]) clientId (clients w)) w in
      match run (CSRService.chat text sessionId userId) w with
      | (Returned result, w2) =>
          (Returned tt,
           set_clients
             (alter (fun sent =>
                       sent ++ [mkWsFrame "response"
                                  (ws_response (response result) (CSRTypes.sessionId result)
                                     (steps result) (duration result) (sources result))])
                clientId (clients w1))
             (set_runtime (runtime w2) w1))
      | (Threw e, w2) =>
          (Returned tt,
           set_clients
             (alter (fun sent =>
                       sent ++ [mkWsFrame "error" (ws_message (Js.message_or_unknown e))])
                clientId (clients w1))
             (set_runtime (runtime w2) w1))
      end
  end.
Proof.
  unfold CSRGateway.handleChatMessage, CSRGateway.getClient.
  rewrite run_gets_bind. destruct (clients w !! clientId) as [sent|]; [|reflexivity].
  cbv zeta.
  set (w1 := set_clients (alter (fun sent => sent ++ [thinking]) clientId (clients w)) w).
  assert (Hchat : run (CSRService.chat text sessionId userId) w1
                  = (fst (run (CSRService.chat text sessionId userId) w),
                     set_runtime
                       (runtime (snd (run (CSRService.chat text sessionId userId) w))) w1)).
  { rewrite !chat_run. cbv zeta.
    change (session_id_of sessionId w1) with (session_id_of sessionId w).
    change (runtime w1) with (runtime w).
    by destruct (execute _ _ _ _) as [[result|t] r]. }
  destruct (run (CSRService.chat text sessionId userId) w) as [[result|e] w2];
    cbn [fst snd] in Hchat.
  - apply run_try_catch_returned.
    rewrite (run_bind_returned _ _ w tt w1) by apply sendToClient_run.
    rewrite (run_bind_returned _ _ _ _ _ Hchat).
    rewrite sendToClient_run. reflexivity.
  - rewrite (run_try_catch_threw _ _ w e (set_runtime (runtime w2) w1)).
    + rewrite sendToClient_run. reflexivity.
    + rewrite (run_bind_returned _ _ w tt w1) by apply sendToClient_run.
      by rewrite (run_bind_threw _ _ _ _ _ Hchat).
Qed.

(** X13.  A chat message over the socket is answered once and never
    fails: for a client that is not connected nothing happens, and the
    runtime is not called; a connected client is sent ['thinking'] and
    then one more frame, the response of the turn (without its
    execution id) or the message of what the turn threw.  No other
    client is sent anything, and none is added or dropped. *)
Theorem handleChatMessage_answers_once clientId text sessionId userId w :
  let w' := world_after (CSRGateway.handleChatMessage clientId text sessionId userId) w in
  result_of (CSRGateway.handleChatMessage clientId text sessionId userId) w = Returned tt
  ∧ (clients w !! clientId = None → w' = w)
  ∧ (∀ sent, clients w !! clientId = Some sent →
       clients w' !! clientId
       = Some (sent ++
               [thinking;
                match result_of (CSRService.chat text sessionId userId) w with
                | Returned result =>
                    mkWsFrame "response"
                      (ws_response (response result) (CSRTypes.sessionId result)
                         (steps result) (duration result) (sources result))
                | Threw e => mkWsFrame "error" (ws_message (Js.message_or_unknown e))
                end])
       ∧ runtime w' = runtime (world_after (CSRService.chat text sessionId userId) w))
  ∧ (∀ other, other ≠ clientId → clients w' !! other = clients w !! other)
  ∧ dom (clients w') = dom (clients w).
Proof.
  intros w'. subst w'. unfold result_of, world_after.
  rewrite handleChatMessage_run. cbv zeta.
  destruct (clients w !! clientId) as [sent0|] eqn:Hc.
  - destruct (run (CSRService.chat text sessionId userId) w) as [[result|e] w2];
      cbn [fst snd clients runtime set_clients set_runtime].
    all: split; [reflexivity|]. all: split; [discriminate|].
    all: split; [intros sent [= <-]; split; [|reflexivity];
                 rewrite !lookup_alter_eq, Hc; cbn; by rewrite <- app_assoc|].
    all: split; [intros other Hne; by rewrite !lookup_alter_ne|].
    all: by rewrite !dom_alter_L.
  - cbn [fst snd]. split; [reflexivity|]. split; [reflexivity|].
    split; [discriminate|]. split; reflexivity.
Qed.

(** X14.  The gateway starts a chat turn only for the event
    ['message'] with a text that is a string and not empty.  For any
    other event it does nothing.  An empty text is refused like a
    missing one: one ['error'] frame and no turn.  Otherwise the text,
    the session id and the user id of the message go to
    [handleChatMessage] as they are. *)
Theorem handleMessage_dispatch clientId message w :
  let data :=
    default (CSRGateway.mkChatMessage Js.undefined None None) (CSRGateway.data message) in
  (CSRGateway.event message ≠ "message" →
     run (CSRGateway.handleMessage clientId message) w = (Returned tt, w))
  ∧ (CSRGateway.event message = "message" → text_of message = Js.str "" →
     run (CSRGateway.handleMessage clientId message) w
     = (Returned tt,
        set_clients (alter (fun sent => sent ++ [text_required]) clientId (clients w)) w))
  ∧ (∀ s, CSRGateway.event message = "message" →
          text_of message = Js.str s → s ≠ "" →
     run (CSRGateway.handleMessage clientId message) w
     = run (CSRGateway.handleChatMessage clientId s (CSRGateway.sessionId data)
              (CSRGateway.userId data)) w).
Proof.
  intros data. unfold CSRGateway.handleMessage, CSRGateway.super_handleMessage.
  fold data. change (CSRGateway.text data) with (text_of message).
  split; [|split].
  - intros Hev. by rewrite bool_decide_eq_false_2.
  - intros -> ->. reflexivity.
  - intros s -> -> Hs. destruct s; [done|reflexivity].
Qed.

End GatewayFrames.

(** ** The tools of the agent over the business services *)

Section BusinessTools.
Context (Number_toString : Js.number → string).
Implicit Types s : Services.State.

Lemma updateAddress_run orderId newAddress s :
  run (Services.updateAddress Number_toString orderId newAddress) s =
  match Services.orders s !! orderId with
  | None => (Returned None, s)
  | Some o =>
      match Services.String_ Number_toString
              (Services.or_value (Services.address_of newAddress) newAddress) with
      | Threw e => (Threw e, s)
      | Returned address =>
          let o' :=
            Services.mkOrder (Services.order_id o) (Services.order_status o)
              (Services.order_items o) (Services.order_total o) address
              (Services.trackingNumber o) (Services.estimatedDelivery o)
              (Services.order_createdAt o) in
          (Returned (Some o'),
           Services.set_orders (<[orderId := o']> (Services.orders s)) s)
      end
  end.
Proof.
  unfold Services.updateAddress. rewrite run_gets_bind.
  destruct (Services.orders s !! orderId); [|reflexivity].
  destruct (Services.String_ _ _); reflexivity.
Qed.

Lemma lookupOrder_run orderId s :
  run (Tools.lookupOrder orderId) s =
  (Returned
     match Services.orders s !! orderId with
     | None => Tools.order_missing ("Order " +:+ orderId +:+ " not found")
     | Some o =>
         Tools.order_found (Services.order_id o) (Services.order_status o)
           (Services.order_items o) (Services.order_total o)
           (Services.shippingAddress o) (Services.trackingNumber o)
           (Services.estimatedDelivery o)
     end, s).
Proof.
  unfold Tools.lookupOrder, Services.findById. rewrite run_gets_bind.
  destruct (Services.orders s !! orderId); reflexivity.
Qed.

(** X15.  [updateShippingAddress] and [lookupOrder] agree.  For an
    order that does not exist the update reports the failure and
    changes nothing.  For one that exists, an update that returns
    reports the new address, a lookup of the order then shows that
    address and everything else of the order as before, and no other
    order changes; an update that throws has changed nothing.  The
    address stored is the [address] field of the object the tool is
    given when that field is a text that is not empty.  An object
    without a usable [address] field is converted as a whole: it is
    stored as the text ['[object Object]'], unless it has a [toString]
    field of its own, for which [String] throws a [TypeError] that
    leaves the tool. *)
Theorem updateShippingAddress_then_lookupOrder orderId newAddress s :
  let update := Tools.updateShippingAddress Number_toString orderId newAddress in
  let s' := world_after update s in
  match Services.orders s !! orderId with
  | None =>
      run update s
      = (Returned (Tools.address_not_updated ("Order " +:+ orderId +:+ " not found")), s)
  | Some o =>
      (∀ e, result_of update s = Threw e → s' = s)
      ∧ (∀ r, result_of update s = Returned r →
           ∃ address,
             r = Tools.address_updated orderId address
             ∧ result_of (Tools.lookupOrder orderId) s'
               = Returned
                   (Tools.order_found (Services.order_id o) (Services.order_status o)
                      (Services.order_items o) (Services.order_total o) address
                      (Services.trackingNumber o) (Services.estimatedDelivery o))
             ∧ (∀ other, other ≠ orderId →
                  result_of (Tools.lookupOrder other) s'
                  = result_of (Tools.lookupOrder other) s))
      ∧ (∀ fields a, newAddress = Js.object fields →
           Js.get_field "address" fields = Js.str a → a ≠ "" →
           result_of update s = Returned (Tools.address_updated orderId a))
      ∧ (∀ fields, newAddress = Js.object fields →
           Js.truthy (Js.get_field "address" fields) = false →
           result_of update s
           = if bool_decide ("toString" ∈ fields.*1)
             then Threw Services.cannot_convert
             else Returned (Tools.address_updated orderId "[object Object]"))
      ∧ Services.tickets s' = Services.tickets s
      ∧ Services.inventory s' = Services.inventory s
  end.
Proof.
  intros update s'. subst update s'.
  unfold world_after, result_of, Tools.updateShippingAddress.
  rewrite run_bind, updateAddress_run.
  destruct (Services.orders s !! orderId) as [o|] eqn:Ho; [|reflexivity].
  split; [|split; [|split; [|split; [|split]]]].
  - destruct (Services.String_ _ _); [discriminate|reflexivity].
  - intros r. destruct (Services.String_ _ _) as [address|e]; [|discriminate].
    cbv zeta. cbn [fst snd run mret M_ret ret]. intros [= <-].
    exists address. split; [reflexivity|]. split.
    + rewrite lookupOrder_run. cbn [fst Services.orders Services.set_orders].
      rewrite lookup_insert_eq. reflexivity.
    + intros other Hne. rewrite !lookupOrder_run.
      cbn [fst Services.orders Services.set_orders].
      by rewrite lookup_insert_ne.
  - intros fields a -> Ha Hne. cbn [Services.address_of].
    rewrite Ha. unfold Services.or_value. cbn [Js.truthy].
    destruct a; [done|reflexivity].
  - intros fields -> Hfalse. cbn [Services.address_of].
    unfold Services.or_value. rewrite Hfalse. cbn [Services.String_].
    destruct (bool_decide _); reflexivity.
  - destruct (Services.String_ _ _); reflexivity.
  - destruct (Services.String_ _ _); reflexivity.
Qed.

End BusinessTools.

Section Tickets.
Implicit Types s : Services.State.

Lemma create_run subject description priority s :
  run (Services.create subject description priority) s =
  let id := "TKT-" +:+ pretty (Services.clock s) in
  let ticket :=
    Services.mkTicket id subject description (Js.or_string priority "medium") "open"
      (Services.clock s) in
  (Returned ticket, Services.set_tickets (<[id := ticket]> (Services.tickets s)) s).
Proof. reflexivity. Qed.

(** X16.  The lookups and the refund change nothing and never fail.
    [lookupOrder] reports an order as missing exactly when the order
    service has none under the id, and [checkInventory] reports stock
    only for a product the inventory has with a quantity above zero.
    [processRefund] succeeds for every order id, whether the order
    exists or not, and for every amount, with the status ['pending'];
    its refund id is made of the clock only. *)
Theorem lookups_and_refunds_change_nothing s :
  (∀ orderId, ∃ r,
     run (Tools.lookupOrder orderId) s = (Returned r, s)
     ∧ ((∃ m, r = Tools.order_missing m) ↔ Services.orders s !! orderId = None))
  ∧ (∀ productId, ∃ r,
       run (Tools.checkInventory productId) s = (Returned r, s)
       ∧ Tools.inv_productId r = productId
       ∧ (Tools.inStock r = true ↔
          ∃ stock, Services.inventory s !! productId = Some stock
                   ∧ PrimFloat.ltb 0%float (Services.quantity stock) = true))
  ∧ (∀ orderId amount reason,
       run (Tools.processRefund orderId amount reason) s
       = (Returned (Tools.mkRefundToolResult true ("REF-" +:+ pretty (Services.clock s))
                      amount "pending" 5), s)).
Proof.
  split; [|split].
  - intros orderId. unfold Tools.lookupOrder, Services.findById.
    rewrite run_gets_bind.
    destruct (Services.orders s !! orderId) as [o|]; eexists; (split; [reflexivity|]).
    + split; [intros [m Hm]; discriminate|discriminate].
    + split; [reflexivity|]. intros _. by eexists.
  - intros productId. unfold Tools.checkInventory, Services.check.
    rewrite run_gets_bind.
    destruct (Services.inventory s !! productId) as [stock|];
      eexists; (split; [reflexivity|]); (split; [reflexivity|]);
      cbn [Tools.inStock].
    + split; [intros Hq; by exists stock|]. by intros (stock' & [= <-] & Hq).
    + split; [discriminate|]. by intros (stock' & Hnone & _).
  - reflexivity.
Qed.

(** X17.  A ticket that was created is found under its id, open and
    with a priority that is never empty, ['medium'] when none or an
    empty one was given; the other tickets stay as they were.  The id
    is made of the clock only: a second ticket created within the same
    millisecond takes the place of the first, which is lost, while one
    created later leaves it alone. *)
Theorem ticket_create_then_getById subject description priority s :
  let id := "TKT-" +:+ pretty (Services.clock s) in
  let s' := world_after (Services.create subject description priority) s in
  ∃ ticket,
    result_of (Services.create subject description priority) s = Returned ticket
    ∧ Services.ticket_id ticket = id
    ∧ Services.ticket_status ticket = "open"
    ∧ Services.ticket_priority ticket ≠ ""
    ∧ (priority = None ∨ priority = Some "" → Services.ticket_priority ticket = "medium")
    ∧ result_of (Services.getById id) s' = Returned (Some ticket)
    ∧ (∀ other, other ≠ id →
         result_of (Services.getById other) s' = result_of (Services.getById other) s)
    ∧ (∀ subject2 description2 priority2,
         let s2 := world_after (Services.create subject2 description2 priority2) s' in
         ∃ ticket2,
           result_of (Services.getById id) s2 = Returned (Some ticket2)
           ∧ Services.ticket_subject ticket2 = subject2
           ∧ Services.tickets s2 = <[id := ticket2]> (Services.tickets s))
    ∧ (∀ d subject2 description2 priority2, d ≠ 0%Z →
         let s2 :=
           world_after (Services.create subject2 description2 priority2)
             (Services.advance d s') in
         result_of (Services.getById id) s2 = Returned (Some ticket)).
Proof.
  intros id s'. subst s'. unfold world_after, result_of. rewrite create_run.
  cbv zeta. fold id. cbn [fst snd]. eexists. split; [reflexivity|].
  cbn [Services.ticket_id Services.ticket_status Services.ticket_priority].
  split; [reflexivity|]. split; [reflexivity|]. split.
  { destruct priority as [[|c p]|]; cbn; discriminate. }
  split. { intros [-> | ->]; reflexivity. }
  split. { cbn. by rewrite lookup_insert_eq. }
  split. { intros other Hne. cbn. by rewrite lookup_insert_ne. }
  split.
  - intros subject2 description2 priority2. rewrite create_run.
    cbv zeta. cbn [snd Services.clock Services.set_tickets Services.tickets].
    fold id. eexists. split; [|split].
    + cbn. by rewrite lookup_insert_eq.
    + reflexivity.
    + by rewrite insert_insert_eq.
  - intros d subject2 description2 priority2 Hd. rewrite create_run.
    cbv zeta. cbn [snd Services.clock Services.set_tickets Services.tickets
                   Services.advance Services.set_clock].
    cbn. rewrite lookup_insert_ne.
    + by rewrite lookup_insert_eq.
    + intros Heq. apply (inj (String.app "TKT-")) in Heq.
      apply (inj pretty) in Heq. lia.
Qed.

(** X18.  [createTicket] does not depend on the queue: with no queue,
    with one that takes the job and with one whose [add] throws, the
    tool returns its success with the id of the ticket, and the ticket
    is stored.  A queue that works is given one job, ['created'] in
    ['tickets'], with the id and the subject of the ticket; one that
    throws is left as it is and the failure is reported nowhere. *)
Theorem createTicket_survives_the_queue subject description priority s :
  let id := "TKT-" +:+ pretty (Services.clock s) in
  let s' := world_after (Tools.createTicket subject description priority) s in
  result_of (Tools.createTicket subject description priority) s
  = Returned (Tools.mkTicketToolResult true id "open"
                ("Ticket " +:+ id +:+ " created. Our team will follow up within 24 hours."))
  ∧ result_of (Services.getById id) s'
    = Returned (Some (Services.mkTicket id subject description
                        (Js.or_string priority "medium") "open" (Services.clock s)))
  ∧ match Services.queueService s with
    | None => Services.queueService s' = None
    | Some q =>
        match Services.add_throws q with
        | Some _ => Services.queueService s' = Some q
        | None =>
            Services.queueService s'
            = Some (Services.mkQueue None
                      (Services.jobs q ++ [Services.mkJob "tickets" "created" id subject]))
        end
    end
  ∧ Services.orders s' = Services.orders s
  ∧ Services.inventory s' = Services.inventory s.
Proof.
  intros id s'. subst s'. unfold world_after, result_of, Tools.createTicket.
  rewrite (run_bind_returned _ _ _ _ _ (create_run subject description priority s)).
  fold id. rewrite run_gets_bind.
  cbn [Services.queueService Services.set_tickets].
  destruct (Services.queueService s) as [[[e|] js]|] eqn:Hq.
  - rewrite run_bind.
    rewrite (run_try_catch_threw _ _ _ e
               (Services.set_tickets _ s)) by reflexivity.
    cbn. rewrite lookup_insert_eq, Hq. done.
  - rewrite run_bind.
    erewrite run_try_catch_returned by reflexivity.
    cbn. rewrite lookup_insert_eq, Hq. done.
  - cbn. rewrite lookup_insert_eq, Hq. done.
Qed.

End Tickets.

(** ** The adapter of the language model *)

Section Adapter.
Import LlmProvider.

Lemma to_tool_call_function tc : rtc_function (to_tool_call tc) = tc_function tc.
Proof. destruct tc as [tcid [n a]]. reflexivity. Qed.

(** X19.  The adapter around [openaiProvider.complete].  The request
    carries the role and the content of every message, in order, and a
    temperature of 0 as it is given; its functions are absent rather
    than an empty list, one per tool otherwise, each of type
    ['object'].  What [complete] throws, [chat] throws.  Of a
    response, a [functionCall] comes first: it gives exactly one tool
    call, under the id of the response, and the [toolCalls] beside it
    are dropped; without one the tool calls are those of the response,
    in order, and none are an empty list. *)
Theorem llm_adapter_tool_calls complete options :
  (req_messages (request options)
   = map (fun m => (role m, content m)) (messages options)
   ∧ (temperature options = Some 0%float →
      req_temperature (request options) = 0%float)
   ∧ req_functions (request options) ≠ Some []
   ∧ ∀ fs, req_functions (request options) = Some fs →
       ∃ ts, tools options = Some ts
             ∧ length fs = length ts
             ∧ Forall (fun f => fs_type f = "object") fs)
  ∧ match complete (request options) with
    | Threw e => chat complete options = Threw e
    | Returned response =>
        ∃ r, chat complete options = Returned r
             ∧ reply_content r = resp_content response
             ∧ Forall (fun tc => rtc_type tc = "function") (tool_calls r)
             ∧ (∀ fc, functionCall response = Some fc →
                  tool_calls r = [mkReplyToolCall (resp_id response) "function" fc])
             ∧ (functionCall response = None →
                  rtc_id <$> tool_calls r = tc_id <$> default [] (toolCalls response)
                  ∧ rtc_function <$> tool_calls r
                    = tc_function <$> default [] (toolCalls response))
    end.
Proof.
  split.
  - split; [reflexivity|].
    split; [intros Ht; unfold request; cbn [req_temperature]; by rewrite Ht|]. split.
    + unfold request. cbn [req_functions].
      destruct (tools options) as [ts|]; cbn [fmap option_fmap option_map]; [|done].
      destruct ts; cbn; done.
    + intros fs. unfold request. cbn [req_functions].
      destruct (tools options) as [ts|]; cbn [fmap option_fmap option_map];
        [|discriminate].
      destruct (bool_decide _); [|discriminate]. intros [= <-].
      exists ts. split; [reflexivity|]. split; [by rewrite length_map|].
      apply Forall_forall. intros f Hf.
      apply list_elem_of_In, in_map_iff in Hf as (t & <- & _). reflexivity.
  - unfold chat. destruct (complete (request options)) as [response|e]; [|reflexivity].
    eexists. split; [reflexivity|]. split; [reflexivity|].
    unfold reply. cbn [tool_calls].
    destruct (functionCall response) as [[n a]|]; (split; [|split]).
    + by repeat constructor.
    + by intros fc [= <-].
    + discriminate.
    + destruct (toolCalls response) as [tcs|]; cbn; [|constructor].
      induction tcs as [|tc tcs IH]; cbn; by constructor.
    + discriminate.
    + intros _. destruct (toolCalls response) as [tcs|]; cbn; [|done].
      split.
      * induction tcs as [|tc tcs IH]; cbn; [done|]. by f_equal.
      * induction tcs as [|tc tcs IH]; cbn; [done|].
        f_equal; [|exact IH]. by destruct tc as [tcid [n a]].
Qed.

End Adapter.

(** ** White space in the environment *)

Section BlankValues.

Example trim_examples :
  CSRService.trim "  pc-key  " = "pc-key"
  ∧ CSRService.trim "   " = ""
  ∧ CSRService.trim (String.string_of_list_ascii (CSRService.utf8 0xA0)) = ""
  ∧ CSRService.trim
      (String.string_of_list_ascii
         (CSRService.utf8 0xFEFF ++ String.list_ascii_of_string " a b"
          ++ CSRService.utf8 0x3000)) = "a b".
Proof. vm_compute. repeat split. Qed.

Section Strip.
Context (T : list (list Ascii.ascii)).

Lemma strip_prefix_Some p : ∀ l rest,
  CSRService.strip_prefix p l = Some rest ↔ l = p ++ rest.
Proof.
  induction p as [|a p IH]; intros l rest; cbn.
  - split; [by intros [= ->]|by intros ->].
  - destruct l as [|b l]; [split; discriminate|].
    destruct (decide (a = b)) as [->|Hne].
    + rewrite IH. split; [by intros ->|by intros [= ->]].
    + split; [discriminate|]. intros [= -> _]. done.
Qed.

Lemma strip_one_Some T' l rest :
  CSRService.strip_one T' l = Some rest → ∃ p, p ∈ T' ∧ l = p ++ rest.
Proof.
  induction T' as [|p T' IH]; cbn; [discriminate|].
  destruct (CSRService.strip_prefix p l) as [rest'|] eqn:E.
  - intros [= ->]. exists p. split; [apply elem_of_cons; by left|].
    by apply strip_prefix_Some.
  - intros H. destruct (IH H) as (q & Hq & ->).
    exists q. split; [apply elem_of_cons; by right|done].
Qed.

Lemma made_of_one p : p ∈ T → made_of T p.
Proof. intros Hp. rewrite <- (app_nil_r p). constructor; [done|constructor]. Qed.

Lemma made_of_app a b : made_of T a → made_of T b → made_of T (a ++ b).
Proof.
  induction 1 as [|p l Hp Hl IH]; intros Hb; [done|].
  rewrite <- app_assoc. constructor; auto.
Qed.

Lemma strip_all_split fuel : ∀ l,
  ∃ p, made_of T p ∧ l = p ++ CSRService.strip_all T fuel l.
Proof.
  induction fuel as [|fuel IH]; intros l; cbn.
  - exists []. split; [constructor|done].
  - destruct (CSRService.strip_one T l) as [rest|] eqn:E.
    + apply strip_one_Some in E as (p & Hp & ->).
      destruct (IH rest) as (q & Hq & Hrest).
      exists (p ++ q). split; [apply made_of_app; [by apply made_of_one|done]|].
      rewrite <- app_assoc. by rewrite <- Hrest.
    + exists []. split; [constructor|done].
Qed.

Lemma strip_all_nil fuel l : CSRService.strip_all T fuel l = [] → made_of T l.
Proof.
  intros H. destruct (strip_all_split fuel l) as (p & Hp & Hl).
  rewrite H, app_nil_r in Hl. by subst.
Qed.

Hypothesis Hfree : ∀ p q, p ∈ T → q ∈ T → p `prefix_of` q → p = q.
Hypothesis Hnonempty : [] ∉ T.

Lemma strip_one_hit p l : p ∈ T → CSRService.strip_one T (p ++ l) = Some l.
Proof.
  intros Hp.
  assert (H : ∀ T', T' ⊆ T → p ∈ T' → CSRService.strip_one T' (p ++ l) = Some l).
  { induction T' as [|q T' IH]; intros Hsub Hin; [by apply elem_of_nil in Hin|].
    cbn. destruct (CSRService.strip_prefix q (p ++ l)) as [rest|] eqn:E.
    - apply strip_prefix_Some in E.
      assert (Hq : q ∈ T) by (apply Hsub, elem_of_cons; by left).
      assert (Hpq : p `prefix_of` q ∨ q `prefix_of` p).
      { apply (prefix_weak_total _ _ (p ++ l)); [by exists l|exists rest; done]. }
      assert (p = q) as <- by (destruct Hpq; [by apply Hfree|symmetry; by apply Hfree]).
      by apply app_inv_head in E as ->.
    - apply elem_of_cons in Hin as [->|Hin].
      + assert (CSRService.strip_prefix q (q ++ l) = Some l) by (by apply strip_prefix_Some).
        congruence.
      + apply IH; [|done]. intros x Hx. apply Hsub, elem_of_cons. by right. }
  by apply H.
Qed.

Lemma made_of_strip l : made_of T l → ∀ fuel, length l ≤ fuel →
  CSRService.strip_all T fuel l = [].
Proof.
  induction 1 as [|p l Hp Hl IH]; intros fuel Hfuel.
  - destruct fuel; cbn; [done|].
    destruct (CSRService.strip_one T []) as [rest|] eqn:E; [|done].
    apply strip_one_Some in E as (q & Hq & Hnil).
    symmetry in Hnil. apply app_eq_nil in Hnil as [-> _]. done.
  - assert (p ≠ []) by (intros ->; done).
    rewrite length_app in Hfuel.
    destruct p as [|a p]; [done|]. cbn [length] in Hfuel.
    destruct fuel as [|fuel]; [lia|]. cbn [CSRService.strip_all].
    rewrite (strip_one_hit (a :: p) l Hp). apply IH. lia.
Qed.

End Strip.

Lemma made_of_rev T u : made_of (@rev Ascii.ascii <$> T) u → made_of T (rev u).
Proof.
  induction 1 as [|p l Hp Hl IH]; [constructor|].
  apply list_elem_of_fmap in Hp as (q & -> & Hq).
  rewrite rev_app_distr, rev_involutive.
  apply made_of_app; [done|]. by apply made_of_one.
Qed.

Lemma white_text_made_of l :
  white_text l ↔ made_of (CSRService.utf8 <$> CSRService.white_space) l.
Proof.
  split.
  - induction 1; constructor; [|done]. by apply list_elem_of_fmap_2.
  - induction 1 as [|p l Hp Hl IH]; [constructor|].
    apply list_elem_of_fmap in Hp as (c & -> & Hc). by constructor.
Qed.

Lemma white_space_prefix_free p q :
  p ∈ CSRService.utf8 <$> CSRService.white_space →
  q ∈ CSRService.utf8 <$> CSRService.white_space →
  p `prefix_of` q → p = q.
Proof.
  revert p q.
  assert (H : Forall (fun p => Forall (fun q => p `prefix_of` q → p = q)
                                 (CSRService.utf8 <$> CSRService.white_space))
                (CSRService.utf8 <$> CSRService.white_space)).
  { apply (bool_decide_unpack _). vm_compute. exact I. }
  intros p q Hp Hq. rewrite Forall_forall in H. specialize (H p Hp).
  rewrite Forall_forall in H. by apply H.
Qed.

Lemma white_space_nonempty : [] ∉ CSRService.utf8 <$> CSRService.white_space.
Proof. apply (bool_decide_unpack _). vm_compute. exact I. Qed.

Lemma truthy_string_of_list l :
  Js.truthy_string (String.string_of_list_ascii l) = false ↔ l = [].
Proof. destruct l; cbn; split; done. Qed.

Lemma trim_blank s : Js.truthy_string (CSRService.trim s) = false ↔ blank s.
Proof.
  unfold CSRService.trim, blank. rewrite truthy_string_of_list.
  set (l := String.list_ascii_of_string s). unfold CSRService.trimEnd.
  rewrite white_text_made_of. split.
  - intros H. apply (f_equal (@rev Ascii.ascii)) in H.
    rewrite rev_involutive in H.
    change (rev (@nil Ascii.ascii)) with (@nil Ascii.ascii) in H.
    apply strip_all_nil, made_of_rev in H. rewrite rev_involutive in H.
    destruct (strip_all_split (CSRService.utf8 <$> CSRService.white_space)
                (length l) l) as (p & Hp & Hl).
    rewrite Hl. by apply made_of_app.
  - intros H. unfold CSRService.trimStart.
    rewrite (made_of_strip _ white_space_prefix_free white_space_nonempty l H) by done.
    reflexivity.
Qed.

(** X20.  A variable of the environment that holds white space only
    counts as unset, for the white space of Unicode that [trim]
    removes.  [createVectorStore] selects Pinecone exactly when
    [PINECONE_API_KEY] is set to a text that is not made of white
    space only and the constructor of the Pinecone store does not
    throw; otherwise Qdrant exactly when the same holds of
    [QDRANT_URL] and its constructor; and the in-memory store in every
    other case. *)
Theorem createVectorStore_blank_is_unset e :
  let configured k := ∃ v, process_env e !! k = Some v ∧ ¬ blank v in
  let pinecone :=
    configured "PINECONE_API_KEY" ∧ constructor_throws e Rag.PineconeVectorStore = false in
  let qdrant :=
    configured "QDRANT_URL" ∧ constructor_throws e Rag.QdrantVectorStore = false in
  (CSRService.createVectorStore e = Rag.PineconeVectorStore ↔ pinecone)
  ∧ (CSRService.createVectorStore e = Rag.QdrantVectorStore ↔ ¬ pinecone ∧ qdrant)
  ∧ (CSRService.createVectorStore e = Rag.MemoryVectorStore ↔ ¬ pinecone ∧ ¬ qdrant).
Proof.
  intros configured pinecone qdrant.
  assert (Hset : ∀ k,
            CSRService.truthy_opt (CSRService.trim <$> process_env e !! k) = true
            ↔ configured k).
  { intros k. unfold configured.
    destruct (process_env e !! k) as [v|]; cbn.
    - split.
      + intros H. exists v. split; [done|]. intros Hb.
        apply trim_blank in Hb. congruence.
      + intros (v' & [= <-] & H).
        destruct (Js.truthy_string (CSRService.trim v)) eqn:E; [done|].
        exfalso. by apply H, trim_blank.
    - split; [discriminate|]. by intros (v' & Hnone & _). }
  assert (Hp : CSRService.truthy_opt (CSRService.trim <$> process_env e !! "PINECONE_API_KEY")
               && negb (constructor_throws e Rag.PineconeVectorStore) = true ↔ pinecone).
  { rewrite andb_true_iff, negb_true_iff, Hset. reflexivity. }
  assert (Hq : CSRService.truthy_opt (CSRService.trim <$> process_env e !! "QDRANT_URL")
               && negb (constructor_throws e Rag.QdrantVectorStore) = true ↔ qdrant).
  { rewrite andb_true_iff, negb_true_iff, Hset. reflexivity. }
  unfold CSRService.createVectorStore. cbv zeta.
  destruct (_ && _) eqn:Ep in Hp |- *.
  - assert pinecone by (by apply Hp).
    split; [tauto|]. split; (split; [discriminate|tauto]).
  - assert (¬ pinecone) by (intros Hyes; apply Hp in Hyes; discriminate).
    destruct (_ && _) eqn:Eq in Hq |- *.
    + assert qdrant by (by apply Hq).
      split; [split; [discriminate|tauto]|].
      split; [tauto|]. split; [discriminate|tauto].
    + assert (¬ qdrant) by (intros Hyes; apply Hq in Hyes; discriminate).
      split; [split; [discriminate|tauto]|].
      split; [split; [discriminate|tauto]|]. tauto.
Qed.

End BlankValues.

(** ** The log line of the start-up *)

Section Logs.
Context {R : Type} `{!AgentRuntime R}.
Implicit Types w : World R.

Lemma initialize_service_logs w :
  logs (world_after Bootstrap.initialize_service w)
  = logs w ++
    [match result_of CSRService.initialize w with
     | Returned _ => mkLogEntry log_info "CSR service initialized"
     | Threw e => mkLogEntry log_warn ("CSR service init: " +:+ Js.String_ e)
     end].
Proof.
  pose proof (keeps_initialize same_logs same_logs_leaves_alone w) as Hlogs.
  unfold same_logs, world_after, result_of in *.
  unfold Bootstrap.initialize_service, try_catch. cbn [run].
  rewrite run_bind.
  destruct (run CSRService.initialize w) as [[[]|e] w1]; cbn in *;
    rewrite Hlogs; done.
Qed.

End Logs.

(** ** The other outcomes of [initialize] *)

Section InitializeOutcomes.
Context {R : Type} `{!AgentRuntime R}.
Implicit Types w : World R.

Lemma initialize_run_selected w s :
  heap w !! ragService w = Some s →
  Rag.unreachable (Rag.backend s) = None →
  run CSRService.initialize w
  = (match memoryManager_initialize (env w) with
     | Some t => Threw t
     | None => Returned tt
     end,
     set_heap (<[ragService w := Rag.set_initialized s]> (heap w)) w).
Proof.
  intros Hs He. unfold CSRService.initialize.
  erewrite run_bind_returned; cycle 1.
  { apply run_try_catch_returned. rewrite run_gets_bind.
    by apply RAGService_initialize_returned. }
  rewrite run_gets_bind. cbn [env set_heap].
  by destruct (memoryManager_initialize (env w)).
Qed.

Lemma initialize_run_no_store w s e e' :
  heap w !! ragService w = Some s →
  Rag.unreachable (Rag.backend s) = Some e →
  Rag.unreachable (backend_of (env w) Rag.MemoryVectorStore) = Some e' →
  run CSRService.initialize w
  = (Threw e',
     set_ragService (fresh (dom (heap w)))
       (set_heap (<[fresh (dom (heap w))
                    := CSRService.RAGService_over (env w) Rag.MemoryVectorStore]>
                    (heap w)) w)).
Proof.
  intros Hs He Hmem. unfold CSRService.initialize.
  erewrite run_bind_threw; [reflexivity|].
  erewrite run_try_catch_threw; cycle 1.
  { rewrite run_gets_bind. by eapply RAGService_initialize_threw. }
  rewrite run_gets_bind.
  unfold new_RAGService, lift. rewrite run_bind. cbn [run].
  rewrite run_modify_bind, run_gets_bind. cbn [ragService set_ragService].
  erewrite run_bind_threw; [reflexivity|].
  eapply RAGService_initialize_threw.
  - cbn [heap set_ragService set_heap]. apply lookup_insert_eq.
  - exact Hmem.
Qed.

(** X22.  When the selected knowledge backend initializes,
    [initialize] keeps it: the store of the service is marked
    initialized where it is, no other store is created, and the
    service, the runtime and the agent hold the store they held.  The
    memory manager is initialized after the store, and what it throws
    leaves [initialize] while the store stays initialized. *)
Theorem initialize_keeps_a_working_store w s :
  heap w !! ragService w = Some s →
  Rag.unreachable (Rag.backend s) = None →
  let w' := world_after CSRService.initialize w in
  result_of CSRService.initialize w
  = match memoryManager_initialize (env w) with
    | Some t => Threw t
    | None => Returned tt
    end
  ∧ heap w' = <[ragService w := Rag.set_initialized s]> (heap w)
  ∧ dom (heap w') = dom (heap w)
  ∧ ragService w' = ragService w
  ∧ runtime_config_ragService w' = runtime_config_ragService w
  ∧ agent_ragService w' = agent_ragService w.
Proof.
  intros Hs He w'. subst w'. unfold result_of, world_after.
  rewrite (initialize_run_selected w s Hs He). cbn.
  repeat split. apply dom_insert_lookup_L. by exists s.
Qed.

(** X23.  When neither the selected backend nor the in-memory fallback
    initializes, [initialize] throws what the fallback threw, and
    leaves the service on the fallback store, which is not
    initialized, while the runtime and the agent keep the selected
    one.  The start of the process goes on: it logs the failure as a
    warning and returns. *)
Theorem initialize_without_any_store w s e e' :
  heap w !! ragService w = Some s →
  Rag.unreachable (Rag.backend s) = Some e →
  Rag.unreachable (backend_of (env w) Rag.MemoryVectorStore) = Some e' →
  let w' := world_after CSRService.initialize w in
  result_of CSRService.initialize w = Threw e'
  ∧ ragService w' ≠ ragService w
  ∧ heap w' !! ragService w'
    = Some (CSRService.RAGService_over (env w) Rag.MemoryVectorStore)
  ∧ heap w' !! ragService w = Some s
  ∧ runtime_config_ragService w' = runtime_config_ragService w
  ∧ agent_ragService w' = agent_ragService w
  ∧ result_of Bootstrap.initialize_service w = Returned tt
  ∧ logs (world_after Bootstrap.initialize_service w)
    = logs w ++ [mkLogEntry log_warn ("CSR service init: " +:+ Js.String_ e')].
Proof.
  intros Hs He Hmem w'. subst w'.
  assert (Hfresh : fresh (dom (heap w)) ≠ ragService w).
  { intros Heq. apply (is_fresh (dom (heap w))).
    rewrite Heq. apply elem_of_dom. by exists s. }
  pose proof (initialize_service_logs w) as Hlogs.
  unfold result_of, world_after in *.
  unfold Bootstrap.initialize_service at 1.
  erewrite run_try_catch_threw; cycle 1.
  { erewrite run_bind_threw; [reflexivity|].
    exact (initialize_run_no_store w s e e' Hs He Hmem). }
  rewrite (initialize_run_no_store w s e e' Hs He Hmem) in *.
  cbn [fst snd ragService set_ragService heap set_heap runtime_config_ragService
       agent_ragService] in *.
  split; [reflexivity|]. split; [exact Hfresh|].
  split; [apply lookup_insert_eq|].
  split; [by rewrite lookup_insert_ne|].
  split; [reflexivity|]. split; [reflexivity|]. split; [reflexivity|].
  exact Hlogs.
Qed.

End InitializeOutcomes.

(** Nothing is configured, and the in-memory store initializes. *)
Lemma initialize_keeps_a_working_store_witness :
  let w := Fixture.service Fixture.local 1700000000000 [] in
  let s := CSRService.RAGService_over Fixture.local Rag.MemoryVectorStore in
  let w' := world_after CSRService.initialize w in
  heap w !! ragService w = Some s
  ∧ result_of CSRService.initialize w = Returned tt
  ∧ heap w' !! ragService w' = Some (Rag.set_initialized s)
  ∧ runtime_config_ragService w' = ragService w'
  ∧ agent_ragService w' = ragService w'.
Proof.
  cbv zeta.
  assert (Hs : heap (Fixture.service Fixture.local 1700000000000 [])
               !! ragService (Fixture.service Fixture.local 1700000000000 [])
               = Some (CSRService.RAGService_over Fixture.local Rag.MemoryVectorStore))
    by (vm_compute; reflexivity).
  destruct (initialize_keeps_a_working_store
              (Fixture.service Fixture.local 1700000000000 [])
              (CSRService.RAGService_over Fixture.local Rag.MemoryVectorStore)
              Hs eq_refl)
    as (Hres & Hheap & _ & Hrag & Hcfg & Hagent).
  split; [exact Hs|]. split; [exact Hres|]. split; [|split].
  - rewrite Hheap, Hrag. apply lookup_insert_eq.
  - rewrite Hcfg, Hrag. reflexivity.
  - rewrite Hagent, Hrag. reflexivity.
Defined.

(** Pinecone is configured, and no store can be reached. *)
Lemma initialize_without_any_store_witness :
  let nothing_works :=
    mkEnv {[ "PINECONE_API_KEY" := "pc-key" ]} (fun _ => Fixture.down)
      (fun _ => false) None in
  let w := Fixture.service nothing_works 1700000000000 [] in
  let w' := world_after CSRService.initialize w in
  heap w !! ragService w
  = Some (CSRService.RAGService_over nothing_works Rag.PineconeVectorStore)
  ∧ result_of CSRService.initialize w = Threw Fixture.refused
  ∧ Rag.initialized <$> heap w' !! ragService w' = Some false
  ∧ Rag.vectorStore <$> heap w' !! ragService w' = Some Rag.MemoryVectorStore
  ∧ Rag.vectorStore <$> heap w' !! agent_ragService w' = Some Rag.PineconeVectorStore
  ∧ logs (world_after Bootstrap.initialize_service w)
    = [mkLogEntry log_warn
         "CSR service init: Error: connect ECONNREFUSED 10.0.0.12:6333"].
Proof.
  cbv zeta.
  assert (Hs : heap (Fixture.service
                       (mkEnv {[ "PINECONE_API_KEY" := "pc-key" ]} (fun _ => Fixture.down)
                          (fun _ => false) None) 1700000000000 [])
               !! ragService (Fixture.service
                       (mkEnv {[ "PINECONE_API_KEY" := "pc-key" ]} (fun _ => Fixture.down)
                          (fun _ => false) None) 1700000000000 [])
               = Some (CSRService.RAGService_over
                         (mkEnv {[ "PINECONE_API_KEY" := "pc-key" ]}
                            (fun _ => Fixture.down) (fun _ => false) None)
                         Rag.PineconeVectorStore))
    by (vm_compute; reflexivity).
  destruct (initialize_without_any_store _ _ Fixture.refused Fixture.refused
              Hs eq_refl eq_refl)
    as (Hres & _ & Hfallback & _ & _ & Hagent & _ & Hlogs).
  split; [exact Hs|]. split; [exact Hres|]. split; [|split; [|split]].
  - rewrite Hfallback. reflexivity.
  - rewrite Hfallback. reflexivity.
  - rewrite Hagent. vm_compute. reflexivity.
  - rewrite Hlogs. reflexivity.
Defined.
